(** * Agentic task runner: tools, heuristic planner and executor

    A shallow embedding of [src/lib/agent.ts] and of the tool module it
    imports as ["./tools"] (ToolExecution, TOOLKIT, getToolByName and the
    three tool handlers), followed by the properties the specification
    states about them.

    Conventions of the embedding:
    - a JavaScript string is the list of its UTF-16 code units;
    - everything the program obtains from its host (environment variable,
      UUIDs, clock, network, the remote language model, the expression
      evaluator outside a small integer fragment) is read from a [Host]
      record; each UUID drawn, clock reading, network request, evaluator
      call and language-model request is appended to a log;
    - an [async] function becomes a computation in a state-and-exception
      monad over that log; every [await] in the source is sequential;
    - values that the program builds itself have the types it declares
      for them; the planner's answer, which it decodes with [JSON.parse]
      and uses unchecked, is a JSON value of any shape, and the
      functions that receive parts of it ([executePlan], [getToolByName]
      and the tool handlers) have a second definition on such values,
      named with the suffix [_value], which throws the TypeError that
      the engine throws where a part is not what its type says. *)

From Stdlib Require Import List NArith ZArith Bool String Ascii Lia.
From Stdlib Require Import Permutation Sorted.
From Stdlib Require Import DecimalString.
From Stdlib Require DecimalFacts DecimalN.
Import ListNotations.

(* ================================================================== *)
(** ** JavaScript strings and the built-ins the program calls          *)
(* ================================================================== *)

Module JS.

Definition jsstring := list N.

(** An ASCII source literal as code units. *)
Definition lit (s : string) : jsstring :=
  map N_of_ascii (list_ascii_of_string s).

Definition eqb (a b : jsstring) : bool :=
  if list_eq_dec N.eq_dec a b then true else false.

(** Truthiness of a string value: only the empty string is falsy. *)
Definition truthy (s : jsstring) : bool :=
  match s with [] => false | _ :: _ => true end.

(** [a || b] on strings. *)
Definition or_else (a b : jsstring) : jsstring :=
  if truthy a then a else b.

Definition in_range (lo hi c : N) : bool := (lo <=? c)%N && (c <=? hi)%N.

(** WhiteSpace and LineTerminator code units: what [\s] matches in a
    regular expression and what [String.prototype.trim] strips. *)
Definition is_space (c : N) : bool :=
  in_range 9 13 c || (c =? 32)%N || (c =? 160)%N || (c =? 5760)%N
  || in_range 8192 8202 c || (c =? 8232)%N || (c =? 8233)%N
  || (c =? 8239)%N || (c =? 8287)%N || (c =? 12288)%N || (c =? 65279)%N.

Definition is_digit (c : N) : bool := in_range 48 57 c.
Definition is_lower (c : N) : bool := in_range 97 122 c.
Definition is_upper (c : N) : bool := in_range 65 90 c.

(** [\w] *)
Definition is_word (c : N) : bool :=
  is_digit c || is_lower c || is_upper c || (c =? 95)%N.

Fixpoint trimStart (s : jsstring) : jsstring :=
  match s with
  | c :: t => if is_space c then trimStart t else s
  | [] => []
  end.

Definition trim (s : jsstring) : jsstring :=
  rev (trimStart (rev (trimStart s))).

(** [toLowerCase]: computed on strings of ASCII code units; on any other
    string the Unicode case mapping of the host, [u], is used. *)
Definition is_ascii (c : N) : bool := (c <? 128)%N.

Definition lower_unit (c : N) : N := if is_upper c then (c + 32)%N else c.

Definition toLowerCase (u : jsstring -> jsstring) (s : jsstring) : jsstring :=
  if forallb is_ascii s then map lower_unit s else u s.

(** [s.startsWith(p)] *)
Fixpoint startsWith (p s : jsstring) : bool :=
  match p, s with
  | [], _ => true
  | _ :: _, [] => false
  | a :: p', b :: s' => (a =? b)%N && startsWith p' s'
  end.

(** An unanchored search: does [m] accept the string at some position. *)
Fixpoint somewhere (m : jsstring -> bool) (s : jsstring) : bool :=
  m s || match s with [] => false | _ :: t => somewhere m t end.

(** [text.includes(word)] *)
Definition includes (text word : jsstring) : bool :=
  somewhere (startsWith word) text.

(** [parts.join(sep)] *)
Fixpoint join (sep : jsstring) (parts : list jsstring) : jsstring :=
  match parts with
  | [] => []
  | [p] => p
  | p :: rest => p ++ sep ++ join sep rest
  end.

Definition newline : jsstring := [10%N].

(** [arr.slice(0, n)] *)
Definition slice0 {A} (n : nat) (l : list A) : list A := firstn n l.

(** [s.split(/[^a-z0-9]+/)]: the pieces between maximal runs of
    separator units, empty leading and trailing pieces included. *)
Definition is_keyword_unit (c : N) : bool := is_lower c || is_digit c.

Fixpoint split_from (cur : jsstring) (in_sep : bool) (s : jsstring)
  : list jsstring :=
  match s with
  | [] => [rev cur]
  | c :: t =>
      if is_keyword_unit c then split_from (c :: cur) false t
      else if in_sep then split_from cur true t
      else rev cur :: split_from [] true t
  end.

Definition split_non_alnum (s : jsstring) : list jsstring :=
  split_from [] false s.

(** Template interpolation of an integer-valued number. *)
Definition show_N (n : N) : jsstring :=
  lit (NilZero.string_of_uint (N.to_uint n)).

Definition show_Z (z : Z) : jsstring :=
  lit (NilZero.string_of_int (Z.to_int z)).

(** *** The integer fragment of expression evaluation

    [Function("...return (" + input + ");")()] is computed here for
    inputs made of decimal integer literals, [+], [-], [*], [^],
    parentheses and spaces, as long as every literal and intermediate
    value is an integer of magnitude at most 2^53 (where double
    arithmetic is exact). Any other input is left to the host. *)

Inductive token :=
| TNum (n : N) | TPlus | TMinus | TStar | TCaret | TLParen | TRParen.

Fixpoint digits_value (acc : N) (ds : jsstring) : N :=
  match ds with
  | [] => acc
  | d :: t => digits_value (10 * acc + (d - 48))%N t
  end.

(** Reads the digits in front of [s]; returns them with the rest. *)
Fixpoint span_digits (s : jsstring) : jsstring * jsstring :=
  match s with
  | c :: t =>
      if is_digit c then let (ds, r) := span_digits t in (c :: ds, r)
      else ([], s)
  | [] => ([], [])
  end.

(** A literal with a leading zero is a legacy octal form, which strict
    code rejects: it is left out of the fragment. *)
Definition literal_ok (ds : jsstring) : bool :=
  match ds with
  | [] => false
  | [_] => true
  | d :: _ => negb (d =? 48)%N
  end.

Fixpoint tokenize (fuel : nat) (s : jsstring) : option (list token) :=
  match fuel with
  | O => None
  | S f =>
      match s with
      | [] => Some []
      | c :: t =>
          let punct (k : token) := option_map (cons k) (tokenize f t) in
          if (c =? 32)%N then tokenize f t
          else if (c =? 43)%N then punct TPlus
          else if (c =? 45)%N then punct TMinus
          else if (c =? 42)%N then punct TStar
          else if (c =? 94)%N then punct TCaret
          else if (c =? 40)%N then punct TLParen
          else if (c =? 41)%N then punct TRParen
          else if is_digit c then
            let (ds, r) := span_digits s in
            if literal_ok ds
            then option_map (cons (TNum (digits_value 0 ds)))
                            (tokenize f r)
            else None
          else None
      end
  end.

Inductive binop := Add | Sub | Mul | Xor.

Inductive expr :=
| Num (n : N)
| Bin (op : binop) (a b : expr).

(** Recursive descent with the precedence of the language: [*] binds
    tighter than [+] and [-], which bind tighter than [^]; all three
    levels associate to the left. *)
Fixpoint parse_xor (fuel : nat) (ts : list token) : option (expr * list token) :=
  match fuel with
  | O => None
  | S f =>
      match parse_add f ts with
      | Some (a, r) => xor_loop f a r
      | None => None
      end
  end
with xor_loop (fuel : nat) (acc : expr) (ts : list token)
  : option (expr * list token) :=
  match fuel with
  | O => None
  | S f =>
      match ts with
      | TCaret :: r =>
          match parse_add f r with
          | Some (b, r') => xor_loop f (Bin Xor acc b) r'
          | None => None
          end
      | _ => Some (acc, ts)
      end
  end
with parse_add (fuel : nat) (ts : list token) : option (expr * list token) :=
  match fuel with
  | O => None
  | S f =>
      match parse_mul f ts with
      | Some (a, r) => add_loop f a r
      | None => None
      end
  end
with add_loop (fuel : nat) (acc : expr) (ts : list token)
  : option (expr * list token) :=
  match fuel with
  | O => None
  | S f =>
      match ts with
      | TPlus :: r =>
          match parse_mul f r with
          | Some (b, r') => add_loop f (Bin Add acc b) r'
          | None => None
          end
      | TMinus :: r =>
          match parse_mul f r with
          | Some (b, r') => add_loop f (Bin Sub acc b) r'
          | None => None
          end
      | _ => Some (acc, ts)
      end
  end
with parse_mul (fuel : nat) (ts : list token) : option (expr * list token) :=
  match fuel with
  | O => None
  | S f =>
      match parse_atom f ts with
      | Some (a, r) => mul_loop f a r
      | None => None
      end
  end
with mul_loop (fuel : nat) (acc : expr) (ts : list token)
  : option (expr * list token) :=
  match fuel with
  | O => None
  | S f =>
      match ts with
      | TStar :: r =>
          match parse_atom f r with
          | Some (b, r') => mul_loop f (Bin Mul acc b) r'
          | None => None
          end
      | _ => Some (acc, ts)
      end
  end
with parse_atom (fuel : nat) (ts : list token) : option (expr * list token) :=
  match fuel with
  | O => None
  | S f =>
      match ts with
      | TNum n :: r => Some (Num n, r)
      | TLParen :: r =>
          match parse_xor f r with
          | Some (e, TRParen :: r') => Some (e, r')
          | _ => None
          end
      | _ => None
      end
  end.

Definition parse (s : jsstring) : option expr :=
  match tokenize (S (List.length s)) s with
  | Some ts =>
      match parse_xor (8 * List.length ts + 8) ts with
      | Some (e, []) => Some e
      | _ => None
      end
  | None => None
  end.

(** Integers that a double holds exactly. *)
Definition exact (z : Z) : bool := (Z.abs z <=? 2 ^ 53)%Z.

(** ToInt32 on an integer-valued number. *)
Definition ToInt32 (z : Z) : Z := ((z + 2 ^ 31) mod 2 ^ 32 - 2 ^ 31)%Z.

Definition apply_binop (op : binop) (x y : Z) : Z :=
  match op with
  | Add => (x + y)%Z
  | Sub => (x - y)%Z
  | Mul => (x * y)%Z
  | Xor => Z.lxor (ToInt32 x) (ToInt32 y)
  end.

Fixpoint eval (e : expr) : option Z :=
  match e with
  | Num n => if exact (Z.of_N n) then Some (Z.of_N n) else None
  | Bin op a b =>
      match eval a, eval b with
      | Some x, Some y =>
          let r := apply_binop op x y in
          if exact r then Some r else None
      | _, _ => None
      end
  end.

Definition arith (input : jsstring) : option Z :=
  match parse input with
  | Some e => eval e
  | None => None
  end.

End JS.

Import JS.

(* ================================================================== *)
(** ** Data model                                                      *)
(* ================================================================== *)

(** [ToolContext] *)
Record ToolContext := { task : jsstring }.

(** [ToolExecution]; the optional property [error] is an [option]. *)
Record ToolExecution := {
  te_id : jsstring;
  te_tool : jsstring;
  te_input : jsstring;
  te_output : jsstring;
  te_success : bool;
  te_error : option jsstring
}.

(** [PlanItem] and [PlanPayload] of agent.ts. *)
Record PlanItem := {
  pi_id : jsstring;
  pi_title : jsstring;
  pi_description : jsstring;
  pi_tool : jsstring
}.

Record PlanPayload := {
  pp_reasoning : jsstring;
  pp_plan : list PlanItem
}.

Record Meta := {
  startedAt : jsstring;
  completedAt : jsstring;
  durationMs : Z
}.

(** [AgentOutcome] *)
Record AgentOutcome := {
  ao_success : bool;
  ao_plan : list PlanItem;
  ao_steps : list ToolExecution;
  ao_final : jsstring;
  ao_reasoning : jsstring;
  ao_meta : Meta;
  ao_error : option jsstring
}.

(** An entry of the knowledge base. *)
Record Doc := { title : jsstring; content : jsstring }.

(** The decoded body of the search endpoint, as searchTool types it. *)
Record SubTopic := { sub_Text : option jsstring }.

Record Topic := {
  Text : option jsstring;
  Topics : option (list SubTopic)
}.

Record SearchData := {
  AbstractText : option jsstring;
  RelatedTopics : option (list Topic)
}.

(** What [JSON.parse] returns. Of a number the program can only tell
    whether it is zero, through [||]; an object is the list of its own
    properties, each key once. *)
#[warnings="-register-all"] Inductive JSON :=
| JNull
| JBool (b : bool)
| JNumber (nonzero : bool)
| JString (s : jsstring)
| JArray (items : list JSON)
| JObject (properties : list (jsstring * JSON)).

(** [value.key] for a [value] that is not null and a [key] that no
    string, number, boolean or array has: the own property of an object,
    [undefined] ([None]) otherwise. *)
Definition get (key : jsstring) (value : JSON) : option JSON :=
  match value with
  | JObject properties =>
      option_map snd (find (fun property => eqb (fst property) key) properties)
  | _ => None
  end.

(** Truthiness of a value that may be [undefined]. *)
Definition truthy_value (value : option JSON) : bool :=
  match value with
  | None => false
  | Some JNull => false
  | Some (JBool b) => b
  | Some (JNumber nonzero) => nonzero
  | Some (JString s) => truthy s
  | Some (JArray _) => true
  | Some (JObject _) => true
  end.

(** A value read at the type [string] that the program declares for it:
    the string it is, and nothing of a value that is no string. *)
Definition text (value : option JSON) : jsstring :=
  match value with
  | Some (JString s) => s
  | _ => []
  end.

(** A step of a plan read at its declared type [PlanItem]. *)
Definition as_item (step : JSON) : PlanItem :=
  {| pi_id := text (get (lit "id") step);
     pi_title := text (get (lit "title") step);
     pi_description := text (get (lit "description") step);
     pi_tool := text (get (lit "tool") step) |}.

(** The values that [for (const step of plan)] goes through, [None]
    when [plan] is not iterable: of the values [JSON.parse] returns only
    an array and a string are. A string yields strings, one per
    character (per code unit here: the loop does not get past the first
    of them). *)
Definition iterate (plan : option JSON) : option (list JSON) :=
  match plan with
  | Some (JArray items) => Some items
  | Some (JString s) => Some (map (fun c => JString [c]) s)
  | _ => None
  end.

(** A plan read at its declared type [PlanItem[]]. *)
Definition as_plan (plan : option JSON) : list PlanItem :=
  match iterate plan with
  | Some steps => map as_item steps
  | None => []
  end.

(** The value that [JSON.parse] returns for the text of a step and of a
    payload of the declared types. *)
Definition item_value (step : PlanItem) : JSON :=
  JObject [(lit "id", JString (pi_id step));
           (lit "title", JString (pi_title step));
           (lit "description", JString (pi_description step));
           (lit "tool", JString (pi_tool step))].

Definition payload_value (payload : PlanPayload) : JSON :=
  JObject [(lit "reasoning", JString (pp_reasoning payload));
           (lit "plan", JArray (map item_value (pp_plan payload)))].

(* ================================================================== *)
(** ** Exceptions, the host and the effect monad                       *)
(* ================================================================== *)

(** A thrown value: an [Error] instance with its message, or anything
    else (for which [instanceof Error] is false). *)
Inductive Thrown :=
| ErrorObject (message : jsstring)
| NonError.

(** [error instanceof Error ? error.message : "Unknown error"] *)
Definition message_of (error : Thrown) : jsstring :=
  match error with
  | ErrorObject message => message
  | NonError => lit "Unknown error"
  end.

Inductive Completion (A : Type) :=
| Return (a : A)
| Throw (e : Thrown).
Arguments Return {A} a.
Arguments Throw {A} e.

(** The uses of a value for which the engine throws a TypeError: reading
    a property of [null], iterating over a value that is not iterable,
    and calling a method that the value does not have. Each carries the
    name of the variable in the source and the value it holds. *)
Inductive Misuse :=
| Member (variable : jsstring) (value : option JSON) (key : jsstring)
| Iterate (variable : jsstring) (value : option JSON)
| Call (variable : jsstring) (value : option JSON) (method : jsstring).

(** [fetch]'s response: its [status] and what [response.json()] settles
    to. *)
Record Response := {
  status : N;
  json : Completion SearchData
}.

(** [response.ok]: the status is in the range 200-299. *)
Definition ok (response : Response) : bool := in_range 200 299 (status response).

(** One entry per interaction with the host, oldest first. *)
Inductive Event :=
| EvRandomUUID
| EvNewDate
| EvFetch (url : jsstring)
| EvFunction (code : jsstring)
| EvPlanRequest (task : jsstring)
| EvFinalRequest (task : jsstring).

Definition World := list Event.

(** What the host answers. The index is the number of interactions made
    so far, so that two identical requests may be answered differently.
    [type_error] is the message that the engine gives to a TypeError;
    [plan_at] is what [JSON.parse] makes of the text of the planner's
    answer (or throws), a value that nothing checks against the type
    [PlanPayload] it is then taken for. *)
Record Host := {
  OPENAI_API_KEY : option jsstring;
  uuid_at : nat -> jsstring;
  clock_at : nat -> Z;
  toISOString : Z -> jsstring;
  unicode_lower : jsstring -> jsstring;
  encodeURIComponent : jsstring -> Completion jsstring;
  fetch_at : nat -> jsstring -> Completion Response;
  function_at : nat -> jsstring -> Completion jsstring;
  type_error : Misuse -> jsstring;
  plan_at : nat -> jsstring -> Completion JSON;
  final_at :
    nat -> jsstring -> list PlanItem -> list ToolExecution ->
    Completion jsstring
}.

Definition M (A : Type) : Type := World -> Completion A * World.

Definition ret {A} (a : A) : M A := fun w => (Return a, w).

Definition throw {A} (e : Thrown) : M A := fun w => (Throw e, w).

Definition bind {A B} (m : M A) (k : A -> M B) : M B :=
  fun w =>
    match m w with
    | (Return a, w') => k a w'
    | (Throw e, w') => (Throw e, w')
    end.

(** [try { body } catch (error) { handler }] *)
Definition try_catch {A} (body : M A) (handler : Thrown -> M A) : M A :=
  fun w =>
    match body w with
    | (Return a, w') => (Return a, w')
    | (Throw e, w') => handler e w'
    end.

(** A host answer that is itself pure. *)
Definition settle {A} (c : Completion A) : M A := fun w => (c, w).

(** A host answer that is an interaction. *)
Definition interact {A} (ev : Event) (answer : nat -> Completion A) : M A :=
  fun w => (answer (List.length w), w ++ [ev]).

Declare Scope js_scope.
Delimit Scope js_scope with js.
Notation "x <- m ;; k" := (bind m (fun x => k))
  (at level 61, m at next level, right associativity) : js_scope.
Open Scope js_scope.

(* ================================================================== *)
(** ** The tool module                                                 *)
(* ================================================================== *)

Module Tools.
Section WithHost.
Variable h : Host.

Definition lower (s : jsstring) : jsstring := toLowerCase (unicode_lower h) s.

Definition randomUUID : M jsstring :=
  interact EvRandomUUID (fun n => Return (uuid_at h n)).

Definition KNOWLEDGE_BASE : list Doc := [
  {| title := lit "Agentic AI definition";
     content := lit "Agentic AI systems combine reasoning, planning, and tool usage to autonomously achieve goals across multiple steps." |};
  {| title := lit "Product launch checklist";
     content := lit "A successful launch involves defining target personas, crafting messaging, creating assets, scheduling announcements, and preparing success metrics." |};
  {| title := lit "Data storytelling";
     content := lit "Transform raw analysis into narratives by highlighting the question, methodology, insights, and actionable recommendations." |}
].

Definition scoreKnowledgeBase (query : jsstring) (doc : Doc) : nat :=
  let q := lower query in
  let text := lower (title doc ++ lit " " ++ content doc) in
  let keywords := filter truthy (split_non_alnum q) in
  let matches :=
    fold_left
      (fun total word => total + (if includes text word then 1 else 0))
      keywords 0 in
  matches.

(** An element of the ranked array: [{ doc, score }]. *)
Record Entry := { doc : Doc; score : nat }.

(** [entries.sort((a, b) => b.score - a.score)]: a stable sort by
    descending score. *)
Fixpoint insert_desc (x : Entry) (l : list Entry) : list Entry :=
  match l with
  | [] => [x]
  | y :: t =>
      if score y <? score x then x :: l else y :: insert_desc x t
  end.

Definition sort_desc (l : list Entry) : list Entry :=
  fold_left (fun sorted x => insert_desc x sorted) l [].

(** The bullet of the rendered snippet is U+2022. *)
Definition render (entry : Entry) : jsstring :=
  [8226%N] ++ lit " " ++ title (doc entry) ++ lit ": " ++ content (doc entry).

Definition rank (query : jsstring) : list Entry :=
  slice0 2
    (sort_desc
       (filter (fun entry => 0 <? score entry)
          (map (fun doc => {| doc := doc;
                              score := scoreKnowledgeBase query doc |})
               KNOWLEDGE_BASE))).

Definition knowledgeBaseTool (input : jsstring) (context : ToolContext)
  : M ToolExecution :=
  let ranked := rank (or_else input (task context)) in
  let output :=
    if 0 <? List.length ranked
    then join newline (map render ranked)
    else lit "No relevant knowledge snippets found." in
  id <- randomUUID ;;
  ret {| te_id := id;
         te_tool := lit "knowledgeBase";
         te_input := input;
         te_output := output;
         te_success := true;
         te_error := None |}.

(** The snippets searchTool collects from a decoded body, in order. *)
Definition present (field : option jsstring) : list jsstring :=
  match field with
  | Some s => if truthy s then [s] else []
  | None => []
  end.

Definition topic_snippets (topic : Topic) : list jsstring :=
  present (Text topic) ++
  match Topics topic with
  | Some ts => flat_map (fun t => present (sub_Text t)) ts
  | None => []
  end.

Definition collect_snippets (data : SearchData) : list jsstring :=
  present (AbstractText data) ++
  match RelatedTopics data with
  | Some topics => flat_map topic_snippets topics
  | None => []
  end.

Definition search_url (q : jsstring) : jsstring :=
  lit "https://api.duckduckgo.com/?q=" ++ q ++
  lit "&format=json&no_html=1&skip_disambig=1".

Definition fetch (url : jsstring) : M Response :=
  interact (EvFetch url) (fun n => fetch_at h n url).

Definition searchTool (input : jsstring) : M ToolExecution :=
  if negb (truthy (trim input)) then
    id <- randomUUID ;;
    ret {| te_id := id;
           te_tool := lit "webSearch";
           te_input := input;
           te_output := lit "Search input missing.";
           te_success := false;
           te_error := Some (lit "The search tool requires a query string.") |}
  else
    try_catch
      (q <- settle (encodeURIComponent h input) ;;
       response <- fetch (search_url q) ;;
       if negb (ok response) then
         throw (ErrorObject (lit "HTTP " ++ show_N (status response)))
       else
         data <- settle (json response) ;;
         let snippets := collect_snippets data in
         let output :=
           or_else (join newline (slice0 4 snippets))
                   (lit "No search snippets returned.") in
         id <- randomUUID ;;
         ret {| te_id := id;
                te_tool := lit "webSearch";
                te_input := input;
                te_output := output;
                te_success := true;
                te_error := None |})
      (fun error =>
         let message := message_of error in
         id <- randomUUID ;;
         ret {| te_id := id;
                te_tool := lit "webSearch";
                te_input := input;
                te_output := lit "Search failed.";
                te_success := false;
                te_error := Some message |}).

(** The units of the class [[0-9+\-*/().%\s^]]. *)
Definition whitelisted (c : N) : bool :=
  is_digit c || (c =? 43)%N || (c =? 45)%N || (c =? 42)%N || (c =? 47)%N
  || (c =? 40)%N || (c =? 41)%N || (c =? 46)%N || (c =? 37)%N
  || is_space c || (c =? 94)%N.

(** [/^[0-9+\-*/().%\s^]*$/.test(expression)] *)
Definition isSafeMathExpression (expression : jsstring) : bool :=
  forallb whitelisted expression.

(** The source text handed to [Function]. *)
Definition function_body (input : jsstring) : jsstring :=
  [34%N] ++ lit "use strict" ++ [34%N] ++ lit "; return (" ++ input ++ lit ");".

(** [`${Function(body)()}`]: the value of the expression, as text. *)
Definition call_Function (input : jsstring) : M jsstring :=
  interact (EvFunction (function_body input))
    (fun n =>
       match arith input with
       | Some z => Return (show_Z z)
       | None => function_at h n (function_body input)
       end).

Definition calculatorTool (input : jsstring) : M ToolExecution :=
  if negb (truthy (trim input)) then
    id <- randomUUID ;;
    ret {| te_id := id;
           te_tool := lit "calculator";
           te_input := input;
           te_output := lit "No expression provided.";
           te_success := false;
           te_error := Some (lit "Expression required for calculator tool.") |}
  else if negb (isSafeMathExpression input) then
    id <- randomUUID ;;
    ret {| te_id := id;
           te_tool := lit "calculator";
           te_input := input;
           te_output := [];
           te_success := false;
           te_error := Some (lit "Expression contains unsupported characters.") |}
  else
    try_catch
      (result <- call_Function input ;;
       id <- randomUUID ;;
       ret {| te_id := id;
              te_tool := lit "calculator";
              te_input := input;
              te_output := lit "Result: " ++ result;
              te_success := true;
              te_error := None |})
      (fun error =>
         let message := message_of error in
         id <- randomUUID ;;
         ret {| te_id := id;
                te_tool := lit "calculator";
                te_input := input;
                te_output := [];
                te_success := false;
                te_error := Some message |}).

(** The TypeError that the engine throws for a misuse. *)
Definition TypeError (misuse : Misuse) : Thrown :=
  ErrorObject (type_error h misuse).

(** [variable.method()] for a method of strings, [trim] or
    [toLowerCase]: the call goes through on a string, which is handed
    on; on any other value it is a TypeError. *)
Definition receiver (variable method : jsstring) (value : option JSON)
  : M jsstring :=
  match value with
  | Some (JString s) => ret s
  | _ => throw (TypeError (Call variable value method))
  end.

(** [input || context.task] on a value. *)
Definition or_else_value (input : option JSON) (task : jsstring)
  : option JSON :=
  if truthy_value input then input else Some (JString task).

(** The three handlers on an input that nothing has checked to be a
    string. Each calls a method of strings on it before anything else
    ([input.trim()] in searchTool and calculatorTool,
    [query.toLowerCase()] in scoreKnowledgeBase for the first document),
    and goes on as on a string when that call goes through. *)
Definition searchTool_value (input : option JSON) : M ToolExecution :=
  input <- receiver (lit "input") (lit "trim") input ;;
  searchTool input.

Definition calculatorTool_value (input : option JSON) : M ToolExecution :=
  input <- receiver (lit "input") (lit "trim") input ;;
  calculatorTool input.

(** The registry passes [input || context.task], a truthy value or the
    task itself, so that the query [input || context.task] of
    knowledgeBaseTool is that value again. *)
Definition knowledgeBaseTool_value (input : option JSON)
    (context : ToolContext) : M ToolExecution :=
  input <- receiver (lit "query") (lit "toLowerCase") input ;;
  knowledgeBaseTool input context.

(** [Tool]. [execute] is the handler on a string, as its signature
    declares; [execute_value] is the same handler on whatever value a
    caller passes. *)
Record Tool := {
  name : jsstring;
  description : jsstring;
  execute : jsstring -> ToolContext -> M ToolExecution;
  execute_value : option JSON -> ToolContext -> M ToolExecution
}.

Definition TOOLKIT : list Tool := [
  {| name := lit "webSearch";
     description := lit "Live web search using DuckDuckGo instant answer API.";
     execute := fun input context => searchTool (or_else input (task context));
     execute_value := fun input context =>
       searchTool_value (or_else_value input (task context)) |};
  {| name := lit "calculator";
     description := lit "Solve mathematical expressions including +, -, *, /, %, and ^.";
     execute := fun input _ => calculatorTool input;
     execute_value := fun input _ => calculatorTool_value input |};
  {| name := lit "knowledgeBase";
     description := lit "Query snippets from a curated strategy and AI knowledge base.";
     execute := fun input context =>
                  knowledgeBaseTool (or_else input (task context)) context;
     execute_value := fun input context =>
       knowledgeBaseTool_value (or_else_value input (task context)) context |}
].

Definition getToolByName (name' : jsstring) : option Tool :=
  find (fun tool => eqb (lower (name tool)) (lower name')) TOOLKIT.

(** [getToolByName] on a value: [name.toLowerCase()] is evaluated for
    the first tool of the registry. *)
Definition getToolByName_value (name' : option JSON) : M (option Tool) :=
  name' <- receiver (lit "name") (lit "toLowerCase") name' ;;
  ret (getToolByName name').

End WithHost.
End Tools.

(* ================================================================== *)
(** ** agent.ts                                                        *)
(* ================================================================== *)

Module Agent.
Import Tools.
Section WithHost.
Variable h : Host.

Definition FALLBACK_PLAN_LIMIT : nat := 3.

(** One of the literal alternatives of a pattern starts here. *)
Definition starts_any (alternatives : list jsstring) (s : jsstring) : bool :=
  existsb (fun a => startsWith a s) alternatives.

(** [analy\w+] starts here: the five letters and at least one [\w]. *)
Definition starts_analy_w (s : jsstring) : bool :=
  startsWith (lit "analy") s &&
  match skipn 5 s with
  | c :: _ => is_word c
  | [] => false
  end.

(** [/(analy\w+|calculate|percent|growth|increase|decrease|budget|roi)/.test(s)] *)
Definition analysis_pattern (s : jsstring) : bool :=
  somewhere
    (fun t =>
       starts_analy_w t ||
       starts_any [lit "calculate"; lit "percent"; lit "growth";
                   lit "increase"; lit "decrease"; lit "budget"; lit "roi"] t)
    s.

(** [/(research|find|latest|current|news|market)/.test(s)] *)
Definition research_pattern (s : jsstring) : bool :=
  somewhere
    (starts_any [lit "research"; lit "find"; lit "latest";
                 lit "current"; lit "news"; lit "market"])
    s.

Definition calculator_step (id : jsstring) : PlanItem :=
  {| pi_id := id;
     pi_title := lit "Quantify key numbers";
     pi_description := lit "Use the calculator to work through the core numeric components of the request.";
     pi_tool := lit "calculator" |}.

Definition webSearch_step (id : jsstring) : PlanItem :=
  {| pi_id := id;
     pi_title := lit "Collect live context";
     pi_description := lit "Pull quick snippets from the web to augment knowledge with recent information.";
     pi_tool := lit "webSearch" |}.

Definition knowledgeBase_step (id : jsstring) : PlanItem :=
  {| pi_id := id;
     pi_title := lit "Reference built-in playbooks";
     pi_description := lit "Consult the knowledge base for strategic or evergreen guidance.";
     pi_tool := lit "knowledgeBase" |}.

Definition buildFallbackPlan (task : jsstring) : M PlanPayload :=
  let plan : list PlanItem := [] in
  let lowerTask := lower h task in
  plan <-
    (if analysis_pattern lowerTask
     then id <- randomUUID h ;; ret (plan ++ [calculator_step id])
     else ret plan) ;;
  plan <-
    (if research_pattern lowerTask
     then id <- randomUUID h ;; ret (plan ++ [webSearch_step id])
     else ret plan) ;;
  id <- randomUUID h ;;
  let plan := plan ++ [knowledgeBase_step id] in
  ret {| pp_reasoning := lit "Generated plan via heuristic fallback because the OpenAI API key is not configured.";
         pp_plan := slice0 FALLBACK_PLAN_LIMIT plan |}.

(** The record pushed for a step whose tool is not found. *)
Definition unregistered (id : jsstring) (step : PlanItem) : ToolExecution :=
  {| te_id := id;
     te_tool := pi_tool step;
     te_input := [];
     te_output := lit "Tool not available.";
     te_success := false;
     te_error := Some (lit "Tool " ++ pi_tool step ++ lit " is not registered.") |}.

(** The body of [for (const step of plan)], with the array being built. *)
Fixpoint executePlan_from (executions : list ToolExecution)
    (plan : list PlanItem) (task : jsstring) : M (list ToolExecution) :=
  match plan with
  | [] => ret executions
  | step :: rest =>
      match getToolByName h (pi_tool step) with
      | None =>
          id <- randomUUID h ;;
          executePlan_from (executions ++ [unregistered id step]) rest task
      | Some tool =>
          execution <- execute tool (pi_description step) {| task := task |} ;;
          executePlan_from (executions ++ [execution]) rest task
      end
  end.

Definition executePlan (plan : list PlanItem) (task : jsstring)
  : M (list ToolExecution) :=
  executePlan_from [] plan task.

(** [variable.key], a TypeError when the variable holds null. *)
Definition member (variable key : jsstring) (value : JSON)
  : M (option JSON) :=
  match value with
  | JNull => throw (TypeError h (Member variable (Some value) key))
  | _ => ret (get key value)
  end.

(** The loop of executePlan over values that nothing has checked to be
    plan items: [step.tool] is read from each, the tool is looked up
    under it, and the tool found is run on [step.description]. *)
Fixpoint executePlan_value_from (executions : list ToolExecution)
    (steps : list JSON) (task : jsstring) : M (list ToolExecution) :=
  match steps with
  | [] => ret executions
  | step :: rest =>
      name' <- member (lit "step") (lit "tool") step ;;
      tool <- getToolByName_value h name' ;;
      match tool with
      | None =>
          id <- randomUUID h ;;
          executePlan_value_from
            (executions ++ [unregistered id (as_item step)]) rest task
      | Some tool =>
          execution <- execute_value tool (get (lit "description") step)
                         {| task := task |} ;;
          executePlan_value_from (executions ++ [execution]) rest task
      end
  end.

(** executePlan on a [plan] that nothing has checked to be an array. *)
Definition executePlan_value (plan : option JSON) (task : jsstring)
  : M (list ToolExecution) :=
  match iterate plan with
  | None => throw (TypeError h (Iterate (lit "plan") plan))
  | Some steps => executePlan_value_from [] steps task
  end.

(** The planning request; its answer is [JSON.parse(planText)], returned
    as it is. *)
Definition callOpenAIForPlan (task : jsstring) : M JSON :=
  interact (EvPlanRequest task) (fun n => plan_at h n task).

(** [executePlan(planPayload.plan, task)] *)
Definition executePlan_of (planPayload : JSON) (task : jsstring)
  : M (list ToolExecution) :=
  plan <- member (lit "planPayload") (lit "plan") planPayload ;;
  executePlan_value plan task.

(** [planPayload.plan] and [planPayload.reasoning] once the property
    has been read without a TypeError, at their declared types. *)
Definition plan_of (planPayload : JSON) : list PlanItem :=
  as_plan (get (lit "plan") planPayload).

Definition reasoning_of (planPayload : JSON) : jsstring :=
  text (get (lit "reasoning") planPayload).

Definition callOpenAIForFinal (task : jsstring) (plan : list PlanItem)
    (steps : list ToolExecution) : M jsstring :=
  interact (EvFinalRequest task) (fun n => final_at h n task plan steps).

(** [new Date()], as its time value in milliseconds. *)
Definition newDate : M Z :=
  interact EvNewDate (fun n => Return (clock_at h n)).

(** [!apiKey]: the variable is unset or empty. *)
Definition no_credential : bool :=
  match OPENAI_API_KEY h with
  | Some key => negb (truthy key)
  | None => true
  end.

Definition offline_final : jsstring :=
  lit "The live LLM backend is not configured, but here is an offline plan and tool output you can use as a starting point.".

Definition missing_key_error : jsstring :=
  lit "OpenAI API key missing. Configure OPENAI_API_KEY to enable full agentic reasoning.".

(** The construction of the client, [new OpenAI({ apiKey })], takes a
    non-empty key here and has no part in what follows. With a
    credential the plan is the planner's answer as decoded, of whatever
    shape: what the loop does with it is [executePlan_of], which is
    [executePlan] on an answer of the declared type and may throw on
    another. The outcome is a record of the declared type: of an answer
    that is executed it carries the plan and the reasoning read at
    their declared types ([plan_of], [reasoning_of]). *)
Definition runAgentTask (task : jsstring) : M AgentOutcome :=
  startedAt <- newDate ;;
  if no_credential then
    fallbackPlan <- buildFallbackPlan task ;;
    steps <- executePlan (pp_plan fallbackPlan) task ;;
    let final := offline_final in
    now <- newDate ;;
    ret {| ao_success := true;
           ao_plan := pp_plan fallbackPlan;
           ao_steps := steps;
           ao_final := final;
           ao_reasoning := pp_reasoning fallbackPlan;
           ao_meta := {| startedAt := toISOString h startedAt;
                         completedAt := toISOString h now;
                         durationMs := 0 |};
           ao_error := Some missing_key_error |}
  else
    try_catch
      (planPayload <- callOpenAIForPlan task ;;
       steps <- executePlan_of planPayload task ;;
       final <- callOpenAIForFinal task (plan_of planPayload) steps ;;
       completedAt <- newDate ;;
       ret {| ao_success := true;
              ao_plan := plan_of planPayload;
              ao_steps := steps;
              ao_final := final;
              ao_reasoning := reasoning_of planPayload;
              ao_meta := {| startedAt := toISOString h startedAt;
                            completedAt := toISOString h completedAt;
                            durationMs := completedAt - startedAt |};
              ao_error := None |})
      (fun error =>
         completedAt <- newDate ;;
         let message := message_of error in
         ret {| ao_success := false;
                ao_plan := [];
                ao_steps := [];
                ao_final := [];
                ao_reasoning := [];
                ao_meta := {| startedAt := toISOString h startedAt;
                              completedAt := toISOString h completedAt;
                              durationMs := completedAt - startedAt |};
                ao_error := Some message |}).

End WithHost.
End Agent.

Import Tools Agent.

Arguments lit : simpl never.
Arguments slice0 : simpl never.
Arguments show_N : simpl never.
Arguments show_Z : simpl never.

(* ================================================================== *)
(** ** The plan schema of agent.ts                                     *)
(* ================================================================== *)

(** The constraints [buildPlanSchema] puts on the plan array and on the
    [tool] of its items. *)
Record PlanSchema := {
  schema_name : jsstring;
  tool_enum : list jsstring;
  item_required : list jsstring;
  minItems : nat;
  maxItems : nat;
  schema_required : list jsstring;
  additionalProperties : bool
}.

Definition buildPlanSchema (h : Host) : PlanSchema :=
  {| schema_name := lit "AgentPlan";
     tool_enum := map name (TOOLKIT h);
     item_required := [lit "id"; lit "title"; lit "description"; lit "tool"];
     minItems := 2;
     maxItems := 4;
     schema_required := [lit "reasoning"; lit "plan"];
     additionalProperties := false |}.

(* ================================================================== *)
(** ** The request handler of the agent route                          *)
(* ================================================================== *)

Module Route.
Section WithHost.
Variable h : Host.

(** What [request.json()] settles to, as far as the handler looks at
    it: [null], with what reading a property of it throws; or a value
    whose [task] property is a string, or is not one. *)
Inductive Body :=
| BodyNull (error : Thrown)
| BodyValue (task_property : option jsstring).

Record Request := { request_json : Completion Body }.

(** [NextResponse.json(body, { status })] *)
Record HttpResponse := {
  http_status : N;
  http_body : AgentOutcome
}.

(** The body of the two refusals of the handler. *)
Definition refusal (message : jsstring) : M AgentOutcome :=
  startedAt <- newDate h ;;
  completedAt <- newDate h ;;
  ret {| ao_success := false;
         ao_plan := [];
         ao_steps := [];
         ao_final := [];
         ao_reasoning := [];
         ao_meta := {| startedAt := toISOString h startedAt;
                       completedAt := toISOString h completedAt;
                       durationMs := 0 |};
         ao_error := Some message |}.

(** [typeof body.task === "string" ? body.task.trim() : ""] *)
Definition task_of (body : Body) : M jsstring :=
  match body with
  | BodyNull error => throw error
  | BodyValue (Some s) => ret (trim s)
  | BodyValue None => ret []
  end.

Definition POST (request : Request) : M HttpResponse :=
  try_catch
    (body <- settle (request_json request) ;;
     task <- task_of body ;;
     if negb (truthy task) then
       outcome <- refusal (lit "Task is required.") ;;
       ret {| http_status := 400; http_body := outcome |}
     else
       outcome <- runAgentTask h task ;;
       ret {| http_status := if ao_success outcome then 200%N else 500%N;
              http_body := outcome |})
    (fun error =>
       let message := message_of error in
       outcome <- refusal message ;;
       ret {| http_status := 500; http_body := outcome |}).

End WithHost.
End Route.

Import Route.

(* ================================================================== *)
(** ** The chat component: the state kept by handleSubmit              *)
(* ================================================================== *)

Module Chat.

Inductive Status := idle | running | failed | completed.

(** [AgentRun] *)
Record AgentRun := {
  run_id : jsstring;
  run_task : jsstring;
  run_status : Status;
  run_plan : list PlanItem;
  run_steps : list ToolExecution;
  run_final : option jsstring;
  run_reasoning : option jsstring;
  run_error : option jsstring;
  run_startedAt : jsstring;
  run_durationMs : option Z
}.

(** The decoded body of the answer; a property the component reads
    through [??] or [?.], or copies as it is, may be missing. *)
Record AgentApiResponse := {
  data_success : bool;
  data_plan : option (list PlanItem);
  data_steps : option (list ToolExecution);
  data_final : option jsstring;
  data_reasoning : option jsstring;
  data_meta : option Meta;
  data_error : option jsstring
}.

(** The three pieces of state of the component. *)
Record State := {
  ui_input : jsstring;
  ui_runs : list AgentRun;
  ui_submitting : bool
}.

Definition initial : State :=
  {| ui_input := []; ui_runs := []; ui_submitting := false |}.

(** [a ?? b] *)
Definition nullish {A} (a : option A) (b : A) : A :=
  match a with Some x => x | None => b end.

(** The run put in front of the list when a request starts. *)
Definition started (runId task startedAt : jsstring) : AgentRun :=
  {| run_id := runId;
     run_task := task;
     run_status := running;
     run_plan := [];
     run_steps := [];
     run_final := None;
     run_reasoning := None;
     run_error := None;
     run_startedAt := startedAt;
     run_durationMs := None |}.

(** The part of handleSubmit before the request: [None] when it returns
    at once, and otherwise the task it posts with the new state. *)
Definition submit (runId startedAt : jsstring) (st : State)
  : option (jsstring * State) :=
  if negb (truthy (trim (ui_input st))) || ui_submitting st then None
  else
    let task := trim (ui_input st) in
    Some (task,
          {| ui_input := [];
             ui_runs := started runId task startedAt :: ui_runs st;
             ui_submitting := true |}).

(** [{ ...run, status: ..., plan: data.plan ?? [], ... }] *)
Definition resolved (data : AgentApiResponse) (run : AgentRun) : AgentRun :=
  {| run_id := run_id run;
     run_task := run_task run;
     run_status := if data_success data then completed else failed;
     run_plan := nullish (data_plan data) [];
     run_steps := nullish (data_steps data) [];
     run_final := data_final data;
     run_reasoning := data_reasoning data;
     run_error :=
       if data_success data then None
       else Some (nullish (data_error data) (lit "Agent failed"));
     run_startedAt := run_startedAt run;
     run_durationMs := option_map durationMs (data_meta data) |}.

(** [{ ...run, status: "failed", error: message }] *)
Definition rejected (message : jsstring) (run : AgentRun) : AgentRun :=
  {| run_id := run_id run;
     run_task := run_task run;
     run_status := failed;
     run_plan := run_plan run;
     run_steps := run_steps run;
     run_final := run_final run;
     run_reasoning := run_reasoning run;
     run_error := Some message;
     run_startedAt := run_startedAt run;
     run_durationMs := run_durationMs run |}.

(** [prev.map((run) => (run.id === runId ? f(run) : run))] *)
Definition update_run (runId : jsstring) (f : AgentRun -> AgentRun)
    (prev : list AgentRun) : list AgentRun :=
  map (fun run => if JS.eqb (run_id run) runId then f run else run) prev.

(** [error instanceof Error ? error.message : "Unknown error occurred"] *)
Definition client_message (error : Thrown) : jsstring :=
  match error with
  | ErrorObject message => message
  | NonError => lit "Unknown error occurred"
  end.

(** The part of handleSubmit after the request: the list is updated for
    the answer or for what was thrown, and then, in [finally], the
    submitting flag is cleared. *)
Definition settled (runId : jsstring) (answer : Completion AgentApiResponse)
    (st : State) : State :=
  {| ui_input := ui_input st;
     ui_runs :=
       match answer with
       | Return data => update_run runId (resolved data) (ui_runs st)
       | Throw error => update_run runId (rejected (client_message error))
                                   (ui_runs st)
       end;
     ui_submitting := false |}.

(** [onChange]: the text area sets the input. *)
Definition typed (text : jsstring) (st : State) : State :=
  {| ui_input := text;
     ui_runs := ui_runs st;
     ui_submitting := ui_submitting st |}.

(** The component with the identifiers of the requests in flight. Each
    handler sees the state the previous one left. *)
Inductive step : State * list jsstring -> State * list jsstring -> Prop :=
| step_typed st pending text :
    step (st, pending) (typed text st, pending)
| step_ignored st pending runId startedAt :
    submit runId startedAt st = None ->
    step (st, pending) (st, pending)
| step_submitted st pending runId startedAt task st' :
    submit runId startedAt st = Some (task, st') ->
    step (st, pending) (st', runId :: pending)
| step_settled st before runId after answer :
    step (st, before ++ runId :: after)
         (settled runId answer st, before ++ after).

Inductive reachable : State * list jsstring -> Prop :=
| reachable_initial : reachable (initial, [])
| reachable_step s s' : reachable s -> step s s' -> reachable s'.

Definition in_progress (run : AgentRun) : bool :=
  match run_status run with running => true | _ => false end.

(** What the component decodes from the body the route sent for an
    outcome: every property is there, except [error] when it is unset. *)
Definition wire (outcome : AgentOutcome) : AgentApiResponse :=
  {| data_success := ao_success outcome;
     data_plan := Some (ao_plan outcome);
     data_steps := Some (ao_steps outcome);
     data_final := Some (ao_final outcome);
     data_reasoning := Some (ao_reasoning outcome);
     data_meta := Some (ao_meta outcome);
     data_error := ao_error outcome |}.

(** What holds between two handlers: nothing is in flight, the flag is
    down and no run is in progress; or one request is in flight, the
    flag is up, and the run in progress is the newest one, which carries
    the identifier of the request. *)
Definition consistent (s : State * list jsstring) : Prop :=
  let (st, pending) := s in
  match pending with
  | [] =>
      ui_submitting st = false /\
      forallb (fun run => negb (in_progress run)) (ui_runs st) = true
  | [runId] =>
      ui_submitting st = true /\
      exists run rest,
        ui_runs st = run :: rest /\
        run_id run = runId /\
        in_progress run = true /\
        forallb (fun run => negb (in_progress run)) rest = true
  | _ :: _ :: _ => False
  end.

End Chat.

(* ================================================================== *)
(** ** Hosts used in the examples                                      *)
(* ================================================================== *)

Definition network_down : Thrown := ErrorObject (lit "fetch failed").

(** The messages of an engine for the three kinds of TypeError. *)
Definition engine_message (misuse : Misuse) : jsstring :=
  match misuse with
  | Member _ _ key =>
      lit "Cannot read properties of null (reading '" ++ key ++ lit "')"
  | Iterate variable _ => variable ++ lit " is not iterable"
  | Call _ None method =>
      lit "Cannot read properties of undefined (reading '" ++ method ++ lit "')"
  | Call _ (Some JNull) method =>
      lit "Cannot read properties of null (reading '" ++ method ++ lit "')"
  | Call variable _ method =>
      variable ++ lit "." ++ method ++ lit " is not a function"
  end.

(** No credential, no network; UUIDs and clock readings are numbered. *)
Definition offline_host : Host := {|
  OPENAI_API_KEY := None;
  uuid_at := fun n => lit "uuid-" ++ show_N (N.of_nat n);
  clock_at := fun n => (1000 + 7 * Z.of_nat n)%Z;
  toISOString := show_Z;
  unicode_lower := fun s => s;
  encodeURIComponent := fun s => Return s;
  fetch_at := fun _ _ => Throw network_down;
  function_at := fun _ _ => Throw (ErrorObject (lit "Unexpected token"));
  type_error := engine_message;
  plan_at := fun _ _ => Throw network_down;
  final_at := fun _ _ _ _ => Throw network_down
|}.

(** A credential is set, but the planning request is refused. *)
Definition refused_host : Host := {|
  OPENAI_API_KEY := Some (lit "sk-test");
  uuid_at := uuid_at offline_host;
  clock_at := clock_at offline_host;
  toISOString := show_Z;
  unicode_lower := fun s => s;
  encodeURIComponent := fun s => Return s;
  fetch_at := fun _ _ => Throw network_down;
  function_at := function_at offline_host;
  type_error := engine_message;
  plan_at := fun _ _ => Throw (ErrorObject (lit "401 Incorrect API key provided"));
  final_at := fun _ _ _ _ => Throw network_down
|}.

Definition sample_data : SearchData := {|
  AbstractText := Some (lit "A");
  RelatedTopics := Some [
    {| Text := Some (lit "B"); Topics := None |};
    {| Text := None;
       Topics := Some [ {| sub_Text := Some (lit "C") |};
                        {| sub_Text := Some [] |};
                        {| sub_Text := Some (lit "D") |} ] |};
    {| Text := Some (lit "E"); Topics := None |} ]
|}.

(** The search endpoint answers 200 with [sample_data]. *)
Definition searching_host : Host := {|
  OPENAI_API_KEY := None;
  uuid_at := uuid_at offline_host;
  clock_at := clock_at offline_host;
  toISOString := show_Z;
  unicode_lower := fun s => s;
  encodeURIComponent := fun s => Return s;
  fetch_at := fun _ _ =>
    Return {| status := 200; json := Return sample_data |};
  function_at := function_at offline_host;
  type_error := engine_message;
  plan_at := fun _ _ => Throw network_down;
  final_at := fun _ _ _ _ => Throw network_down
|}.

(** A plan whose second step names a tool that does not exist, and
    whose first step spells its tool with a capital. *)
Definition sample_plan : list PlanItem := [
  {| pi_id := lit "a"; pi_title := lit "Sum";
     pi_description := lit "2+2"; pi_tool := lit "Calculator" |};
  {| pi_id := lit "b"; pi_title := lit "Mail";
     pi_description := lit "send it"; pi_tool := lit "email" |};
  {| pi_id := lit "c"; pi_title := lit "Look up";
     pi_description := lit "agentic ai"; pi_tool := lit "knowledgeBase" |}
].

(** A credential is set and both remote calls answer. *)
Definition online_host : Host := {|
  OPENAI_API_KEY := Some (lit "sk-test");
  uuid_at := uuid_at offline_host;
  clock_at := clock_at offline_host;
  toISOString := show_Z;
  unicode_lower := fun s => s;
  encodeURIComponent := fun s => Return s;
  fetch_at := fun _ _ => Throw network_down;
  function_at := function_at offline_host;
  type_error := engine_message;
  plan_at := fun _ _ =>
    Return (payload_value {| pp_reasoning := lit "r"; pp_plan := sample_plan |});
  final_at := fun _ _ _ _ => Return (lit "done")
|}.

(** A planner's answer that is not of the declared type: its second
    step has a number for its tool. *)
Definition ill_shaped_answer : JSON :=
  JObject [(lit "reasoning", JString (lit "r"));
           (lit "plan",
            JArray [JObject [(lit "id", JString (lit "a"));
                             (lit "title", JString (lit "Mail"));
                             (lit "description", JString (lit "send it"));
                             (lit "tool", JString (lit "email"))];
                    JObject [(lit "id", JString (lit "b"));
                             (lit "title", JString (lit "Sum"));
                             (lit "description", JString (lit "2+2"));
                             (lit "tool", JNumber true)]])].

(** A credential is set and the planner answers [ill_shaped_answer]. *)
Definition ill_shaped_host : Host := {|
  OPENAI_API_KEY := Some (lit "sk-test");
  uuid_at := uuid_at offline_host;
  clock_at := clock_at offline_host;
  toISOString := show_Z;
  unicode_lower := fun s => s;
  encodeURIComponent := fun s => Return s;
  fetch_at := fun _ _ => Throw network_down;
  function_at := function_at offline_host;
  type_error := engine_message;
  plan_at := fun _ _ => Return ill_shaped_answer;
  final_at := fun _ _ _ _ => Return (lit "done")
|}.

(** A credential is set, the planner answers a plan of the declared
    type, and the summarizing request is refused. *)
Definition unsummarized_host : Host := {|
  OPENAI_API_KEY := Some (lit "sk-test");
  uuid_at := uuid_at offline_host;
  clock_at := clock_at offline_host;
  toISOString := show_Z;
  unicode_lower := fun s => s;
  encodeURIComponent := fun s => Return s;
  fetch_at := fun _ _ => Throw network_down;
  function_at := function_at offline_host;
  type_error := engine_message;
  plan_at := plan_at online_host;
  final_at := fun _ _ _ _ => Throw (ErrorObject (lit "429 Rate limit reached"))
|}.

(* ================================================================== *)
(** ** Specification predicates                                        *)
(* ================================================================== *)

(** The invariant of an execution record: [error] is set exactly when
    [success] is false, and an empty [output] occurs only on failure. *)
Definition well_formed (e : ToolExecution) : Prop :=
  (te_error e <> None <-> te_success e = false) /\
  (te_output e = [] -> te_success e = false).

(** [e] is the record of [step]: the synthesized failure when the tool
    is not found, and otherwise what the tool found returns when it is
    run on the description of the step. *)
Definition record_of (h : Host) (task : jsstring)
    (step : PlanItem) (e : ToolExecution) : Prop :=
  match getToolByName h (pi_tool step) with
  | None => e = unregistered (te_id e) step
  | Some tool =>
      te_tool e = name tool /\
      exists w w',
        execute tool (pi_description step) {| task := task |} w
        = (Return e, w')
  end.

(** The tool names of a plan, in order. *)
Definition tools_of (plan : list PlanItem) : list jsstring :=
  map pi_tool plan.

(** A computation that returns, and whose result satisfies [P]. *)
Definition returns {A} (P : A -> Prop) (c : Completion A) : Prop :=
  match c with
  | Return a => P a
  | Throw _ => False
  end.

(** The guarded part of the credentialed run fails with [e], leaving the
    log [w']: the planning call throws, or it returns and the execution
    of its plan throws, or both return and the summarizing call throws. *)
Definition attempt_fails (h : Host) (task : jsstring) (w : World)
    (e : Thrown) (w' : World) : Prop :=
  callOpenAIForPlan h task w = (Throw e, w') \/
  (exists planPayload w1,
      callOpenAIForPlan h task w = (Return planPayload, w1) /\
      executePlan_of h planPayload task w1 = (Throw e, w')) \/
  (exists planPayload w1 steps w2,
      callOpenAIForPlan h task w = (Return planPayload, w1) /\
      executePlan_of h planPayload task w1 = (Return steps, w2) /\
      callOpenAIForFinal h task (plan_of planPayload) steps w2
      = (Throw e, w')).

(** The plan the heuristic planner builds, from the identifiers drawn
    and the outcome of the two pattern tests. *)
Definition fallback_steps (h : Host) (w : World) (analysis research : bool)
  : list PlanItem :=
  let n := List.length w in
  match analysis, research with
  | true, true =>
      [calculator_step (uuid_at h n); webSearch_step (uuid_at h (1 + n));
       knowledgeBase_step (uuid_at h (2 + n))]
  | true, false =>
      [calculator_step (uuid_at h n); knowledgeBase_step (uuid_at h (1 + n))]
  | false, true =>
      [webSearch_step (uuid_at h n); knowledgeBase_step (uuid_at h (1 + n))]
  | false, false => [knowledgeBase_step (uuid_at h n)]
  end.

(** What the catch branch of the run returns. *)
Definition failure_outcome (h : Host) (t0 t1 : Z) (error : Thrown)
  : AgentOutcome :=
  {| ao_success := false;
     ao_plan := [];
     ao_steps := [];
     ao_final := [];
     ao_reasoning := [];
     ao_meta := {| startedAt := toISOString h t0;
                   completedAt := toISOString h t1;
                   durationMs := t1 - t0 |};
     ao_error := Some (message_of error) |}.

(** Descending order of scores. *)
Definition outranks (a b : Entry) : Prop := score b <= score a.

(** The entry the tool builds for a document, and the entries that
    survive its filter. *)
Definition scored (h : Host) (query : jsstring) (d : Doc) : Entry :=
  {| doc := d; score := scoreKnowledgeBase h query d |}.

Definition candidates (h : Host) (query : jsstring) : list Entry :=
  filter (fun entry => 0 <? score entry) (map (scored h query) KNOWLEDGE_BASE).

(** The next unit does not continue a literal. *)
Definition ends_literal (rest : jsstring) : bool :=
  match rest with
  | [] => true
  | c :: _ => negb (is_digit c)
  end.

(** The positions, in a log that had [n] entries before [events] were
    appended, at which a UUID was drawn. *)
Fixpoint uuid_positions (n : nat) (events : list Event) : list nat :=
  match events with
  | [] => []
  | EvRandomUUID :: rest => n :: uuid_positions (S n) rest
  | _ :: rest => uuid_positions (S n) rest
  end.

Definition is_fetch (ev : Event) : bool :=
  match ev with EvFetch _ => true | _ => false end.

Definition is_function (ev : Event) : bool :=
  match ev with EvFunction _ => true | _ => false end.

Definition is_model_request (ev : Event) : bool :=
  match ev with EvPlanRequest _ | EvFinalRequest _ => true | _ => false end.

(** A step of the plan is meant for the tool [tool_name]. *)
Definition resolves_to (h : Host) (tool_name : jsstring) (step : PlanItem)
  : bool :=
  JS.eqb (lower h tool_name) (lower h (pi_tool step)).

(** A plan within the bounds and the tool names of a schema. *)
Definition conforms (schema : PlanSchema) (plan : list PlanItem) : Prop :=
  minItems schema <= List.length plan <= maxItems schema /\
  forall step, In step plan -> In (pi_tool step) (tool_enum schema).

(** The search for [input] is cut short by [e]: the encoding of the
    query throws, or the request is rejected, or a 2xx answer has a body
    that does not decode. *)
Definition search_fails (h : Host) (input : jsstring) (w : World)
    (e : Thrown) : Prop :=
  encodeURIComponent h input = Throw e \/
  (exists q,
      encodeURIComponent h input = Return q /\
      fetch_at h (List.length w) (search_url q) = Throw e) \/
  (exists q response,
      encodeURIComponent h input = Return q /\
      fetch_at h (List.length w) (search_url q) = Return response /\
      ok response = true /\
      json response = Throw e).

(** The search for [input] is answered: a 2xx status and a body that
    decodes to [data]. *)
Definition search_answered (h : Host) (input : jsstring) (w : World)
    (data : SearchData) : Prop :=
  exists q response,
    encodeURIComponent h input = Return q /\
    fetch_at h (List.length w) (search_url q) = Return response /\
    ok response = true /\
    json response = Return data.

(** The search endpoint is out of service. *)
Definition unavailable_host : Host := {|
  OPENAI_API_KEY := None;
  uuid_at := uuid_at offline_host;
  clock_at := clock_at offline_host;
  toISOString := show_Z;
  unicode_lower := fun s => s;
  encodeURIComponent := fun s => Return s;
  fetch_at := fun _ _ =>
    Return {| status := 503; json := Throw (ErrorObject (lit "Unexpected end of JSON input")) |};
  function_at := fun _ _ => Return (lit "0.5");
  type_error := engine_message;
  plan_at := plan_at offline_host;
  final_at := final_at offline_host
|}.

(** The keywords the scoring extracts from a query. *)
Definition keywords (h : Host) (query : jsstring) : list jsstring :=
  filter truthy (split_non_alnum (lower h query)).

(** The lower-cased text of a document, in which keywords are sought. *)
Definition doc_text (h : Host) (d : Doc) : jsstring :=
  lower h (title d ++ lit " " ++ content d).

(** The entries of a given score, in the order of the list. *)
Definition with_score (k : nat) (l : list Entry) : list Entry :=
  filter (fun x => score x =? k) l.

Definition is_uuid (ev : Event) : bool :=
  match ev with EvRandomUUID => true | _ => false end.

(** How many entries of a log satisfy [p]. *)
Definition count (p : Event -> bool) (events : list Event) : nat :=
  List.length (filter p events).

(** The source of identifiers never repeats itself. *)
Definition fresh_uuids (h : Host) : Prop :=
  forall i j, uuid_at h i = uuid_at h j -> i = j.

(** The record the calculator step of the heuristic plan gets: its
    description is a sentence, not an expression. *)
Definition calculator_refusal (id : jsstring) : ToolExecution :=
  {| te_id := id;
     te_tool := lit "calculator";
     te_input := lit "Use the calculator to work through the core numeric components of the request.";
     te_output := [];
     te_success := false;
     te_error := Some (lit "Expression contains unsupported characters.") |}.

(** The record the knowledge-base step of the heuristic plan gets. *)
Definition playbook_record (id : jsstring) : ToolExecution :=
  {| te_id := id;
     te_tool := lit "knowledgeBase";
     te_input := lit "Consult the knowledge base for strategic or evergreen guidance.";
     te_output := [8226%N] ++ lit " Data storytelling: Transform raw analysis into narratives by highlighting the question, methodology, insights, and actionable recommendations.";
     te_success := true;
     te_error := None |}.

(** The query of the web-search step of the heuristic plan. *)
Definition live_context_query : jsstring :=
  lit "Pull quick snippets from the web to augment knowledge with recent information.".

(** The body of a refusal of the route, from its two clock readings. *)
Definition refusal_body (h : Host) (t0 t1 : Z) (message : jsstring)
  : AgentOutcome :=
  {| ao_success := false;
     ao_plan := [];
     ao_steps := [];
     ao_final := [];
     ao_reasoning := [];
     ao_meta := {| startedAt := toISOString h t0;
                   completedAt := toISOString h t1;
                   durationMs := 0 |};
     ao_error := Some message |}.

(** The request carries no usable task: its [task] property is not a
    string, or is a string of white space only. *)
Definition no_task (task_property : option jsstring) : bool :=
  match task_property with
  | Some s => forallb is_space s
  | None => true
  end.

(** Reading the request fails with [e]: the body does not decode, or it
    decodes to [null]. *)
Definition unreadable (request : Request) (e : Thrown) : Prop :=
  request_json request = Throw e \/
  request_json request = Return (BodyNull e).

(* ================================================================== *)
(** ** Running monadic code                                            *)
(* ================================================================== *)

Lemma bind_Return {A B} (m : M A) (k : A -> M B) w a w' :
  m w = (Return a, w') -> bind m k w = k a w'.
Proof. intros E. unfold bind. now rewrite E. Qed.

Lemma bind_Throw {A B} (m : M A) (k : A -> M B) w e w' :
  m w = (Throw e, w') -> bind m k w = (Throw e, w').
Proof. intros E. unfold bind. now rewrite E. Qed.

Lemma try_catch_Return {A} (body : M A) handler w a w' :
  body w = (Return a, w') -> try_catch body handler w = (Return a, w').
Proof. intros E. unfold try_catch. now rewrite E. Qed.

Lemma try_catch_Throw {A} (body : M A) handler w e w' :
  body w = (Throw e, w') -> try_catch body handler w = handler e w'.
Proof. intros E. unfold try_catch. now rewrite E. Qed.

Lemma randomUUID_run h w :
  randomUUID h w = (Return (uuid_at h (List.length w)), w ++ [EvRandomUUID]).
Proof. reflexivity. Qed.

Lemma newDate_run h w :
  newDate h w = (Return (clock_at h (List.length w)), w ++ [EvNewDate]).
Proof. reflexivity. Qed.

(** Unfolds the monad down to the host answers. *)
Ltac run :=
  unfold try_catch, bind, settle, interact, throw, ret, randomUUID, newDate,
    fetch, call_Function; simpl.

(* ================================================================== *)
(** ** Strings                                                         *)
(* ================================================================== *)

Lemma truthy_nonempty s : truthy s = true <-> s <> [].
Proof. destruct s; simpl; split; congruence. Qed.

Lemma or_else_truthy a b : truthy b = true -> truthy (or_else a b) = true.
Proof. unfold or_else. destruct (truthy a) eqn:E; auto. Qed.

Lemma truthy_app_l a b : truthy a = true -> truthy (a ++ b) = true.
Proof. destruct a; simpl; congruence. Qed.

Lemma eqb_eq a b : JS.eqb a b = true <-> a = b.
Proof. unfold JS.eqb. destruct (list_eq_dec N.eq_dec a b); split; congruence. Qed.

Lemma join_truthy sep p rest :
  truthy p = true -> truthy (join sep (p :: rest)) = true.
Proof.
  intros Hp. destruct rest as [|q rest]; simpl; auto.
  now apply truthy_app_l.
Qed.

Lemma unsafe_unit_rejected input c :
  In c input -> whitelisted c = false -> isSafeMathExpression input = false.
Proof.
  intros Hin Hc. unfold isSafeMathExpression.
  destruct (forallb whitelisted input) eqn:E; auto.
  rewrite forallb_forall in E. specialize (E c Hin). congruence.
Qed.

(* ================================================================== *)
(** ** The tools return, and what they return                          *)
(* ================================================================== *)

Section ToolFacts.
Variable h : Host.

Lemma knowledgeBaseTool_run input context w :
  knowledgeBaseTool h input context w =
  (Return {| te_id := uuid_at h (List.length w);
             te_tool := lit "knowledgeBase";
             te_input := input;
             te_output :=
               (let ranked := rank h (or_else input (task context)) in
                if 0 <? List.length ranked
                then join newline (map render ranked)
                else lit "No relevant knowledge snippets found.");
             te_success := true;
             te_error := None |},
   w ++ [EvRandomUUID]).
Proof. reflexivity. Qed.

Lemma render_truthy entry : truthy (render entry) = true.
Proof. reflexivity. Qed.

Lemma knowledgeBaseTool_spec input context w :
  exists e w',
    knowledgeBaseTool h input context w = (Return e, w') /\
    well_formed e /\ te_tool e = lit "knowledgeBase".
Proof.
  rewrite knowledgeBaseTool_run. eexists _, _. split; [reflexivity|].
  split; [|reflexivity]. split; simpl.
  - split; congruence.
  - destruct (rank h (or_else input (task context))) as [|x r]; simpl.
    + discriminate.
    + intros E. pose proof (join_truthy newline (render x) (map render r)
                              (render_truthy x)) as T.
      simpl in E, T. rewrite E in T. discriminate.
Qed.

Lemma searchTool_spec input w :
  exists e w',
    searchTool h input w = (Return e, w') /\
    well_formed e /\ te_tool e = lit "webSearch".
Proof.
  unfold searchTool. destruct (truthy (trim input)); simpl.
  - run. destruct (encodeURIComponent h input) as [q|err]; simpl.
    + destruct (fetch_at h (List.length w) (search_url q)) as [resp|err]; simpl.
      * destruct (ok resp); simpl.
        -- destruct (json resp) as [data|err]; simpl;
             eexists _, _; (split; [reflexivity|]); (split; [|reflexivity]);
             split; simpl; try (split; congruence); try discriminate.
           intros E.
           pose proof (or_else_truthy
                         (join newline (slice0 4 (collect_snippets data)))
                         (lit "No search snippets returned.") eq_refl) as T.
           rewrite E in T. discriminate.
        -- eexists _, _; (split; [reflexivity|]); (split; [|reflexivity]);
             split; simpl; try (split; congruence); discriminate.
      * eexists _, _; (split; [reflexivity|]); (split; [|reflexivity]);
          split; simpl; try (split; congruence); discriminate.
    + eexists _, _; (split; [reflexivity|]); (split; [|reflexivity]);
        split; simpl; try (split; congruence); discriminate.
  - run. eexists _, _; (split; [reflexivity|]); (split; [|reflexivity]);
      split; simpl; try (split; congruence); discriminate.
Qed.

Lemma calculatorTool_spec input w :
  exists e w',
    calculatorTool h input w = (Return e, w') /\
    well_formed e /\ te_tool e = lit "calculator".
Proof.
  unfold calculatorTool. destruct (truthy (trim input)); simpl.
  - destruct (isSafeMathExpression input); simpl.
    + run. destruct (arith input) as [z|].
      * eexists _, _; (split; [reflexivity|]); (split; [|reflexivity]);
          split; simpl; try (split; congruence); discriminate.
      * destruct (function_at h (List.length w) (function_body input));
          eexists _, _; (split; [reflexivity|]); (split; [|reflexivity]);
          split; simpl; try (split; congruence); try discriminate; auto.
    + run. eexists _, _; (split; [reflexivity|]); (split; [|reflexivity]);
        split; simpl; try (split; congruence); auto.
  - run. eexists _, _; (split; [reflexivity|]); (split; [|reflexivity]);
      split; simpl; try (split; congruence); discriminate.
Qed.

(** Every registered tool returns a well-formed record carrying its own
    name, whatever it is asked. *)
Lemma toolkit_execute_spec tool input context w :
  In tool (TOOLKIT h) ->
  exists e w',
    execute tool input context w = (Return e, w') /\
    well_formed e /\ te_tool e = name tool.
Proof.
  intros [E|[E|[E|[]]]]; subst tool; simpl.
  - apply searchTool_spec.
  - apply calculatorTool_spec.
  - apply knowledgeBaseTool_spec.
Qed.

Lemma getToolByName_registered name' tool :
  getToolByName h name' = Some tool ->
  In tool (TOOLKIT h) /\ lower h (name tool) = lower h name'.
Proof.
  unfold getToolByName. intros E. apply find_some in E.
  destruct E as [Hin Heq]. split; auto. now apply eqb_eq.
Qed.

Lemma unregistered_well_formed id step : well_formed (unregistered id step).
Proof. split; simpl; [split; congruence | discriminate]. Qed.

End ToolFacts.

(* ================================================================== *)
(** ** The executor                                                    *)
(* ================================================================== *)

Section ExecutorFacts.
Variable h : Host.

(** The loop never throws: it extends the array by one record per step,
    each the record of its step and well formed. *)
Lemma executePlan_from_spec (task : jsstring) plan :
  forall executions w,
  exists execs w',
    executePlan_from h executions plan task w
    = (Return (executions ++ execs), w') /\
    Forall2 (fun step e => record_of h task step e /\ well_formed e)
            plan execs.
Proof.
  induction plan as [|step rest IH]; intros executions w.
  - exists [], w. simpl. rewrite app_nil_r. split; [reflexivity|constructor].
  - simpl. destruct (getToolByName h (pi_tool step)) as [tool|] eqn:G.
    + destruct (getToolByName_registered h _ _ G) as [Hin _].
      destruct (toolkit_execute_spec h tool (pi_description step)
                  {| task := task |} w Hin) as (e & w1 & He & Hwf & Hname).
      destruct (IH (executions ++ [e]) w1) as (execs & w' & Hrun & HF).
      exists (e :: execs), w'. split.
      * rewrite (bind_Return _ _ _ _ _ He), Hrun, <- app_assoc. reflexivity.
      * constructor; auto. split; auto.
        unfold record_of. rewrite G. split; auto. now exists w, w1.
    + rewrite (bind_Return _ _ _ _ _ (randomUUID_run h w)).
      set (e := unregistered (uuid_at h (List.length w)) step).
      destruct (IH (executions ++ [e]) (w ++ [EvRandomUUID]))
        as (execs & w' & Hrun & HF).
      exists (e :: execs), w'. split.
      * rewrite Hrun, <- app_assoc. reflexivity.
      * constructor; auto. split.
        -- unfold record_of. rewrite G. reflexivity.
        -- apply unregistered_well_formed.
Qed.

Lemma executePlan_spec (task : jsstring) plan w :
  exists execs w',
    executePlan h plan task w = (Return execs, w') /\
    Forall2 (fun step e => record_of h task step e /\ well_formed e)
            plan execs.
Proof.
  destruct (executePlan_from_spec task plan [] w) as (execs & w' & Hrun & HF).
  now exists execs, w'.
Qed.

End ExecutorFacts.

Lemma Forall2_weaken {A B} (P Q : A -> B -> Prop) l l' :
  (forall a b, P a b -> Q a b) -> Forall2 P l l' -> Forall2 Q l l'.
Proof. intros HPQ HF. induction HF; constructor; auto. Qed.

Lemma Forall2_right {A B} (P : A -> B -> Prop) (Q : B -> Prop) l l' :
  (forall a b, P a b -> Q b) -> Forall2 P l l' -> Forall Q l'.
Proof. intros HPQ HF. induction HF; constructor; eauto. Qed.

(* ================================================================== *)
(** ** The heuristic planner                                           *)
(* ================================================================== *)


Lemma buildFallbackPlan_run h task w :
  exists w',
    buildFallbackPlan h task w =
    (Return {| pp_reasoning := lit "Generated plan via heuristic fallback because the OpenAI API key is not configured.";
               pp_plan := fallback_steps h w
                            (analysis_pattern (lower h task))
                            (research_pattern (lower h task)) |}, w').
Proof.
  unfold buildFallbackPlan, fallback_steps.
  destruct (analysis_pattern (lower h task));
    destruct (research_pattern (lower h task));
    run; repeat rewrite length_app; simpl;
    repeat rewrite Nat.add_1_r; eexists; reflexivity.
Qed.

(** C3. For every task the heuristic planner returns a plan of one to
    three steps that ends with the knowledge-base step, which is
    therefore always part of the plan; the calculator step comes first
    exactly when the analysis pattern matches the lower-cased task, the
    web-search step next exactly when the research pattern matches, and
    a task matching neither pattern gets the knowledge-base step alone. *)
Theorem buildFallbackPlan_shape (h : Host) (task : jsstring) (w : World) :
  exists payload w',
    buildFallbackPlan h task w = (Return payload, w') /\
    1 <= List.length (pp_plan payload) <= 3 /\
    (exists front id, pp_plan payload = front ++ [knowledgeBase_step id]) /\
    last (tools_of (pp_plan payload)) [] = lit "knowledgeBase" /\
    In (lit "knowledgeBase") (tools_of (pp_plan payload)) /\
    tools_of (pp_plan payload) =
      (if analysis_pattern (lower h task) then [lit "calculator"] else []) ++
      (if research_pattern (lower h task) then [lit "webSearch"] else []) ++
      [lit "knowledgeBase"] /\
    (analysis_pattern (lower h task) = false ->
     research_pattern (lower h task) = false ->
     tools_of (pp_plan payload) = [lit "knowledgeBase"]).
Proof.
  destruct (buildFallbackPlan_run h task w) as (w' & E).
  eexists _, w'. split; [exact E|]. unfold fallback_steps.
  destruct (analysis_pattern (lower h task));
    destruct (research_pattern (lower h task)); simpl;
    (split; [lia|]); (split; [|intuition congruence]).
  - now exists [calculator_step (uuid_at h (List.length w));
                webSearch_step (uuid_at h (S (List.length w)))], 
               (uuid_at h (S (S (List.length w)))).
  - now exists [calculator_step (uuid_at h (List.length w))],
               (uuid_at h (S (List.length w))).
  - now exists [webSearch_step (uuid_at h (List.length w))],
               (uuid_at h (S (List.length w))).
  - now exists [], (uuid_at h (List.length w)).
Qed.

(** A task without any keyword of either pattern: one step, the
    knowledge base. *)
Lemma buildFallbackPlan_shape_witness :
  exists payload w',
    buildFallbackPlan offline_host (lit "Plan a product launch") []
    = (Return payload, w') /\
    tools_of (pp_plan payload) = [lit "knowledgeBase"].
Proof.
  destruct (buildFallbackPlan_shape offline_host
              (lit "Plan a product launch") [])
    as (payload & w' & E & _ & _ & _ & _ & _ & Hneither).
  exists payload, w'. split; [exact E|].
  apply Hneither; reflexivity.
Defined.

Example fallback_plan_calculate :
  returns (fun payload =>
             tools_of (pp_plan payload) = [lit "calculator"; lit "knowledgeBase"])
    (fst (buildFallbackPlan offline_host (lit "Calculate 15 percent of 80") [])).
Proof. reflexivity. Qed.

Example fallback_plan_both :
  returns (fun payload =>
             tools_of (pp_plan payload)
             = [lit "calculator"; lit "webSearch"; lit "knowledgeBase"])
    (fst (buildFallbackPlan offline_host (lit "Analyze the latest market") [])).
Proof. reflexivity. Qed.

(** "analy" alone is not a match: the pattern asks for one more word
    character after it. *)
Example analy_needs_a_suffix :
  analysis_pattern (lit "analy") = false /\
  analysis_pattern (lit "analyse") = true /\
  analysis_pattern (lit "heroic") = true.
Proof. repeat split. Qed.

(* ================================================================== *)
(** ** The executor: one record per step                               *)
(* ================================================================== *)

(** C2. For every plan the executor returns, with exactly one record per
    plan item and in plan order: each record is the record of the step
    at the same position. For a step whose tool is not registered that
    record carries the step's tool name, [success] false and the
    non-empty error "Tool <name> is not registered."; the steps after it
    still get their records. *)
Theorem executePlan_one_record_per_step
    (h : Host) (plan : list PlanItem) (task : jsstring) (w : World) :
  exists execs w',
    executePlan h plan task w = (Return execs, w') /\
    List.length execs = List.length plan /\
    Forall2 (record_of h task) plan execs /\
    Forall2
      (fun step e =>
         match getToolByName h (pi_tool step) with
         | None =>
             te_tool e = pi_tool step /\
             te_success e = false /\
             te_error e
             = Some (lit "Tool " ++ pi_tool step ++ lit " is not registered.") /\
             te_error e <> Some [] /\ te_error e <> None
         | Some tool => lower h (te_tool e) = lower h (pi_tool step)
         end)
      plan execs.
Proof.
  destruct (executePlan_spec h task plan w) as (execs & w' & Hrun & HF).
  exists execs, w'. split; [exact Hrun|]. split; [|split].
  - symmetry. exact (Forall2_length HF).
  - eapply Forall2_weaken; [|exact HF]. now intros step e [Hr _].
  - eapply Forall2_weaken; [|exact HF]. intros step e [Hr _].
    unfold record_of in Hr.
    destruct (getToolByName h (pi_tool step)) as [tool|] eqn:G.
    + destruct Hr as [Hname _]. rewrite Hname.
      now destruct (getToolByName_registered h _ _ G).
    + rewrite Hr. simpl. repeat split; discriminate.
Qed.

(** A plan whose second step names a tool that does not exist. *)
Example executePlan_sample :
  returns (fun execs =>
             map (fun e => (te_tool e, te_success e, te_output e)) execs
             = [(lit "calculator", true, lit "Result: 4");
                (lit "email", false, lit "Tool not available.");
                (lit "knowledgeBase", true,
                 render (scored offline_host (lit "agentic ai")
                           {| title := lit "Agentic AI definition";
                              content := lit "Agentic AI systems combine reasoning, planning, and tool usage to autonomously achieve goals across multiple steps." |}))])
    (fst (executePlan offline_host sample_plan (lit "t") [])).
Proof. vm_compute. reflexivity. Qed.

(* ================================================================== *)
(** ** The invariant of execution records                              *)
(* ================================================================== *)

(** C5. Every record a tool returns, the record synthesized for an
    unregistered tool, and every record the executor collects is well
    formed: [error] is set if and only if [success] is false, and
    [output] is empty only when [success] is false. Each of these
    computations returns. *)
Theorem execution_records_well_formed (h : Host) :
  (forall input context w,
      returns well_formed (fst (knowledgeBaseTool h input context w))) /\
  (forall input w, returns well_formed (fst (searchTool h input w))) /\
  (forall input w, returns well_formed (fst (calculatorTool h input w))) /\
  (forall id step, well_formed (unregistered id step)) /\
  (forall plan task w,
      returns (Forall well_formed) (fst (executePlan h plan task w))).
Proof.
  split; [|split; [|split; [|split]]].
  - intros input context w.
    destruct (knowledgeBaseTool_spec h input context w) as (e & w' & E & Hwf & _).
    rewrite E. exact Hwf.
  - intros input w.
    destruct (searchTool_spec h input w) as (e & w' & E & Hwf & _).
    rewrite E. exact Hwf.
  - intros input w.
    destruct (calculatorTool_spec h input w) as (e & w' & E & Hwf & _).
    rewrite E. exact Hwf.
  - exact unregistered_well_formed.
  - intros plan task w.
    destruct (executePlan_spec h task plan w) as (execs & w' & E & HF).
    rewrite E. simpl. eapply Forall2_right; [|exact HF]. now intros a b [_ Hw].
Qed.

(* ================================================================== *)
(** ** The run without a credential                                    *)
(* ================================================================== *)

Lemma runAgentTask_offline h task w :
  no_credential h = true ->
  exists steps w',
    runAgentTask h task w =
    (Return
       {| ao_success := true;
          ao_plan := fallback_steps h (w ++ [EvNewDate])
                       (analysis_pattern (lower h task))
                       (research_pattern (lower h task));
          ao_steps := steps;
          ao_final := offline_final;
          ao_reasoning := lit "Generated plan via heuristic fallback because the OpenAI API key is not configured.";
          ao_meta := {| startedAt := toISOString h (clock_at h (List.length w));
                        completedAt := toISOString h (clock_at h (List.length w'));
                        durationMs := 0 |};
          ao_error := Some missing_key_error |},
     w' ++ [EvNewDate]) /\
    List.length steps =
    List.length (fallback_steps h (w ++ [EvNewDate])
                   (analysis_pattern (lower h task))
                   (research_pattern (lower h task))).
Proof.
  intros Hcred. unfold runAgentTask.
  rewrite (bind_Return _ _ _ _ _ (newDate_run h w)), Hcred.
  destruct (buildFallbackPlan_run h task (w ++ [EvNewDate])) as (w1 & Eplan).
  rewrite (bind_Return _ _ _ _ _ Eplan). cbn [pp_plan pp_reasoning].
  destruct (executePlan_spec h task
              (fallback_steps h (w ++ [EvNewDate])
                 (analysis_pattern (lower h task))
                 (research_pattern (lower h task))) w1)
    as (steps & w2 & Erun & HF).
  rewrite (bind_Return _ _ _ _ _ Erun).
  rewrite (bind_Return _ _ _ _ _ (newDate_run h w2)).
  exists steps, w2. split; [reflexivity|].
  symmetry. exact (Forall2_length HF).
Qed.

Lemma fallback_steps_nonempty h w a r : fallback_steps h w a r <> [].
Proof. destruct a, r; discriminate. Qed.

(** C1. Without a credential (the variable is unset or empty), for every
    task the run returns an outcome with [success] true, the [error]
    field set to the sentence about the missing key, a non-empty plan,
    as many step records as plan items, and [final] equal to the fixed
    sentence about the live backend. *)
Theorem runAgentTask_without_credential
    (h : Host) (task : jsstring) (w : World) :
  no_credential h = true ->
  exists outcome w',
    runAgentTask h task w = (Return outcome, w') /\
    ao_success outcome = true /\
    ao_error outcome
    = Some (lit "OpenAI API key missing. Configure OPENAI_API_KEY to enable full agentic reasoning.") /\
    ao_plan outcome <> [] /\
    List.length (ao_steps outcome) = List.length (ao_plan outcome) /\
    ao_final outcome
    = lit "The live LLM backend is not configured, but here is an offline plan and tool output you can use as a starting point.".
Proof.
  intros Hcred.
  destruct (runAgentTask_offline h task w Hcred) as (steps & w' & E & Hlen).
  eexists _, _. split; [exact E|]. simpl.
  repeat split; auto. apply fallback_steps_nonempty.
Qed.

Lemma runAgentTask_without_credential_witness :
  no_credential offline_host = true /\
  exists outcome w',
    runAgentTask offline_host (lit "Plan a product launch") []
    = (Return outcome, w') /\
    ao_success outcome = true /\
    ao_error outcome
    = Some (lit "OpenAI API key missing. Configure OPENAI_API_KEY to enable full agentic reasoning.") /\
    ao_plan outcome <> [] /\
    List.length (ao_steps outcome) = List.length (ao_plan outcome) /\
    ao_final outcome
    = lit "The live LLM backend is not configured, but here is an offline plan and tool output you can use as a starting point.".
Proof.
  split; [reflexivity|].
  apply (runAgentTask_without_credential offline_host
           (lit "Plan a product launch") []).
  reflexivity.
Defined.

(** An empty variable counts as no credential. *)
Example empty_key_is_no_credential :
  no_credential
    {| OPENAI_API_KEY := Some [];
       uuid_at := uuid_at offline_host;
       clock_at := clock_at offline_host;
       toISOString := show_Z;
       unicode_lower := fun s => s;
       encodeURIComponent := fun s => Return s;
       fetch_at := fetch_at offline_host;
       function_at := function_at offline_host;
       type_error := engine_message;
       plan_at := plan_at offline_host;
       final_at := final_at offline_host |} = true.
Proof. reflexivity. Qed.

(* ================================================================== *)
(** ** The run with a credential                                       *)
(* ================================================================== *)


Lemma callOpenAIForFinal_log h task plan steps w r w' :
  callOpenAIForFinal h task plan steps w = (r, w') ->
  w' = w ++ [EvFinalRequest task].
Proof. unfold callOpenAIForFinal, interact. now intros [= _ <-]. Qed.

Lemma callOpenAIForPlan_log h task w r w' :
  callOpenAIForPlan h task w = (r, w') ->
  r = plan_at h (List.length w) task /\ w' = w ++ [EvPlanRequest task].
Proof. unfold callOpenAIForPlan, interact. now intros [= <- <-]. Qed.

(** The guarded part of a credentialed run either fails, or its three
    calls return one after the other. *)
Lemma attempt_cases h task w :
  (exists e w', attempt_fails h task w e w') \/
  (exists planPayload w1 steps w2 final,
      callOpenAIForPlan h task w = (Return planPayload, w1) /\
      executePlan_of h planPayload task w1 = (Return steps, w2) /\
      callOpenAIForFinal h task (plan_of planPayload) steps w2
      = (Return final, w2 ++ [EvFinalRequest task])).
Proof.
  destruct (callOpenAIForPlan h task w) as [[planPayload|e] w1] eqn:Ep.
  - destruct (executePlan_of h planPayload task w1) as [[steps|e] w2] eqn:Ex.
    + destruct (callOpenAIForFinal h task (plan_of planPayload) steps w2)
        as [[final|e] w3] eqn:Ef;
        pose proof (callOpenAIForFinal_log _ _ _ _ _ _ _ Ef) as ->.
      * right. now exists planPayload, w1, steps, w2, final.
      * left. exists e, (w2 ++ [EvFinalRequest task]). right; right.
        now exists planPayload, w1, steps, w2.
    + left. exists e, w2. right; left. now exists planPayload, w1.
  - left. exists e, w1. now left.
Qed.

Lemma runAgentTask_caught h task w e w' :
  no_credential h = false ->
  attempt_fails h task (w ++ [EvNewDate]) e w' ->
  runAgentTask h task w =
  (Return (failure_outcome h (clock_at h (List.length w))
             (clock_at h (List.length w')) e),
   w' ++ [EvNewDate]).
Proof.
  intros Hcred Hfail. unfold runAgentTask.
  rewrite (bind_Return _ _ _ _ _ (newDate_run h w)), Hcred.
  erewrite try_catch_Throw.
  - rewrite (bind_Return _ _ _ _ _ (newDate_run h w')). reflexivity.
  - destruct Hfail as [E | [(planPayload & w1 & E1 & E2)
                          | (planPayload & w1 & steps & w2 & E1 & E2 & E3)]].
    + now rewrite (bind_Throw _ _ _ _ _ E).
    + rewrite (bind_Return _ _ _ _ _ E1). now rewrite (bind_Throw _ _ _ _ _ E2).
    + rewrite (bind_Return _ _ _ _ _ E1), (bind_Return _ _ _ _ _ E2).
      now rewrite (bind_Throw _ _ _ _ _ E3).
Qed.

(** The outcome of a credentialed run whose three calls return. *)
Lemma runAgentTask_completed h task w planPayload w1 steps w2 final w3 :
  no_credential h = false ->
  callOpenAIForPlan h task (w ++ [EvNewDate]) = (Return planPayload, w1) ->
  executePlan_of h planPayload task w1 = (Return steps, w2) ->
  callOpenAIForFinal h task (plan_of planPayload) steps w2
  = (Return final, w3) ->
  runAgentTask h task w =
  (Return {| ao_success := true;
             ao_plan := plan_of planPayload;
             ao_steps := steps;
             ao_final := final;
             ao_reasoning := reasoning_of planPayload;
             ao_meta :=
               {| startedAt := toISOString h (clock_at h (List.length w));
                  completedAt := toISOString h (clock_at h (List.length w3));
                  durationMs := clock_at h (List.length w3)
                                - clock_at h (List.length w) |};
             ao_error := None |},
   w3 ++ [EvNewDate]).
Proof.
  intros Hcred Hplan Hexec Hfinal. unfold runAgentTask.
  rewrite (bind_Return _ _ _ _ _ (newDate_run h w)), Hcred.
  erewrite try_catch_Return; [reflexivity|].
  rewrite (bind_Return _ _ _ _ _ Hplan), (bind_Return _ _ _ _ _ Hexec),
    (bind_Return _ _ _ _ _ Hfinal).
  now rewrite (bind_Return _ _ _ _ _ (newDate_run h w3)).
Qed.

(** C6. With a credential, when the planning call, the execution of the
    plan or the summarizing call throws, the run still returns: an
    outcome with [success] false, empty plan, steps and final, and
    [error] set to the message of what was caught (the message of the
    Error, or "Unknown error" for a thrown value that is not an Error).
    The execution of the plan throws when the planner's answer is not of
    the shape the program takes it to have. *)
Theorem runAgentTask_failure_outcome
    (h : Host) (task : jsstring) (w : World) (e : Thrown) (w' : World) :
  no_credential h = false ->
  attempt_fails h task (w ++ [EvNewDate]) e w' ->
  exists outcome,
    runAgentTask h task w = (Return outcome, w' ++ [EvNewDate]) /\
    ao_success outcome = false /\
    ao_plan outcome = [] /\
    ao_steps outcome = [] /\
    ao_final outcome = [] /\
    ao_error outcome = Some (message_of e) /\
    (forall message, e = ErrorObject message ->
                     ao_error outcome = Some message).
Proof.
  intros Hcred Hfail. eexists. split.
  - exact (runAgentTask_caught h task w e w' Hcred Hfail).
  - simpl. repeat split. intros message ->. reflexivity.
Qed.

(** The three failures, one after the other: the planning request is
    refused; the planner's answer has a number where the name of a tool
    is expected, at its second step, after the first step was executed;
    the summarizing request is refused after the whole plan was
    executed. *)
Lemma runAgentTask_failure_outcome_witness :
  (exists outcome,
    runAgentTask refused_host (lit "Plan a product launch") []
    = (Return outcome, [EvNewDate; EvPlanRequest (lit "Plan a product launch");
                        EvNewDate]) /\
    ao_success outcome = false /\
    ao_plan outcome = [] /\
    ao_steps outcome = [] /\
    ao_final outcome = [] /\
    ao_error outcome = Some (lit "401 Incorrect API key provided")) /\
  (exists outcome,
    runAgentTask ill_shaped_host (lit "Plan a product launch") []
    = (Return outcome, [EvNewDate; EvPlanRequest (lit "Plan a product launch");
                        EvRandomUUID; EvNewDate]) /\
    ao_success outcome = false /\
    ao_plan outcome = [] /\
    ao_steps outcome = [] /\
    ao_final outcome = [] /\
    ao_error outcome = Some (lit "name.toLowerCase is not a function")) /\
  (exists outcome,
    runAgentTask unsummarized_host (lit "Plan a product launch") []
    = (Return outcome, [EvNewDate; EvPlanRequest (lit "Plan a product launch");
                        EvFunction (function_body (lit "2+2"));
                        EvRandomUUID; EvRandomUUID; EvRandomUUID;
                        EvFinalRequest (lit "Plan a product launch");
                        EvNewDate]) /\
    ao_success outcome = false /\
    ao_plan outcome = [] /\
    ao_steps outcome = [] /\
    ao_final outcome = [] /\
    ao_error outcome = Some (lit "429 Rate limit reached")).
Proof.
  split; [|split].
  - destruct (runAgentTask_failure_outcome refused_host
                (lit "Plan a product launch") []
                (ErrorObject (lit "401 Incorrect API key provided"))
                [EvNewDate; EvPlanRequest (lit "Plan a product launch")])
      as (outcome & E & Hs & Hp & Hst & Hf & He & _).
    + reflexivity.
    + left. reflexivity.
    + exists outcome. repeat split; assumption.
  - destruct (runAgentTask_failure_outcome ill_shaped_host
                (lit "Plan a product launch") []
                (ErrorObject (lit "name.toLowerCase is not a function"))
                [EvNewDate; EvPlanRequest (lit "Plan a product launch");
                 EvRandomUUID])
      as (outcome & E & Hs & Hp & Hst & Hf & He & _).
    + reflexivity.
    + right; left.
      exists ill_shaped_answer,
        [EvNewDate; EvPlanRequest (lit "Plan a product launch")].
      split; reflexivity.
    + exists outcome. repeat split; assumption.
  - destruct (runAgentTask_failure_outcome unsummarized_host
                (lit "Plan a product launch") []
                (ErrorObject (lit "429 Rate limit reached"))
                [EvNewDate; EvPlanRequest (lit "Plan a product launch");
                 EvFunction (function_body (lit "2+2"));
                 EvRandomUUID; EvRandomUUID; EvRandomUUID;
                 EvFinalRequest (lit "Plan a product launch")])
      as (outcome & E & Hs & Hp & Hst & Hf & He & _).
    + reflexivity.
    + right; right.
      exists (payload_value {| pp_reasoning := lit "r"; pp_plan := sample_plan |}),
        [EvNewDate; EvPlanRequest (lit "Plan a product launch")].
      eexists _, _. split; [reflexivity|]. split; [vm_compute; reflexivity|].
      reflexivity.
    + exists outcome. repeat split; assumption.
Defined.

(** The summarizing call rejects with a value that is not an Error: the
    plan was executed, yet the outcome is the empty failure, with the
    fallback message. *)
Example summarizing_failure_unknown_error :
  returns (fun outcome =>
             ao_success outcome = false /\
             ao_plan outcome = [] /\
             ao_steps outcome = [] /\
             ao_final outcome = [] /\
             ao_error outcome = Some (lit "Unknown error"))
    (fst (runAgentTask
            {| OPENAI_API_KEY := Some (lit "sk-test");
               uuid_at := uuid_at offline_host;
               clock_at := clock_at offline_host;
               toISOString := show_Z;
               unicode_lower := fun s => s;
               encodeURIComponent := fun s => Return s;
               fetch_at := fetch_at offline_host;
               function_at := function_at offline_host;
               type_error := engine_message;
               plan_at := plan_at online_host;
               final_at := fun _ _ _ _ => Throw NonError |}
            (lit "Plan a product launch") [])).
Proof. vm_compute. repeat split. Qed.

(** On a plan of the declared type the loop does not throw. *)
Lemma executePlan_never_throws h plan task w e w' :
  executePlan h plan task w <> (Throw e, w').
Proof.
  destruct (executePlan_spec h task plan w) as (execs & w1 & E & _).
  rewrite E. discriminate.
Qed.

(** On a planner's answer of another shape it may: each of these
    answers makes the execution of the plan throw a TypeError, the last
    one after its first step was executed. *)
Example ill_shaped_answers_throw :
  Forall
    (fun answer =>
       exists message w',
         executePlan_of offline_host answer (lit "t") []
         = (Throw (ErrorObject message), w'))
    [ JNull;
      JString (lit "no plan");
      JObject [(lit "reasoning", JString (lit "r"))];
      JObject [(lit "plan", JObject [])];
      JObject [(lit "plan", JString (lit "calculator"))];
      JObject [(lit "plan", JArray [JNull])];
      JObject [(lit "plan", JArray [JString (lit "calculator")])];
      JObject [(lit "plan",
                JArray [JObject [(lit "tool", JString (lit "calculator"))]])];
      JObject [(lit "plan",
                JArray [JObject [(lit "tool", JString (lit "knowledgeBase"))];
                        JObject [(lit "tool", JString (lit "webSearch"));
                                 (lit "description", JNumber true)]])] ].
Proof. repeat constructor; eexists _, _; vm_compute; reflexivity. Qed.

(** An answer that is not of the declared type need not make the
    execution throw: a step without description is run on the task by
    the web search and the knowledge base, and a step of an unknown tool
    is never run. *)
Example ill_typed_answer_executed :
  returns (fun steps => map te_tool steps
                        = [lit "knowledgeBase"; lit "email"])
    (fst (executePlan_of offline_host
            (JObject [(lit "plan",
                       JArray [JObject [(lit "tool", JString (lit "knowledgeBase"));
                                        (lit "description", JNull)];
                               JObject [(lit "tool", JString (lit "email"));
                                        (lit "description", JNumber true)]])])
            (lit "t") [])).
Proof. vm_compute. reflexivity. Qed.

(* ================================================================== *)
(** ** Timing metadata                                                 *)
(* ================================================================== *)

(** Every run returns, and ends by reading the clock: [w'] is the log
    just before that reading. *)
Lemma runAgentTask_meta h task w :
  exists outcome w',
    runAgentTask h task w = (Return outcome, w' ++ [EvNewDate]) /\
    startedAt (ao_meta outcome) = toISOString h (clock_at h (List.length w)) /\
    completedAt (ao_meta outcome) = toISOString h (clock_at h (List.length w')) /\
    durationMs (ao_meta outcome) =
      if no_credential h then 0%Z
      else (clock_at h (List.length w') - clock_at h (List.length w))%Z.
Proof.
  destruct (no_credential h) eqn:Hcred.
  - destruct (runAgentTask_offline h task w Hcred) as (steps & w' & E & _).
    eexists _, w'. split; [exact E|]. repeat split.
  - destruct (attempt_cases h task (w ++ [EvNewDate]))
      as [(e & w' & Hfail)
         | (planPayload & w1 & steps & w2 & final & Ep & Ex & Ef)].
    + eexists _, w'. split.
      * exact (runAgentTask_caught h task w e w' Hcred Hfail).
      * repeat split.
    + eexists _, (w2 ++ [EvFinalRequest task]). split.
      * exact (runAgentTask_completed h task w planPayload w1 steps w2 final _
                 Hcred Ep Ex Ef).
      * repeat split.
Qed.

(** C10. Every run returns an outcome whose [startedAt] and
    [completedAt] render the clock readings taken at its start and at
    its end. Without a credential [durationMs] is 0 whatever these two
    readings are; with a credential it is the second reading minus the
    first, on success and on failure alike. *)
Theorem durationMs_by_path (h : Host) (task : jsstring) (w : World) :
  exists outcome w',
    runAgentTask h task w = (Return outcome, w' ++ [EvNewDate]) /\
    startedAt (ao_meta outcome) = toISOString h (clock_at h (List.length w)) /\
    completedAt (ao_meta outcome) = toISOString h (clock_at h (List.length w')) /\
    (no_credential h = true -> durationMs (ao_meta outcome) = 0%Z) /\
    (no_credential h = false ->
     durationMs (ao_meta outcome)
     = (clock_at h (List.length w') - clock_at h (List.length w))%Z).
Proof.
  destruct (runAgentTask_meta h task w) as (outcome & w' & E & Hs & Hc & Hd).
  exists outcome, w'. repeat split; auto; intros Hcred; now rewrite Hcred in Hd.
Qed.

(** Offline, 21 ms pass between the two readings and 0 is reported;
    online, the 49 ms that pass are reported. *)
Lemma durationMs_by_path_witness :
  (exists outcome w',
      runAgentTask offline_host (lit "Plan a product launch") []
      = (Return outcome, w' ++ [EvNewDate]) /\
      startedAt (ao_meta outcome) = lit "1000" /\
      completedAt (ao_meta outcome) = lit "1021" /\
      durationMs (ao_meta outcome) = 0%Z) /\
  (exists outcome w',
      runAgentTask online_host (lit "Plan a product launch") []
      = (Return outcome, w' ++ [EvNewDate]) /\
      startedAt (ao_meta outcome) = lit "1000" /\
      completedAt (ao_meta outcome) = lit "1049" /\
      durationMs (ao_meta outcome) = 49%Z).
Proof.
  split.
  - destruct (durationMs_by_path offline_host (lit "Plan a product launch") [])
      as (outcome & w' & E & Hs & Hc & Hoff & _).
    exists outcome, w'. split; [exact E|].
    assert (Hw : w' = [EvNewDate; EvRandomUUID; EvRandomUUID]).
    { apply (f_equal snd) in E. cbn [snd] in E.
      change (snd (runAgentTask offline_host (lit "Plan a product launch") []))
        with ([EvNewDate; EvRandomUUID; EvRandomUUID] ++ [EvNewDate]) in E.
      apply app_inj_tail in E. now destruct E. }
    subst w'. repeat split; auto.
  - destruct (durationMs_by_path online_host (lit "Plan a product launch") [])
      as (outcome & w' & E & Hs & Hc & _ & Hon).
    exists outcome, w'. split; [exact E|].
    assert (Hw : List.length w' = 7).
    { apply (f_equal (fun r => List.length (snd r))) in E. cbn [snd] in E.
      rewrite length_app in E. simpl in E.
      change (List.length
                (snd (runAgentTask online_host (lit "Plan a product launch") [])))
        with 8 in E.
      lia. }
    rewrite Hw in Hc. rewrite Hw in Hon.
    repeat split; auto.
Defined.

(* ================================================================== *)
(** ** The calculator's whitelist                                      *)
(* ================================================================== *)

Lemma trimStart_keeps c s :
  In c s -> is_space c = false -> In c (trimStart s).
Proof.
  intros Hin Hc. induction s as [|a s IH]; simpl in *; [contradiction|].
  destruct (is_space a) eqn:Ea.
  - destruct Hin as [->|Hin]; [congruence | auto].
  - exact Hin.
Qed.

Lemma trim_keeps c s : In c s -> is_space c = false -> In c (trim s).
Proof.
  intros Hin Hc. unfold trim. rewrite <- in_rev.
  apply trimStart_keeps; auto. rewrite <- in_rev.
  now apply trimStart_keeps.
Qed.

Lemma whitelisted_space c : is_space c = true -> whitelisted c = true.
Proof.
  intros Hc. unfold whitelisted. rewrite Hc.
  repeat rewrite orb_true_r. now repeat rewrite orb_true_l.
Qed.

(** An input with a unit outside the whitelist is never blank. *)
Lemma unsafe_input_not_blank c input :
  In c input -> whitelisted c = false -> truthy (trim input) = true.
Proof.
  intros Hin Hc.
  assert (Hs : is_space c = false).
  { destruct (is_space c) eqn:E; auto.
    apply whitelisted_space in E. congruence. }
  pose proof (trim_keeps c input Hin Hs) as Hk.
  destruct (trim input); [contradiction | reflexivity].
Qed.

(** C4. A calculator input that is not blank and holds at least one
    code unit outside the whitelist gets [success] false and the error
    "Expression contains unsupported characters."; the only interaction
    with the host is the drawing of the record's identifier, so the
    expression does not reach the evaluator. *)
Theorem calculatorTool_rejects_unsafe
    (h : Host) (input : jsstring) (c : N) (w : World) :
  truthy (trim input) = true ->
  In c input ->
  whitelisted c = false ->
  calculatorTool h input w =
  (Return {| te_id := uuid_at h (List.length w);
             te_tool := lit "calculator";
             te_input := input;
             te_output := [];
             te_success := false;
             te_error := Some (lit "Expression contains unsupported characters.") |},
   w ++ [EvRandomUUID]).
Proof.
  intros Hblank Hin Hc. unfold calculatorTool.
  rewrite Hblank, (unsafe_unit_rejected input c Hin Hc). reflexivity.
Qed.

Lemma calculatorTool_rejects_unsafe_witness :
  calculatorTool offline_host (lit "2 + alert(1)") [] =
  (Return {| te_id := lit "uuid-0";
             te_tool := lit "calculator";
             te_input := lit "2 + alert(1)";
             te_output := [];
             te_success := false;
             te_error := Some (lit "Expression contains unsupported characters.") |},
   [EvRandomUUID]).
Proof.
  apply (calculatorTool_rejects_unsafe offline_host (lit "2 + alert(1)") 97 []).
  - reflexivity.
  - vm_compute. tauto.
  - reflexivity.
Defined.

(** Blank input is refused before the whitelist is consulted; a
    no-break space counts as white space, for [trim] and for [\s]. *)
Example calculatorTool_blank :
  returns (fun e => te_success e = false /\
                    te_output e = lit "No expression provided." /\
                    te_error e = Some (lit "Expression required for calculator tool."))
    (fst (calculatorTool offline_host [32; 160; 9]%N [])).
Proof. vm_compute. repeat split. Qed.

(* ================================================================== *)
(** ** Web search                                                      *)
(* ================================================================== *)

Lemma present_truthy field : Forall (fun s => truthy s = true) (present field).
Proof.
  destruct field as [s|]; simpl; [|constructor].
  destruct (truthy s) eqn:E; repeat constructor. exact E.
Qed.

Lemma Forall_flat_map {A B} (P : B -> Prop) (f : A -> list B) l :
  (forall a, Forall P (f a)) -> Forall P (flat_map f l).
Proof.
  intros Hf. induction l as [|a l IH]; simpl; [constructor|].
  apply Forall_app. split; auto.
Qed.

Lemma collect_snippets_truthy data :
  Forall (fun s => truthy s = true) (collect_snippets data).
Proof.
  unfold collect_snippets. apply Forall_app. split; [apply present_truthy|].
  destruct (RelatedTopics data) as [topics|]; [|constructor].
  apply Forall_flat_map. intros topic. unfold topic_snippets.
  apply Forall_app. split; [apply present_truthy|].
  destruct (Topics topic) as [ts|]; [|constructor].
  apply Forall_flat_map. intros t. apply present_truthy.
Qed.

Lemma search_output_nonempty snippets :
  Forall (fun s => truthy s = true) snippets ->
  snippets <> [] ->
  or_else (join newline (slice0 4 snippets)) (lit "No search snippets returned.")
  = join newline (slice0 4 snippets).
Proof.
  intros HF Hne. destruct snippets as [|s rest]; [congruence|].
  inversion HF as [|? ? Hs _]; subst.
  unfold or_else. change (slice0 4 (s :: rest)) with (s :: slice0 3 rest).
  now rewrite (join_truthy newline s (slice0 3 rest) Hs).
Qed.

(** C7. When the search request is answered with a 2xx status and a body
    that decodes, the tool returns [success] true and no error; its
    output is the first four (or fewer) collected snippets joined by
    newlines, and the literal "No search snippets returned." when no
    snippet was collected. *)
Theorem searchTool_success_output
    (h : Host) (input : jsstring) (w : World)
    (q : jsstring) (response : Response) (data : SearchData) :
  truthy (trim input) = true ->
  encodeURIComponent h input = Return q ->
  fetch_at h (List.length w) (search_url q) = Return response ->
  (200 <= status response <= 299)%N ->
  json response = Return data ->
  exists e,
    searchTool h input w
    = (Return e, w ++ [EvFetch (search_url q)] ++ [EvRandomUUID]) /\
    te_success e = true /\
    te_error e = None /\
    (collect_snippets data <> [] ->
     te_output e = join newline (slice0 4 (collect_snippets data))) /\
    (collect_snippets data = [] ->
     te_output e = lit "No search snippets returned.").
Proof.
  intros Hblank Henc Hfetch Hstatus Hjson.
  assert (Hok : ok response = true).
  { unfold ok, in_range. apply andb_true_intro.
    split; apply N.leb_le; lia. }
  eexists. split.
  - unfold searchTool. rewrite Hblank. run.
    rewrite Henc. simpl. rewrite Hfetch. simpl. rewrite Hok. simpl.
    rewrite Hjson. simpl. rewrite <- app_assoc. reflexivity.
  - simpl. repeat split.
    + intros Hne. apply search_output_nonempty; auto.
      apply collect_snippets_truthy.
    + intros ->. reflexivity.
Qed.

(** Five snippets are collected (an empty text is skipped); four are
    shown. *)
Lemma searchTool_success_output_witness :
  exists e,
    searchTool searching_host (lit "latest news") []
    = (Return e, [EvFetch (search_url (lit "latest news")); EvRandomUUID]) /\
    te_success e = true /\
    te_error e = None /\
    te_output e = lit "A" ++ newline ++ lit "B" ++ newline ++ lit "C"
                  ++ newline ++ lit "D".
Proof.
  destruct (searchTool_success_output searching_host (lit "latest news") []
              (lit "latest news")
              {| status := 200; json := Return sample_data |} sample_data)
    as (e & E & Hs & He & Hout & _); try reflexivity.
  - simpl. lia.
  - exists e. repeat split; auto. apply Hout. discriminate.
Defined.

Example searchTool_no_snippets :
  returns (fun e => te_success e = true /\
                    te_output e = lit "No search snippets returned.")
    (fst (searchTool
            {| OPENAI_API_KEY := None;
               uuid_at := uuid_at offline_host;
               clock_at := clock_at offline_host;
               toISOString := show_Z;
               unicode_lower := fun s => s;
               encodeURIComponent := fun s => Return s;
               fetch_at := fun _ _ =>
                 Return {| status := 200;
                           json := Return {| AbstractText := Some [];
                                             RelatedTopics := None |} |};
               function_at := function_at offline_host;
               type_error := engine_message;
               plan_at := plan_at offline_host;
               final_at := final_at offline_host |}
            (lit "zzyyxx") [])).
Proof. vm_compute. split; reflexivity. Qed.

(** A status outside 200-299 is reported in the error. *)
Lemma searchTool_http_error h input w q response :
  truthy (trim input) = true ->
  encodeURIComponent h input = Return q ->
  fetch_at h (List.length w) (search_url q) = Return response ->
  ok response = false ->
  searchTool h input w =
  (Return {| te_id := uuid_at h (S (List.length w));
             te_tool := lit "webSearch";
             te_input := input;
             te_output := lit "Search failed.";
             te_success := false;
             te_error := Some (lit "HTTP " ++ show_N (status response)) |},
   w ++ [EvFetch (search_url q)] ++ [EvRandomUUID]).
Proof.
  intros Hblank Henc Hfetch Hok. unfold searchTool. rewrite Hblank. run.
  rewrite Henc. simpl. rewrite Hfetch. simpl. rewrite Hok. simpl.
  rewrite length_app, Nat.add_1_r, <- app_assoc. reflexivity.
Qed.

(** A 2xx answer whose body does not decode goes to the catch branch,
    with the decoder's message. *)
Lemma searchTool_undecodable h input w q response err :
  truthy (trim input) = true ->
  encodeURIComponent h input = Return q ->
  fetch_at h (List.length w) (search_url q) = Return response ->
  ok response = true ->
  json response = Throw err ->
  searchTool h input w =
  (Return {| te_id := uuid_at h (S (List.length w));
             te_tool := lit "webSearch";
             te_input := input;
             te_output := lit "Search failed.";
             te_success := false;
             te_error := Some (message_of err) |},
   w ++ [EvFetch (search_url q)] ++ [EvRandomUUID]).
Proof.
  intros Hblank Henc Hfetch Hok Hjson. unfold searchTool. rewrite Hblank. run.
  rewrite Henc. simpl. rewrite Hfetch. simpl. rewrite Hok. simpl.
  rewrite Hjson. simpl.
  rewrite length_app, Nat.add_1_r, <- app_assoc. reflexivity.
Qed.

(** A blank query is refused without any request. *)
Lemma searchTool_blank h input w :
  truthy (trim input) = false ->
  searchTool h input w =
  (Return {| te_id := uuid_at h (List.length w);
             te_tool := lit "webSearch";
             te_input := input;
             te_output := lit "Search input missing.";
             te_success := false;
             te_error := Some (lit "The search tool requires a query string.") |},
   w ++ [EvRandomUUID]).
Proof. intros Hblank. unfold searchTool. now rewrite Hblank. Qed.

(* ================================================================== *)
(** ** The knowledge base                                              *)
(* ================================================================== *)


Lemma insert_desc_perm x l : Permutation (x :: l) (insert_desc x l).
Proof.
  induction l as [|y t IH]; simpl; [reflexivity|].
  destruct (score y <? score x); [reflexivity|].
  rewrite perm_swap. now constructor.
Qed.

Lemma insert_desc_sorted x l :
  StronglySorted outranks l -> StronglySorted outranks (insert_desc x l).
Proof.
  intros Hs. induction Hs as [|y t Hs IH Hall]; simpl.
  - repeat constructor.
  - destruct (score y <? score x) eqn:E.
    + apply Nat.ltb_lt in E. constructor; [now constructor|].
      constructor; [unfold outranks; lia|].
      eapply Forall_impl; [|exact Hall]. unfold outranks. intros; lia.
    + apply Nat.ltb_ge in E. constructor; [exact IH|].
      eapply Permutation_Forall; [apply insert_desc_perm|].
      constructor; auto.
Qed.

Lemma fold_insert_perm l :
  forall acc,
    Permutation (l ++ acc) (fold_left (fun sorted x => insert_desc x sorted) l acc).
Proof.
  induction l as [|x l IH]; intros acc; simpl; [reflexivity|].
  rewrite <- IH. rewrite <- insert_desc_perm. apply Permutation_middle.
Qed.

Lemma fold_insert_sorted l :
  forall acc,
    StronglySorted outranks acc ->
    StronglySorted outranks
      (fold_left (fun sorted x => insert_desc x sorted) l acc).
Proof.
  induction l as [|x l IH]; intros acc Hacc; simpl; auto.
  apply IH. now apply insert_desc_sorted.
Qed.

Lemma sort_desc_perm l : Permutation l (sort_desc l).
Proof.
  unfold sort_desc. rewrite <- fold_insert_perm. now rewrite app_nil_r.
Qed.

Lemma sort_desc_sorted l : StronglySorted outranks (sort_desc l).
Proof. apply fold_insert_sorted. constructor. Qed.

Lemma in_skipn_in {A} (y : A) n :
  forall l, In y (skipn n l) -> In y l.
Proof.
  induction n as [|n IH]; intros l Hy; [exact Hy|].
  destruct l as [|a l]; [contradiction|]. right. now apply IH.
Qed.

Lemma in_firstn_in {A} (x : A) n :
  forall l, In x (firstn n l) -> In x l.
Proof.
  induction n as [|n IH]; intros l Hx; [contradiction|].
  destruct l as [|a l]; [contradiction|].
  destruct Hx as [->|Hx]; [now left | right; now apply IH].
Qed.

(** In a sorted list, what [slice(0, n)] keeps outranks what it drops. *)
Lemma sorted_prefix_outranks n :
  forall l x y,
    StronglySorted outranks l ->
    In x (firstn n l) -> In y (skipn n l) -> outranks x y.
Proof.
  induction n as [|n IH]; intros l x y Hs Hx Hy; [contradiction|].
  destruct l as [|a l]; [contradiction|].
  apply StronglySorted_inv in Hs. destruct Hs as [Hs Hall].
  simpl in Hx, Hy. destruct Hx as [->|Hx].
  - rewrite Forall_forall in Hall. apply Hall.
    now apply (in_skipn_in y n).
  - eapply IH; eauto.
Qed.

Lemma sorted_firstn n l :
  StronglySorted outranks l -> StronglySorted outranks (firstn n l).
Proof.
  intros Hs. revert n. induction Hs as [|a l Hs IH Hall]; intros n.
  - rewrite firstn_nil. constructor.
  - destruct n; simpl; constructor; auto.
    rewrite Forall_forall in *. intros y Hy. apply Hall.
    eapply in_firstn_in; eauto.
Qed.

Section Ranking.
Variable h : Host.
Variable query : jsstring.


Lemma rank_unfold : rank h query = firstn 2 (sort_desc (candidates h query)).
Proof. reflexivity. Qed.

Lemma candidates_spec x :
  In x (candidates h query) <->
  exists d, In d KNOWLEDGE_BASE /\ x = scored h query d /\ 0 < score x.
Proof.
  unfold candidates. rewrite filter_In, in_map_iff, Nat.ltb_lt. split.
  - intros [(d & <- & Hd) Hpos]. now exists d.
  - intros (d & Hd & -> & Hpos). split; auto. now exists d.
Qed.

Lemma rank_candidates x : In x (rank h query) -> In x (candidates h query).
Proof.
  rewrite rank_unfold. intros Hx. apply in_firstn_in in Hx.
  eapply Permutation_in; [symmetry; apply sort_desc_perm | exact Hx].
Qed.

Lemma rank_length : List.length (rank h query) <= 2.
Proof. rewrite rank_unfold. apply firstn_le_length. Qed.

Lemma rank_sorted : StronglySorted outranks (rank h query).
Proof. rewrite rank_unfold. apply sorted_firstn, sort_desc_sorted. Qed.

(** A document with a positive score that is not ranked was cut off by
    the slice. *)
Lemma unranked_was_cut d :
  In d KNOWLEDGE_BASE ->
  0 < scoreKnowledgeBase h query d ->
  ~ In d (map doc (rank h query)) ->
  In (scored h query d) (skipn 2 (sort_desc (candidates h query))).
Proof.
  intros Hd Hpos Hout.
  assert (Hc : In (scored h query d) (sort_desc (candidates h query))).
  { eapply Permutation_in; [apply sort_desc_perm|].
    apply candidates_spec. now exists d. }
  rewrite <- (firstn_skipn 2 (sort_desc (candidates h query))) in Hc.
  apply in_app_or in Hc. destruct Hc as [Hc|Hc]; auto.
  exfalso. apply Hout. rewrite rank_unfold.
  apply in_map_iff. now exists (scored h query d).
Qed.

Lemma rank_tops x d :
  In x (rank h query) ->
  In d KNOWLEDGE_BASE ->
  ~ In d (map doc (rank h query)) ->
  scoreKnowledgeBase h query d <= score x.
Proof.
  intros Hx Hd Hout.
  destruct (scoreKnowledgeBase h query d) as [|n] eqn:E; [lia|].
  rewrite <- E.
  change (outranks x (scored h query d)).
  apply (sorted_prefix_outranks 2 (sort_desc (candidates h query))).
  - apply sort_desc_sorted.
  - exact Hx.
  - apply unranked_was_cut; auto. lia.
Qed.

Lemma rank_full d :
  In d KNOWLEDGE_BASE ->
  0 < scoreKnowledgeBase h query d ->
  ~ In d (map doc (rank h query)) ->
  List.length (rank h query) = 2.
Proof.
  intros Hd Hpos Hout. pose proof (unranked_was_cut d Hd Hpos Hout) as Hcut.
  rewrite rank_unfold.
  destruct (sort_desc (candidates h query)) as [|a [|b l]]; simpl in *;
    try contradiction; reflexivity.
Qed.

Lemma rank_none :
  (forall d, In d KNOWLEDGE_BASE -> scoreKnowledgeBase h query d = 0) ->
  rank h query = [].
Proof.
  intros Hzero. destruct (rank h query) as [|x r] eqn:E; auto.
  assert (Hx : In x (candidates h query)) by (apply rank_candidates; rewrite E; now left).
  apply candidates_spec in Hx. destruct Hx as (d & Hd & -> & Hpos).
  simpl in Hpos. rewrite (Hzero d Hd) in Hpos. lia.
Qed.

End Ranking.

(** C8. For every input and context the knowledge-base tool returns a
    record with [success] true and no error. Its output renders the
    ranked documents, one per line: at most two, each a document of the
    knowledge base with a positive score, in descending order of score,
    and no document left out scores higher than one that is shown (a
    positive-scoring document is left out only when two are shown). When
    no document scores above zero the output is the literal
    "No relevant knowledge snippets found.". *)
Theorem knowledgeBaseTool_top_two
    (h : Host) (input : jsstring) (context : ToolContext) (w : World) :
  let query := or_else input (task context) in
  let points := scoreKnowledgeBase h query in
  let shown := rank h query in
  exists e,
    knowledgeBaseTool h input context w = (Return e, w ++ [EvRandomUUID]) /\
    te_success e = true /\
    te_error e = None /\
    te_output e =
      match shown with
      | [] => lit "No relevant knowledge snippets found."
      | _ :: _ => join newline (map render shown)
      end /\
    List.length shown <= 2 /\
    StronglySorted outranks shown /\
    (forall x, In x shown ->
               In (doc x) KNOWLEDGE_BASE /\
               score x = points (doc x) /\ 0 < score x) /\
    (forall x d, In x shown -> In d KNOWLEDGE_BASE ->
                 ~ In d (map doc shown) -> points d <= score x) /\
    (forall d, In d KNOWLEDGE_BASE -> 0 < points d ->
               ~ In d (map doc shown) -> List.length shown = 2) /\
    ((forall d, In d KNOWLEDGE_BASE -> points d = 0) ->
     te_output e = lit "No relevant knowledge snippets found.").
Proof.
  intros query points shown. eexists. split; [apply knowledgeBaseTool_run|].
  cbn [te_success te_error te_output]. fold query. fold shown.
  split; [reflexivity|]. split; [reflexivity|]. split.
  { destruct shown; reflexivity. }
  split; [apply rank_length|]. split; [apply rank_sorted|]. split.
  { intros x Hx. apply rank_candidates, candidates_spec in Hx.
    destruct Hx as (d & Hd & -> & Hpos). now repeat split. }
  split; [intros x d; apply rank_tops|].
  split; [intros d; apply rank_full|].
  intros Hzero. unfold shown. now rewrite (rank_none h query Hzero).
Qed.

Example knowledgeBase_agentic_ai :
  returns (fun e =>
             te_success e = true /\
             te_output e =
               render (scored offline_host (lit "agentic ai")
                         {| title := lit "Agentic AI definition";
                            content := lit "Agentic AI systems combine reasoning, planning, and tool usage to autonomously achieve goals across multiple steps." |}))
    (fst (knowledgeBaseTool offline_host (lit "agentic ai") {| task := [] |} [])).
Proof. vm_compute. split; reflexivity. Qed.

Example knowledgeBase_no_overlap :
  returns (fun e =>
             te_success e = true /\
             te_output e = lit "No relevant knowledge snippets found.")
    (fst (knowledgeBaseTool offline_host (lit "zzyyxx") {| task := [] |} [])).
Proof. vm_compute. split; reflexivity. Qed.

(** All three documents match "and"; the first two are shown. *)
Example knowledgeBase_cut :
  map (fun x => (title (doc x), score x)) (rank offline_host (lit "and"))
  = [(lit "Agentic AI definition", 1); (lit "Product launch checklist", 1)]
  /\ map (scoreKnowledgeBase offline_host (lit "and")) KNOWLEDGE_BASE = [1; 1; 1].
Proof. vm_compute. split; reflexivity. Qed.

(** A repeated keyword is counted each time it occurs in the query. *)
Example score_counts_repeats :
  scoreKnowledgeBase offline_host (lit "launch launch")
    (nth 1 KNOWLEDGE_BASE {| title := []; content := [] |}) = 2.
Proof. reflexivity. Qed.

(* ================================================================== *)
(** ** The calculator's arithmetic                                     *)
(* ================================================================== *)

(** An input of the integer fragment is evaluated and reported. *)
Lemma calculatorTool_fragment h input z w :
  truthy (trim input) = true ->
  isSafeMathExpression input = true ->
  arith input = Some z ->
  calculatorTool h input w =
  (Return {| te_id := uuid_at h (S (List.length w));
             te_tool := lit "calculator";
             te_input := input;
             te_output := lit "Result: " ++ show_Z z;
             te_success := true;
             te_error := None |},
   w ++ [EvFunction (function_body input)] ++ [EvRandomUUID]).
Proof.
  intros Hblank Hsafe Hz. unfold calculatorTool. rewrite Hblank, Hsafe. run.
  rewrite Hz. rewrite length_app, Nat.add_1_r, <- app_assoc. reflexivity.
Qed.

(** On integers that fit in 31 bits ToInt32 is the identity, and so is
    the wrap of the result: [a ^ b] is the bitwise exclusive or. *)
Lemma lxor_below a b n :
  (0 <= n)%Z -> (0 <= a < 2 ^ n)%Z -> (0 <= b < 2 ^ n)%Z ->
  (0 <= Z.lxor a b < 2 ^ n)%Z.
Proof.
  intros Hn Ha Hb.
  assert (Hnonneg : (0 <= Z.lxor a b)%Z) by (apply Z.lxor_nonneg; lia).
  split; [exact Hnonneg|].
  destruct (Z.eq_dec (Z.lxor a b) 0) as [E|E].
  - rewrite E. apply Z.pow_pos_nonneg; lia.
  - assert (Hpos : (0 < Z.lxor a b)%Z) by lia.
    assert (Hn' : (0 < n)%Z).
    { destruct (Z.eq_dec n 0) as [->|]; [|lia].
      change (2 ^ 0)%Z with 1%Z in Ha, Hb.
      assert (a = 0%Z) by lia. assert (b = 0%Z) by lia. subst.
      now elim E. }
    apply Z.log2_lt_pow2; auto.
    eapply Z.le_lt_trans; [apply Z.log2_lxor; lia|].
    apply Z.max_lub_lt.
    + destruct (Z.eq_dec a 0) as [->|Na]; [simpl; lia|].
      apply Z.log2_lt_pow2; lia.
    + destruct (Z.eq_dec b 0) as [->|Nb]; [simpl; lia|].
      apply Z.log2_lt_pow2; lia.
Qed.

Lemma ToInt32_small z : (0 <= z < 2 ^ 31)%Z -> ToInt32 z = z.
Proof.
  intros Hz. unfold ToInt32. rewrite Z.mod_small; lia.
Qed.

Lemma eval_caret a b :
  (a < 2 ^ 31)%N -> (b < 2 ^ 31)%N ->
  eval (Bin Xor (Num a) (Num b)) = Some (Z.lxor (Z.of_N a) (Z.of_N b)).
Proof.
  intros Ha Hb.
  change (2 ^ 31)%N with 2147483648%N in Ha, Hb.
  assert (Ha' : (0 <= Z.of_N a < 2 ^ 31)%Z)
    by (change (2 ^ 31)%Z with 2147483648%Z; lia).
  assert (Hb' : (0 <= Z.of_N b < 2 ^ 31)%Z)
    by (change (2 ^ 31)%Z with 2147483648%Z; lia).
  pose proof (lxor_below (Z.of_N a) (Z.of_N b) 31 ltac:(lia) Ha' Hb') as Hx.
  assert (Hexact : forall z, (0 <= z < 2 ^ 31)%Z -> exact z = true).
  { intros z Hz. unfold exact. apply Z.leb_le. lia. }
  simpl. rewrite (Hexact _ Ha'), (Hexact _ Hb').
  rewrite (ToInt32_small _ Ha'), (ToInt32_small _ Hb').
  now rewrite (Hexact _ Hx).
Qed.

(** *** Decimal literals

    The text of a natural number, as the calculator reads it back. *)

Lemma show_N_digits n :
  show_N n = lit (NilEmpty.string_of_uint (N.to_uint n)).
Proof.
  unfold show_N, NilZero.string_of_uint.
  destruct (N.to_uint n) eqn:E; try reflexivity.
  exfalso. rewrite <- (DecimalN.Unsigned.of_to n) in E.
  rewrite DecimalN.Unsigned.to_of in E.
  exact (DecimalFacts.unorm_nonnil _ E).
Qed.

Lemma uint_digits d : forallb is_digit (lit (NilEmpty.string_of_uint d)) = true.
Proof. induction d; simpl; auto. Qed.

Lemma digits_value_acc d :
  forall p,
    digits_value (N.pos p) (lit (NilEmpty.string_of_uint d))
    = N.pos (Pos.of_uint_acc d p).
Proof.
  unfold lit.
  induction d; intros p;
    cbn [NilEmpty.string_of_uint list_ascii_of_string map digits_value
         Pos.of_uint_acc];
    try reflexivity; rewrite <- IHd; f_equal;
    match goal with
    | |- context [N_of_ascii ?c] =>
        let v := eval vm_compute in (N_of_ascii c) in
        change (N_of_ascii c) with v
    end; lia.
Qed.

Lemma digits_value_uint d :
  digits_value 0 (lit (NilEmpty.string_of_uint d)) = N.of_uint d.
Proof.
  unfold N.of_uint.
  induction d; try reflexivity; try exact IHd;
    exact (digits_value_acc d _).
Qed.

Lemma digits_value_show n : digits_value 0 (show_N n) = n.
Proof.
  rewrite show_N_digits, digits_value_uint. apply DecimalN.Unsigned.of_to.
Qed.

Lemma nzhead_shape d :
  literal_ok (lit (NilEmpty.string_of_uint (Decimal.unorm d))) = true.
Proof.
  unfold Decimal.unorm.
  induction d; cbn [Decimal.nzhead]; try reflexivity; try exact IHd;
    unfold lit; cbn [NilEmpty.string_of_uint list_ascii_of_string map];
    now destruct (NilEmpty.string_of_uint d).
Qed.

Lemma literal_ok_show n : literal_ok (show_N n) = true.
Proof.
  rewrite show_N_digits. rewrite <- (DecimalN.Unsigned.of_to n) at 1.
  rewrite DecimalN.Unsigned.to_of. apply nzhead_shape.
Qed.

Lemma span_digits_app ds rest :
  forallb is_digit ds = true -> ends_literal rest = true ->
  span_digits (ds ++ rest) = (ds, rest).
Proof.
  intros Hds Hrest. induction ds as [|c ds IH]; simpl in *.
  - destruct rest as [|c rest]; auto. simpl in *.
    destruct (is_digit c); [discriminate | reflexivity].
  - apply andb_prop in Hds. destruct Hds as [Hc Hds].
    now rewrite Hc, (IH Hds).
Qed.

Lemma digit_is_no_punctuation c :
  is_digit c = true ->
  (c =? 32)%N = false /\ (c =? 43)%N = false /\ (c =? 45)%N = false /\
  (c =? 42)%N = false /\ (c =? 94)%N = false /\ (c =? 40)%N = false /\
  (c =? 41)%N = false.
Proof.
  unfold is_digit, in_range. intros H. apply andb_prop in H.
  destruct H as [H1 H2]. apply N.leb_le in H1, H2.
  repeat split; apply N.eqb_neq; lia.
Qed.

Lemma tokenize_literal f ds rest :
  ds <> [] -> forallb is_digit ds = true -> literal_ok ds = true ->
  ends_literal rest = true ->
  tokenize (S f) (ds ++ rest)
  = option_map (cons (TNum (digits_value 0 ds))) (tokenize f rest).
Proof.
  intros Hne Hds Hok Hrest.
  pose proof (span_digits_app ds rest Hds Hrest) as Hspan.
  destruct ds as [|c ds]; [congruence|].
  assert (Hc : is_digit c = true) by (simpl in Hds; now apply andb_prop in Hds).
  destruct (digit_is_no_punctuation c Hc) as (E1 & E2 & E3 & E4 & E5 & E6 & E7).
  cbn [tokenize app]. rewrite E1, E2, E3, E4, E5, E6, E7, Hc.
  change (c :: ds ++ rest) with ((c :: ds) ++ rest). rewrite Hspan.
  now rewrite Hok.
Qed.

Lemma tokenize_caret f rest :
  tokenize (S f) (94%N :: rest) = option_map (cons TCaret) (tokenize f rest).
Proof. reflexivity. Qed.

Lemma show_N_nonempty n : show_N n <> [].
Proof.
  intros E. pose proof (literal_ok_show n) as H. rewrite E in H. discriminate.
Qed.

Lemma show_N_all_digits n : forallb is_digit (show_N n) = true.
Proof. rewrite show_N_digits. apply uint_digits. Qed.

Lemma parse_caret a b :
  parse (show_N a ++ lit "^" ++ show_N b) = Some (Bin Xor (Num a) (Num b)).
Proof.
  unfold parse.
  assert (Hlen : exists f, List.length (show_N a ++ lit "^" ++ show_N b)
                           = S (S (S f))).
  { pose proof (show_N_nonempty a) as Ha. pose proof (show_N_nonempty b) as Hb.
    destruct (show_N a) as [|x xs]; [congruence|].
    destruct (show_N b) as [|y ys]; [congruence|].
    rewrite !length_app. simpl. rewrite Nat.add_succ_r. simpl. eauto. }
  destruct Hlen as (f & ->).
  rewrite tokenize_literal;
    auto using show_N_nonempty, show_N_all_digits, literal_ok_show.
  change (lit "^" ++ show_N b) with (94%N :: show_N b).
  rewrite tokenize_caret.
  rewrite <- (app_nil_r (show_N b)).
  rewrite tokenize_literal;
    auto using show_N_nonempty, show_N_all_digits, literal_ok_show.
  rewrite !digits_value_show. reflexivity.
Qed.

Lemma digit_whitelisted c : is_digit c = true -> whitelisted c = true.
Proof. intros H. unfold whitelisted. now rewrite H. Qed.

Lemma forallb_impl {A} (p q : A -> bool) l :
  (forall a, p a = true -> q a = true) ->
  forallb p l = true -> forallb q l = true.
Proof.
  intros Hpq. induction l as [|a l IH]; simpl; auto.
  intros H. apply andb_prop in H. destruct H as [Ha Hl].
  now rewrite (Hpq a Ha), (IH Hl).
Qed.

(** The calculator on the text of [a ^ b], for 31-bit naturals. *)
Lemma calculatorTool_caret h a b w :
  (a < 2 ^ 31)%N -> (b < 2 ^ 31)%N ->
  calculatorTool h (show_N a ++ lit "^" ++ show_N b) w =
  (Return {| te_id := uuid_at h (S (List.length w));
             te_tool := lit "calculator";
             te_input := show_N a ++ lit "^" ++ show_N b;
             te_output := lit "Result: "
                          ++ show_Z (Z.lxor (Z.of_N a) (Z.of_N b));
             te_success := true;
             te_error := None |},
   w ++ [EvFunction (function_body (show_N a ++ lit "^" ++ show_N b))]
     ++ [EvRandomUUID]).
Proof.
  intros Ha Hb. apply calculatorTool_fragment.
  - destruct (trim (show_N a ++ lit "^" ++ show_N b)) eqn:E; auto.
    assert (Hin : In 94%N (trim (show_N a ++ lit "^" ++ show_N b))).
    { apply trim_keeps; [|reflexivity]. apply in_or_app. right. now left. }
    rewrite E in Hin. contradiction.
  - unfold isSafeMathExpression. rewrite !forallb_app.
    rewrite (forallb_impl is_digit whitelisted _ digit_whitelisted
               (show_N_all_digits a)).
    rewrite (forallb_impl is_digit whitelisted _ digit_whitelisted
               (show_N_all_digits b)).
    reflexivity.
  - unfold arith. rewrite parse_caret. now apply eval_caret.
Qed.

(** C9. The calculator evaluates the caret as bitwise exclusive or, not
    as a power: on "2^3" it returns [success] true with output
    "Result: 1" (8 would be the power), and on the text of [a ^ b], for
    any two 31-bit naturals, the exclusive or of [a] and [b]. The
    description the registry publishes for the tool lists the caret
    among the mathematical operators. *)
Theorem calculator_caret_is_xor (h : Host) (w : World) :
  calculatorTool h (lit "2^3") w =
  (Return {| te_id := uuid_at h (S (List.length w));
             te_tool := lit "calculator";
             te_input := lit "2^3";
             te_output := lit "Result: 1";
             te_success := true;
             te_error := None |},
   w ++ [EvFunction (function_body (lit "2^3"))] ++ [EvRandomUUID]) /\
  lit "Result: 1" <> lit "Result: 8" /\
  parse (lit "2^3") = Some (Bin Xor (Num 2) (Num 3)) /\
  (forall a b,
      (a < 2 ^ 31)%N -> (b < 2 ^ 31)%N ->
      returns (fun e =>
                 te_success e = true /\
                 te_output e
                 = lit "Result: " ++ show_Z (Z.lxor (Z.of_N a) (Z.of_N b)))
        (fst (calculatorTool h (show_N a ++ lit "^" ++ show_N b) w))) /\
  exists tool,
    getToolByName h (lit "calculator") = Some tool /\
    description tool
    = lit "Solve mathematical expressions including +, -, *, /, %, and ^." /\
    includes (description tool) (lit "^") = true.
Proof.
  split; [|split; [|split; [|split]]].
  - apply (calculatorTool_fragment h (lit "2^3") 1 w); reflexivity.
  - discriminate.
  - reflexivity.
  - intros a b Ha Hb. rewrite (calculatorTool_caret h a b w Ha Hb).
    split; reflexivity.
  - eexists. split; [reflexivity|]. split; reflexivity.
Qed.

Example caret_binds_loosest :
  arith (lit "2^10") = Some 8%Z /\
  arith (lit "7^7") = Some 0%Z /\
  arith (lit "2 ^ 3 + 1") = Some 6%Z /\
  arith (lit "1 - 5 ^ 2") = Some (-2)%Z /\
  arith (lit "2+2") = Some 4%Z.
Proof. repeat split. Qed.

(** Forms outside the fragment are left to the host: the power operator,
    division, a fraction, a literal with a leading zero. *)
Example outside_the_fragment :
  arith (lit "2**3") = None /\ arith (lit "1/2") = None /\
  arith (lit "1.5") = None /\ arith (lit "010") = None /\
  arith (lit "9007199254740992+1") = None.
Proof. repeat split. Qed.

Example calculator_round_trip :
  returns (fun e => te_success e = true /\ te_output e = lit "Result: 4")
    (fst (calculatorTool offline_host (lit "2+2") [])).
Proof. vm_compute. split; reflexivity. Qed.

(* ================================================================== *)
(** ** Further properties: the registry                                *)
(* ================================================================== *)

(** X1. Lookup in the registry is exact up to case: a name finds a tool
    if and only if the tool is registered and the two names have the
    same lower-casing; it finds nothing if and only if its lower-casing
    is none of "websearch", "calculator", "knowledgebase". *)
Theorem getToolByName_iff (h : Host) (n : jsstring) :
  (forall tool,
      getToolByName h n = Some tool <->
      In tool (TOOLKIT h) /\ lower h (name tool) = lower h n) /\
  (getToolByName h n = None <->
   lower h n <> lit "websearch" /\
   lower h n <> lit "calculator" /\
   lower h n <> lit "knowledgebase").
Proof.
  split.
  - intros tool. split; [apply getToolByName_registered|].
    intros [Hin Heq]. unfold getToolByName.
    destruct Hin as [<-|[<-|[<-|[]]]]; cbn [TOOLKIT find name] in *;
      rewrite <- Heq; reflexivity.
  - unfold getToolByName. cbn [TOOLKIT find name].
    change (lower h (lit "webSearch")) with (lit "websearch").
    change (lower h (lit "calculator")) with (lit "calculator").
    change (lower h (lit "knowledgeBase")) with (lit "knowledgebase").
    destruct (JS.eqb (lit "websearch") (lower h n)) eqn:E1;
      [apply eqb_eq in E1; split; [discriminate | intros (H & _); congruence]|].
    destruct (JS.eqb (lit "calculator") (lower h n)) eqn:E2;
      [apply eqb_eq in E2; split;
       [discriminate | intros (_ & H & _); congruence]|].
    destruct (JS.eqb (lit "knowledgebase") (lower h n)) eqn:E3;
      [apply eqb_eq in E3; split;
       [discriminate | intros (_ & _ & H); congruence]|].
    split; [|reflexivity]. intros _.
    repeat split; intros H; symmetry in H; apply eqb_eq in H; congruence.
Qed.

Example getToolByName_any_case :
  option_map name (getToolByName offline_host (lit "KNOWLEDGEBASE"))
  = Some (lit "knowledgeBase") /\
  option_map name (getToolByName offline_host (lit "knowledge base")) = None.
Proof. split; reflexivity. Qed.

(* ================================================================== *)
(** ** Further properties: blank input                                 *)
(* ================================================================== *)

Lemma trimStart_nil_iff s : trimStart s = [] <-> forallb is_space s = true.
Proof.
  induction s as [|c s IH]; simpl; [tauto|].
  destruct (is_space c); simpl; [exact IH|]. split; discriminate.
Qed.

Lemma trimStart_head s c t : trimStart s = c :: t -> is_space c = false.
Proof.
  induction s as [|a s IH]; simpl; [discriminate|].
  destruct (is_space a) eqn:E; [exact IH|].
  intros H. injection H as <- _. exact E.
Qed.

Lemma forallb_rev {A} (p : A -> bool) l : forallb p (rev l) = forallb p l.
Proof.
  induction l as [|a l IH]; simpl; auto.
  rewrite forallb_app, IH. simpl. rewrite andb_true_r. apply andb_comm.
Qed.

(** A string trims to the empty string exactly when all its code units
    are white space. *)
Lemma trim_blank_iff s : truthy (trim s) = false <-> forallb is_space s = true.
Proof.
  unfold trim. split.
  - intros H. apply trimStart_nil_iff.
    destruct (trimStart s) as [|c t] eqn:E; auto. exfalso.
    pose proof (trimStart_head s c t E) as Hc.
    destruct (rev (trimStart (rev (c :: t)))) eqn:R; [|discriminate].
    apply (f_equal (@rev N)) in R. rewrite rev_involutive in R.
    change (rev (@nil N)) with (@nil N) in R.
    apply trimStart_nil_iff in R. rewrite forallb_rev in R.
    simpl in R. rewrite Hc in R. discriminate.
  - intros H. apply trimStart_nil_iff in H. rewrite H. reflexivity.
Qed.

(** X2. A search query made only of white space (the empty query
    included) is refused with "The search tool requires a query string.",
    and no request is sent: the only interaction is the drawing of the
    record's identifier. *)
Theorem searchTool_blank_no_request (h : Host) (input : jsstring) (w : World) :
  forallb is_space input = true ->
  searchTool h input w =
  (Return {| te_id := uuid_at h (List.length w);
             te_tool := lit "webSearch";
             te_input := input;
             te_output := lit "Search input missing.";
             te_success := false;
             te_error := Some (lit "The search tool requires a query string.") |},
   w ++ [EvRandomUUID]).
Proof. intros H. apply searchTool_blank. now apply trim_blank_iff. Qed.

Lemma searchTool_blank_no_request_witness :
  searchTool searching_host [32; 9; 160]%N [] =
  (Return {| te_id := lit "uuid-0";
             te_tool := lit "webSearch";
             te_input := [32; 9; 160]%N;
             te_output := lit "Search input missing.";
             te_success := false;
             te_error := Some (lit "The search tool requires a query string.") |},
   [EvRandomUUID]).
Proof.
  apply (searchTool_blank_no_request searching_host [32; 9; 160]%N []).
  reflexivity.
Defined.

(** X3. The calculator evaluates exactly the inputs that are not blank
    and pass the whitelist: for those the log gains the call of
    [Function] on the wrapped input and then the identifier draw; for
    every other input it gains the identifier draw alone. A blank input
    is refused with "Expression required for calculator tool.". *)
Theorem calculatorTool_evaluator_gate (h : Host) (input : jsstring) (w : World) :
  exists e,
    calculatorTool h input w
    = (Return e,
       w ++ (if negb (forallb is_space input) && isSafeMathExpression input
             then [EvFunction (function_body input); EvRandomUUID]
             else [EvRandomUUID])) /\
    te_input e = input /\
    te_tool e = lit "calculator" /\
    (forallb is_space input = true ->
     te_success e = false /\
     te_output e = lit "No expression provided." /\
     te_error e = Some (lit "Expression required for calculator tool.")).
Proof.
  unfold calculatorTool.
  destruct (truthy (trim input)) eqn:Hb.
  - assert (Hs : forallb is_space input = false).
    { destruct (forallb is_space input) eqn:E; auto.
      apply trim_blank_iff in E. congruence. }
    rewrite Hs. cbn [negb andb].
    destruct (isSafeMathExpression input); cbn [negb].
    + run. destruct (arith input) as [z|].
      * eexists. rewrite <- app_assoc. split; [reflexivity|].
        repeat split; discriminate.
      * destruct (function_at h (List.length w) (function_body input));
          eexists; rewrite <- app_assoc; (split; [reflexivity|]);
          repeat split; discriminate.
    + run. eexists. split; [reflexivity|]. repeat split; discriminate.
  - apply trim_blank_iff in Hb. rewrite Hb. cbn [negb andb]. run.
    eexists. split; [reflexivity|]. repeat split.
Qed.

Example calculatorTool_gate_cases :
  snd (calculatorTool offline_host (lit "   ") []) = [EvRandomUUID] /\
  snd (calculatorTool offline_host (lit "x+1") []) = [EvRandomUUID] /\
  snd (calculatorTool offline_host (lit "1/2") [])
  = [EvFunction (function_body (lit "1/2")); EvRandomUUID].
Proof. repeat split. Qed.

(* ================================================================== *)
(** ** Further properties: failures of the web search                  *)
(* ================================================================== *)

Lemma not_blank_truthy input :
  forallb is_space input = false -> truthy (trim input) = true.
Proof.
  intros H. destruct (truthy (trim input)) eqn:E; auto.
  apply trim_blank_iff in E. congruence.
Qed.

(** X4. An answer whose status is outside 200-299 makes the search fail
    with output "Search failed." and the error "HTTP <status>"; the body
    of the answer is not read. *)
Theorem searchTool_status_error
    (h : Host) (input : jsstring) (w : World) (q : jsstring)
    (response : Response) :
  forallb is_space input = false ->
  encodeURIComponent h input = Return q ->
  fetch_at h (List.length w) (search_url q) = Return response ->
  (status response < 200 \/ 299 < status response)%N ->
  searchTool h input w =
  (Return {| te_id := uuid_at h (S (List.length w));
             te_tool := lit "webSearch";
             te_input := input;
             te_output := lit "Search failed.";
             te_success := false;
             te_error := Some (lit "HTTP " ++ show_N (status response)) |},
   w ++ [EvFetch (search_url q)] ++ [EvRandomUUID]).
Proof.
  intros Hblank Henc Hfetch Hstatus.
  apply searchTool_http_error; auto using not_blank_truthy.
  unfold ok, in_range. apply andb_false_iff.
  destruct Hstatus; [left; apply N.leb_gt | right; apply N.leb_gt]; lia.
Qed.

Lemma searchTool_status_error_witness :
  searchTool unavailable_host (lit "latest news") [] =
  (Return {| te_id := lit "uuid-1";
             te_tool := lit "webSearch";
             te_input := lit "latest news";
             te_output := lit "Search failed.";
             te_success := false;
             te_error := Some (lit "HTTP 503") |},
   [EvFetch (search_url (lit "latest news")); EvRandomUUID]).
Proof.
  apply (searchTool_status_error unavailable_host (lit "latest news") []
           (lit "latest news")
           {| status := 503;
              json := Throw (ErrorObject (lit "Unexpected end of JSON input")) |});
    try reflexivity.
  right. reflexivity.
Defined.

(** X5. Whatever is thrown while the query is encoded, the request is
    made or the body is decoded is caught: the tool returns a record
    with [success] false, output "Search failed." and the thrown
    Error's message as error ("Unknown error" for another value). *)
Theorem searchTool_catches
    (h : Host) (input : jsstring) (w : World) (e : Thrown) :
  forallb is_space input = false ->
  search_fails h input w e ->
  returns (fun r =>
             te_success r = false /\
             te_tool r = lit "webSearch" /\
             te_input r = input /\
             te_output r = lit "Search failed." /\
             te_error r = Some (message_of e))
    (fst (searchTool h input w)).
Proof.
  intros Hblank Hfail. unfold searchTool.
  rewrite (not_blank_truthy input Hblank). run.
  destruct Hfail as [E | [(q & E1 & E2) | (q & r & E1 & E2 & E3 & E4)]].
  - rewrite E. simpl. repeat split.
  - rewrite E1. simpl. rewrite E2. simpl. repeat split.
  - rewrite E1. simpl. rewrite E2. simpl. rewrite E3. simpl.
    rewrite E4. simpl. repeat split.
Qed.

Lemma searchTool_catches_witness :
  returns (fun r =>
             te_success r = false /\
             te_tool r = lit "webSearch" /\
             te_input r = lit "latest news" /\
             te_output r = lit "Search failed." /\
             te_error r = Some (lit "fetch failed"))
    (fst (searchTool offline_host (lit "latest news") [])).
Proof.
  apply (searchTool_catches offline_host (lit "latest news") [] network_down).
  - reflexivity.
  - right; left. exists (lit "latest news"). split; reflexivity.
Defined.

(** Every way a search can go. *)
Lemma searchTool_shape (h : Host) (input : jsstring) (w : World) :
  exists r events,
    searchTool h input w = (Return r, w ++ events) /\
    te_input r = input /\
    te_tool r = lit "webSearch" /\
    (events = [EvRandomUUID] \/
     exists q, encodeURIComponent h input = Return q /\
               events = [EvFetch (search_url q); EvRandomUUID]) /\
    (te_success r = true <->
     forallb is_space input = false /\
     exists data, search_answered h input w data).
Proof.
  unfold searchTool, search_answered.
  destruct (truthy (trim input)) eqn:Hb; cbn [negb].
  - assert (Hs : forallb is_space input = false).
    { destruct (forallb is_space input) eqn:E; auto.
      apply trim_blank_iff in E. congruence. }
    run. destruct (encodeURIComponent h input) as [q|err] eqn:Henc; simpl.
    + destruct (fetch_at h (List.length w) (search_url q)) as [resp|err]
        eqn:Hf; simpl.
      * destruct (ok resp) eqn:Hok; simpl.
        -- destruct (json resp) as [data|err] eqn:Hj; simpl;
             eexists _, _; rewrite <- app_assoc;
             (split; [reflexivity|]); simpl;
             (split; [reflexivity|]); (split; [reflexivity|]);
             (split; [right; eauto|]).
           ++ split; auto. intros _. split; auto.
              exists data, q, resp. auto.
           ++ split; [discriminate|].
              intros (_ & d & q' & r' & E1 & E2 & E3 & E4).
              injection E1 as <-. rewrite Hf in E2. injection E2 as <-.
              congruence.
        -- eexists _, _; rewrite <- app_assoc;
             (split; [reflexivity|]); simpl;
             (split; [reflexivity|]); (split; [reflexivity|]);
             (split; [right; eauto|]).
           split; [discriminate|].
           intros (_ & d & q' & r' & E1 & E2 & E3 & E4).
           injection E1 as <-. rewrite Hf in E2. injection E2 as <-.
           congruence.
      * eexists _, _; rewrite <- app_assoc;
          (split; [reflexivity|]); simpl;
          (split; [reflexivity|]); (split; [reflexivity|]);
          (split; [right; eauto|]).
        split; [discriminate|].
        intros (_ & d & q' & r' & E1 & E2 & E3 & E4).
        injection E1 as <-. rewrite Hf in E2. discriminate.
    + eexists _, _. split; [reflexivity|]. simpl.
      split; [reflexivity|]. split; [reflexivity|]. split; [now left|].
      split; [discriminate|].
      intros (_ & d & q' & r' & E1 & _). discriminate.
  - run. eexists _, _. split; [reflexivity|]. simpl.
    split; [reflexivity|]. split; [reflexivity|]. split; [now left|].
    split; [discriminate|]. intros (Hs & _).
    apply trim_blank_iff in Hb. congruence.
Qed.

(** X6. The search tool always returns a record for the input it was
    given, after at most one request, which goes to the search URL of
    the encoded input. The record has [success] true exactly when the
    input is not blank and the search was answered with a 2xx status and
    a body that decodes. *)
Theorem searchTool_success_iff (h : Host) (input : jsstring) (w : World) :
  exists r events,
    searchTool h input w = (Return r, w ++ events) /\
    te_input r = input /\
    te_tool r = lit "webSearch" /\
    (events = [EvRandomUUID] \/
     exists q, encodeURIComponent h input = Return q /\
               events = [EvFetch (search_url q); EvRandomUUID]) /\
    (te_success r = true <->
     forallb is_space input = false /\
     exists data, search_answered h input w data).
Proof. exact (searchTool_shape h input w). Qed.

(* ================================================================== *)
(** ** Further properties: what the calculator reports                 *)
(* ================================================================== *)

(** X7. For an input that is not blank, passes the whitelist and lies
    outside the integer fragment, the calculator reports what the
    evaluation of the wrapped input gives: "Result: <value>" with
    [success] true when it returns, and [success] false with empty
    output and the thrown message when it throws. *)
Theorem calculatorTool_reports_evaluation
    (h : Host) (input : jsstring) (w : World) :
  forallb is_space input = false ->
  isSafeMathExpression input = true ->
  arith input = None ->
  calculatorTool h input w =
  (Return
     match function_at h (List.length w) (function_body input) with
     | Return value =>
         {| te_id := uuid_at h (S (List.length w));
            te_tool := lit "calculator";
            te_input := input;
            te_output := lit "Result: " ++ value;
            te_success := true;
            te_error := None |}
     | Throw error =>
         {| te_id := uuid_at h (S (List.length w));
            te_tool := lit "calculator";
            te_input := input;
            te_output := [];
            te_success := false;
            te_error := Some (message_of error) |}
     end,
   w ++ [EvFunction (function_body input)] ++ [EvRandomUUID]).
Proof.
  intros Hblank Hsafe Hout. unfold calculatorTool.
  rewrite (not_blank_truthy input Hblank), Hsafe. run. rewrite Hout.
  destruct (function_at h (List.length w) (function_body input));
    rewrite length_app, Nat.add_1_r, <- app_assoc; reflexivity.
Qed.

Lemma calculatorTool_reports_evaluation_witness :
  calculatorTool offline_host (lit "(1+") [] =
  (Return {| te_id := lit "uuid-1";
             te_tool := lit "calculator";
             te_input := lit "(1+";
             te_output := [];
             te_success := false;
             te_error := Some (lit "Unexpected token") |},
   [EvFunction (function_body (lit "(1+")); EvRandomUUID]) /\
  calculatorTool unavailable_host (lit "1/2") [] =
  (Return {| te_id := lit "uuid-1";
             te_tool := lit "calculator";
             te_input := lit "1/2";
             te_output := lit "Result: 0.5";
             te_success := true;
             te_error := None |},
   [EvFunction (function_body (lit "1/2")); EvRandomUUID]).
Proof.
  split.
  - apply (calculatorTool_reports_evaluation offline_host (lit "(1+") []);
      reflexivity.
  - apply (calculatorTool_reports_evaluation unavailable_host (lit "1/2") []);
      reflexivity.
Defined.

(* ================================================================== *)
(** ** Further properties: scoring and ranking                         *)
(* ================================================================== *)

Lemma split_from_units s :
  forall cur in_sep,
    forallb is_keyword_unit cur = true ->
    Forall (fun piece => forallb is_keyword_unit piece = true)
           (split_from cur in_sep s).
Proof.
  induction s as [|c s IH]; intros cur in_sep Hcur; simpl.
  - constructor; [now rewrite forallb_rev | constructor].
  - destruct (is_keyword_unit c) eqn:Ec.
    + apply IH. simpl. now rewrite Ec.
    + destruct in_sep; [now apply IH|].
      constructor; [now rewrite forallb_rev | now apply IH].
Qed.

Lemma split_from_no_keyword s :
  forall in_sep,
    forallb (fun c => negb (is_keyword_unit c)) s = true ->
    filter truthy (split_from [] in_sep s) = [].
Proof.
  induction s as [|c s IH]; intros in_sep H; simpl in *; auto.
  apply andb_prop in H. destruct H as [Hc Hs].
  destruct (is_keyword_unit c); [discriminate|].
  destruct in_sep; simpl; now apply IH.
Qed.

Lemma count_matches (p : jsstring -> bool) ks :
  forall n,
    fold_left (fun total word => total + (if p word then 1 else 0)) ks n
    = n + List.length (filter p ks).
Proof.
  induction ks as [|k ks IH]; intros n; simpl; [lia|].
  rewrite IH. destruct (p k); simpl; lia.
Qed.

Lemma filter_length_le {A} (p : A -> bool) l :
  List.length (filter p l) <= List.length l.
Proof.
  induction l as [|a l IH]; simpl; auto. destruct (p a); simpl; lia.
Qed.

(** X8. The keywords of a query are non-empty runs of [a-z0-9] taken
    from its lower-casing. The score of a document is the number of
    keywords, counted as often as they occur in the query, that occur in
    the lower-cased "title content" text; it is at most the number of
    keywords, and 0 when the lower-cased query has no unit in [a-z0-9]. *)
Theorem scoreKnowledgeBase_counts (h : Host) (query : jsstring) (d : Doc) :
  Forall (fun k => k <> [] /\ forallb is_keyword_unit k = true)
         (keywords h query) /\
  scoreKnowledgeBase h query d
  = List.length (filter (includes (doc_text h d)) (keywords h query)) /\
  scoreKnowledgeBase h query d <= List.length (keywords h query) /\
  (forallb (fun c => negb (is_keyword_unit c)) (lower h query) = true ->
   scoreKnowledgeBase h query d = 0).
Proof.
  assert (Hscore : scoreKnowledgeBase h query d
                   = List.length (filter (includes (doc_text h d))
                                         (keywords h query))).
  { unfold scoreKnowledgeBase, keywords, doc_text.
    now rewrite count_matches. }
  split; [|split; [exact Hscore | split]].
  - unfold keywords. apply Forall_forall. intros k Hk.
    apply filter_In in Hk. destruct Hk as [Hin Ht]. split.
    + now apply truthy_nonempty.
    + pose proof (split_from_units (lower h query) [] false eq_refl) as HF.
      rewrite Forall_forall in HF. now apply HF.
  - rewrite Hscore. apply filter_length_le.
  - intros Hnone. rewrite Hscore. unfold keywords, split_non_alnum.
    now rewrite (split_from_no_keyword _ false Hnone).
Qed.

Example score_examples :
  keywords offline_host (lit "Agentic AI, agentic-AI!")
  = [lit "agentic"; lit "ai"; lit "agentic"; lit "ai"] /\
  map (scoreKnowledgeBase offline_host (lit "Agentic AI, agentic-AI!"))
      KNOWLEDGE_BASE = [4; 0; 0] /\
  map (scoreKnowledgeBase offline_host (lit "?!")) KNOWLEDGE_BASE = [0; 0; 0].
Proof. repeat split. Qed.

Lemma with_score_above k l y :
  Forall (outranks y) l -> score y < k -> with_score k l = [].
Proof.
  intros Hall Hlt. induction Hall as [|z l Hz _ IH]; simpl; auto.
  unfold outranks in Hz.
  destruct (score z =? k) eqn:E; [apply Nat.eqb_eq in E; lia | exact IH].
Qed.

Lemma with_score_cons k y t :
  with_score k (y :: t)
  = (if score y =? k then [y] else []) ++ with_score k t.
Proof. unfold with_score. simpl. destruct (score y =? k); reflexivity. Qed.

Lemma insert_desc_with_score k x l :
  StronglySorted outranks l ->
  with_score k (insert_desc x l)
  = with_score k l ++ (if score x =? k then [x] else []).
Proof.
  intros Hs. induction Hs as [|y t Hs IH Hall]; cbn [insert_desc].
  - rewrite with_score_cons. destruct (score x =? k); reflexivity.
  - destruct (score y <? score x) eqn:E.
    + apply Nat.ltb_lt in E. rewrite !with_score_cons.
      destruct (score x =? k) eqn:Ex; [|now rewrite !app_nil_r].
      apply Nat.eqb_eq in Ex.
      assert (Hy : (score y =? k) = false) by (apply Nat.eqb_neq; lia).
      rewrite Hy. rewrite (with_score_above k t y Hall); [reflexivity | lia].
    + rewrite !with_score_cons, IH. now rewrite app_assoc.
Qed.

Lemma fold_insert_with_score k l :
  forall acc,
    StronglySorted outranks acc ->
    with_score k (fold_left (fun sorted x => insert_desc x sorted) l acc)
    = with_score k acc ++ with_score k l.
Proof.
  induction l as [|x l IH]; intros acc Hacc; cbn [fold_left].
  - change (with_score k []) with (@nil Entry). now rewrite app_nil_r.
  - rewrite IH by now apply insert_desc_sorted.
    rewrite insert_desc_with_score by assumption.
    rewrite with_score_cons, <- app_assoc. reflexivity.
Qed.

(** X9. The ranking sort is a stable sort by descending score: its
    result is a permutation of its input, in descending order of score,
    and entries of equal score keep the order they had. *)
Theorem sort_desc_stable (l : list Entry) :
  Permutation l (sort_desc l) /\
  StronglySorted outranks (sort_desc l) /\
  forall k, with_score k (sort_desc l) = with_score k l.
Proof.
  split; [apply sort_desc_perm | split; [apply sort_desc_sorted|]].
  intros k. unfold sort_desc.
  rewrite fold_insert_with_score by constructor. reflexivity.
Qed.

(* ================================================================== *)
(** ** Further properties: the fallback to the task                    *)
(* ================================================================== *)

(** X10. How the registry passes a step's description to its tool. A
    non-empty description is all a tool sees: the task has no effect.
    With an empty description the web search and the knowledge base are
    run on the task instead; the calculator is not, and refuses with
    "Expression required for calculator tool." whatever the task is. *)
Theorem toolkit_task_fallback (h : Host) :
  (forall tool d context context' w,
      In tool (TOOLKIT h) -> d <> [] ->
      execute tool d context w = execute tool d context' w) /\
  (forall tool context w,
      getToolByName h (lit "webSearch") = Some tool ->
      execute tool [] context w = searchTool h (task context) w) /\
  (forall tool context w,
      getToolByName h (lit "knowledgeBase") = Some tool ->
      execute tool [] context w
      = knowledgeBaseTool h (task context) context w) /\
  (forall tool context w,
      getToolByName h (lit "calculator") = Some tool ->
      execute tool [] context w =
      (Return {| te_id := uuid_at h (List.length w);
                 te_tool := lit "calculator";
                 te_input := [];
                 te_output := lit "No expression provided.";
                 te_success := false;
                 te_error := Some (lit "Expression required for calculator tool.") |},
       w ++ [EvRandomUUID])).
Proof.
  split; [|split; [|split]].
  - intros tool d context context' w Hin Hd.
    destruct d as [|c d]; [congruence|].
    destruct Hin as [<-|[<-|[<-|[]]]]; reflexivity.
  - intros tool context w E. injection E as <-. reflexivity.
  - intros tool context w E. injection E as <-. reflexivity.
  - intros tool context w E. injection E as <-. reflexivity.
Qed.

Example calculator_ignores_the_task :
  returns (fun execs =>
             map (fun e => (te_success e, te_error e)) execs
             = [(false, Some (lit "Expression required for calculator tool."))])
    (fst (executePlan offline_host
            [ {| pi_id := lit "a"; pi_title := lit "Sum";
                 pi_description := []; pi_tool := lit "calculator" |} ]
            (lit "2+2") [])).
Proof. vm_compute. reflexivity. Qed.

(* ================================================================== *)
(** ** Further properties: what the executor does to the log           *)
(* ================================================================== *)

Section ExecutorLog.
Variable h : Host.

(** What a registered tool appends to the log: at most one entry, a
    request for the web search or a call of [Function] for the
    calculator, and then the draw of the identifier of its record. *)
Lemma toolkit_execute_log tool input context w :
  In tool (TOOLKIT h) ->
  exists e pre,
    execute tool input context w = (Return e, w ++ pre ++ [EvRandomUUID]) /\
    te_id e = uuid_at h (List.length (w ++ pre)) /\
    (pre = [] \/
     (exists url, pre = [EvFetch url]) /\ name tool = lit "webSearch" \/
     (exists code, pre = [EvFunction code]) /\ name tool = lit "calculator").
Proof.
  intros [E|[E|[E|[]]]]; subst tool; cbn [execute name].
  - unfold searchTool.
    destruct (truthy (trim (or_else input (task context)))); cbn [negb].
    + run. destruct (encodeURIComponent h _) as [q|err]; simpl.
      * destruct (fetch_at h _ _) as [resp|err]; simpl;
          [destruct (ok resp); simpl; [destruct (json resp); simpl|]|];
          eexists _, [EvFetch (search_url q)];
          (split; [rewrite <- app_assoc; reflexivity|]);
          (split; [reflexivity|]); right; left; split; eauto.
      * eexists _, []. rewrite !app_nil_r. split; [reflexivity|].
        split; [reflexivity|]. now left.
    + run. eexists _, []. rewrite !app_nil_r. split; [reflexivity|].
      split; [reflexivity|]. now left.
  - unfold calculatorTool. destruct (truthy (trim input)); cbn [negb].
    + destruct (isSafeMathExpression input); cbn [negb].
      * run. destruct (arith input);
          [|destruct (function_at h _ _)];
          eexists _, [EvFunction (function_body input)];
          (split; [rewrite <- app_assoc; reflexivity|]);
          (split; [reflexivity|]); right; right; split; eauto.
      * run. eexists _, []. rewrite !app_nil_r. split; [reflexivity|].
        split; [reflexivity|]. now left.
    + run. eexists _, []. rewrite !app_nil_r. split; [reflexivity|].
      split; [reflexivity|]. now left.
  - rewrite knowledgeBaseTool_run. eexists _, []. rewrite !app_nil_r.
    split; [reflexivity|]. split; [reflexivity|]. now left.
Qed.

Lemma uuid_positions_app n a b :
  uuid_positions n (a ++ b)
  = uuid_positions n a ++ uuid_positions (n + List.length a) b.
Proof.
  revert n. induction a as [|ev a IH]; intros n; simpl.
  - now rewrite Nat.add_0_r.
  - rewrite IH, Nat.add_succ_r. destruct ev; reflexivity.
Qed.

Lemma count_app p a b : count p (a ++ b) = count p a + count p b.
Proof. unfold count. now rewrite filter_app, length_app. Qed.

Lemma eqb_refl a : JS.eqb a a = true.
Proof. now apply eqb_eq. Qed.

(** The events of one step, summarized. *)
Lemma step_events tool pre :
  (pre = [] \/
   (exists url, pre = [EvFetch url]) /\ name tool = lit "webSearch" \/
   (exists code, pre = [EvFunction code]) /\ name tool = lit "calculator") ->
  uuid_positions 0 pre = [] /\
  count is_uuid pre = 0 /\
  count is_fetch pre
  <= (if JS.eqb (name tool) (lit "webSearch") then 1 else 0) /\
  count is_function pre
  <= (if JS.eqb (name tool) (lit "calculator") then 1 else 0) /\
  Forall (fun ev => is_fetch ev || is_function ev = true) pre.
Proof.
  intros [->|[[(url & ->) E]|[(code & ->) E]]]; try rewrite E;
    rewrite ?eqb_refl; unfold count; cbn [filter is_uuid is_fetch is_function
                                          List.length uuid_positions];
    repeat split; try lia;
    try (destruct (JS.eqb _ _); lia); repeat constructor.
Qed.

Lemma uuid_positions_shift n events :
  uuid_positions n events = map (Nat.add n) (uuid_positions 0 events).
Proof.
  revert n. induction events as [|ev events IH]; intros n; simpl; auto.
  rewrite (IH (S n)), (IH 1).
  destruct ev; cbn [map]; rewrite ?map_map, ?Nat.add_0_r;
    first [ apply map_ext; intros; lia
          | apply f_equal; apply map_ext; intros; lia ].
Qed.

Lemma resolves_registered name' tool :
  getToolByName h name' = Some tool ->
  forall tool_name,
    (if JS.eqb (name tool) tool_name then 1 else 0)
    <= (if JS.eqb (lower h tool_name) (lower h name') then 1 else 0).
Proof.
  intros G tool_name.
  destruct (getToolByName_registered h _ _ G) as [_ Hl].
  destruct (JS.eqb (name tool) tool_name) eqn:E; [|lia].
  apply eqb_eq in E. subst tool_name. rewrite Hl.
  assert (JS.eqb (lower h name') (lower h name') = true) by now apply eqb_eq.
  now rewrite H.
Qed.

Lemma executePlan_from_log task plan :
  forall executions w,
  exists execs events,
    executePlan_from h executions plan task w
    = (Return (executions ++ execs), w ++ events) /\
    map te_id execs = map (uuid_at h) (uuid_positions (List.length w) events) /\
    count is_uuid events = List.length plan /\
    count is_fetch events
    <= List.length (filter (resolves_to h (lit "webSearch")) plan) /\
    count is_function events
    <= List.length (filter (resolves_to h (lit "calculator")) plan) /\
    Forall (fun ev => is_uuid ev || is_fetch ev || is_function ev = true)
           events.
Proof.
  induction plan as [|step rest IH]; intros executions w.
  - exists [], []. rewrite !app_nil_r. repeat split; simpl; auto.
  - cbn [executePlan_from].
    destruct (getToolByName h (pi_tool step)) as [tool|] eqn:G.
    + destruct (getToolByName_registered h _ _ G) as [Hin _].
      destruct (toolkit_execute_log tool (pi_description step)
                  {| task := task |} w Hin) as (e & pre & He & Hid & Hpre).
      destruct (step_events tool pre Hpre) as (P0 & P1 & P2 & P3 & P4).
      destruct (IH (executions ++ [e]) (w ++ pre ++ [EvRandomUUID]))
        as (execs & events & Hrun & Hids & Hu & Hf & Hc & Hall).
      exists (e :: execs), ((pre ++ [EvRandomUUID]) ++ events).
      split; [|split; [|split; [|split; [|split]]]].
      * rewrite (bind_Return _ _ _ _ _ He), Hrun.
        rewrite <- !app_assoc. reflexivity.
      * rewrite !uuid_positions_app, (uuid_positions_shift _ pre), P0.
        cbn [map app uuid_positions]. rewrite Hids, Hid.
        rewrite !length_app. cbn [List.length].
        repeat f_equal; lia.
      * rewrite !count_app, Hu, P1. cbn. lia.
      * rewrite !count_app. cbn [filter].
        pose proof (resolves_registered _ _ G (lit "webSearch")) as R.
        unfold resolves_to at 1.
        destruct (JS.eqb (lower h (lit "webSearch")) (lower h (pi_tool step)));
          destruct (JS.eqb (name tool) (lit "webSearch"));
          cbn in *; lia.
      * rewrite !count_app. cbn [filter].
        pose proof (resolves_registered _ _ G (lit "calculator")) as R.
        unfold resolves_to at 1.
        destruct (JS.eqb (lower h (lit "calculator")) (lower h (pi_tool step)));
          destruct (JS.eqb (name tool) (lit "calculator"));
          cbn in *; lia.
      * apply Forall_app. split; [apply Forall_app; split|exact Hall].
        -- eapply Forall_impl; [|exact P4]. cbn. intros ev Hev.
           destruct (is_uuid ev); cbn; auto.
        -- now repeat constructor.
    + rewrite (bind_Return _ _ _ _ _ (randomUUID_run h w)).
      destruct (IH (executions ++ [unregistered (uuid_at h (List.length w)) step])
                  (w ++ [EvRandomUUID]))
        as (execs & events & Hrun & Hids & Hu & Hf & Hc & Hall).
      exists (unregistered (uuid_at h (List.length w)) step :: execs),
             ([EvRandomUUID] ++ events).
      split; [|split; [|split; [|split; [|split]]]].
      * rewrite Hrun, <- !app_assoc. reflexivity.
      * cbn [app uuid_positions map te_id unregistered]. rewrite Hids.
        rewrite length_app, Nat.add_1_r. reflexivity.
      * rewrite count_app, Hu. cbn. lia.
      * rewrite count_app. cbn [filter].
        destruct (resolves_to h (lit "webSearch") step); cbn in *; lia.
      * rewrite count_app. cbn [filter].
        destruct (resolves_to h (lit "calculator") step); cbn in *; lia.
      * constructor; auto.
Qed.

End ExecutorLog.

(** X11. What executing a plan asks of the host: exactly one identifier
    per step, at most one search request per step meant for the web
    search, at most one evaluation per step meant for the calculator,
    and nothing else (no clock reading, no request to the language
    model). The log is only extended. *)
Theorem executePlan_interactions
    (h : Host) (plan : list PlanItem) (task : jsstring) (w : World) :
  exists execs events,
    executePlan h plan task w = (Return execs, w ++ events) /\
    count is_uuid events = List.length plan /\
    count is_fetch events
    <= List.length (filter (resolves_to h (lit "webSearch")) plan) /\
    count is_function events
    <= List.length (filter (resolves_to h (lit "calculator")) plan) /\
    Forall (fun ev => is_uuid ev || is_fetch ev || is_function ev = true)
           events.
Proof.
  destruct (executePlan_from_log h task plan [] w)
    as (execs & events & Hrun & _ & Hu & Hf & Hc & Hall).
  now exists execs, events.
Qed.

Example executePlan_sample_log :
  snd (executePlan offline_host sample_plan (lit "t") [])
  = [EvFunction (function_body (lit "2+2")); EvRandomUUID;
     EvRandomUUID; EvRandomUUID].
Proof. reflexivity. Qed.

Lemma uuid_positions_ge events :
  forall n i, In i (uuid_positions n events) -> n <= i.
Proof.
  induction events as [|ev events IH]; intros n i Hi; [contradiction|].
  destruct ev; simpl in Hi;
    try (apply IH in Hi; lia).
  destruct Hi as [<-|Hi]; [lia | apply IH in Hi; lia].
Qed.

Lemma uuid_positions_NoDup events : forall n, NoDup (uuid_positions n events).
Proof.
  induction events as [|ev events IH]; intros n; [constructor|].
  destruct ev; simpl; auto.
  constructor; auto. intros Hin. apply uuid_positions_ge in Hin. lia.
Qed.

Lemma NoDup_map_injective {A B} (f : A -> B) l :
  (forall a b, f a = f b -> a = b) -> NoDup l -> NoDup (map f l).
Proof.
  intros Hf Hl. induction Hl as [|a l Ha Hl IH]; simpl; constructor; auto.
  intros Hin. apply in_map_iff in Hin. destruct Hin as (b & E & Hb).
  apply Hf in E. now subst b.
Qed.

(** X12. The identifiers of the records of an execution are the UUIDs
    drawn during it, in order, each draw used for one record; so they
    are pairwise distinct whenever the UUID source does not repeat
    itself. *)
Theorem executePlan_record_ids
    (h : Host) (plan : list PlanItem) (task : jsstring) (w : World) :
  exists execs events,
    executePlan h plan task w = (Return execs, w ++ events) /\
    map te_id execs = map (uuid_at h) (uuid_positions (List.length w) events) /\
    (fresh_uuids h -> NoDup (map te_id execs)).
Proof.
  destruct (executePlan_from_log h task plan [] w)
    as (execs & events & Hrun & Hids & _).
  exists execs, events. split; [exact Hrun|]. split; [exact Hids|].
  intros Hfresh. rewrite Hids.
  apply NoDup_map_injective; [exact Hfresh | apply uuid_positions_NoDup].
Qed.

Lemma show_N_injective a b : show_N a = show_N b -> a = b.
Proof.
  intros E. rewrite <- (digits_value_show a), <- (digits_value_show b).
  now rewrite E.
Qed.

Lemma offline_host_fresh : fresh_uuids offline_host.
Proof.
  intros i j E. cbn [uuid_at offline_host] in E.
  apply app_inv_head in E. apply show_N_injective in E.
  now apply Nat2N.inj.
Qed.

Lemma executePlan_record_ids_witness :
  exists execs events,
    executePlan offline_host sample_plan (lit "t") [] = (Return execs, events) /\
    map te_id execs = [lit "uuid-1"; lit "uuid-2"; lit "uuid-3"] /\
    NoDup (map te_id execs).
Proof.
  destruct (executePlan_record_ids offline_host sample_plan (lit "t") [])
    as (execs & events & Hrun & Hids & Hfresh).
  exists execs, events. split; [exact Hrun|].
  split; [|exact (Hfresh offline_host_fresh)].
  rewrite Hids.
  assert (E : events = snd (executePlan offline_host sample_plan (lit "t") []))
    by now rewrite Hrun.
  rewrite E. reflexivity.
Defined.

(** The array being built is only extended: starting the loop from
    another array changes nothing else. *)
Lemma executePlan_from_prefix h task plan :
  forall acc execs w w',
    executePlan_from h [] plan task w = (Return execs, w') ->
    executePlan_from h acc plan task w = (Return (acc ++ execs), w').
Proof.
  assert (G : forall acc1 acc2 execs w w',
             executePlan_from h acc1 plan task w = (Return (acc1 ++ execs), w') ->
             executePlan_from h acc2 plan task w = (Return (acc2 ++ execs), w')).
  { induction plan as [|step rest IH]; intros acc1 acc2 execs w w' H.
    - cbn in *. unfold ret in *. injection H as H1 H2. subst w'.
      rewrite <- (app_nil_r acc1) in H1 at 1.
      apply app_inv_head in H1. subst execs. now rewrite app_nil_r.
    - cbn [executePlan_from] in *.
      destruct (getToolByName h (pi_tool step)) as [tool|] eqn:Gt.
      + destruct (getToolByName_registered h _ _ Gt) as [Hin _].
        destruct (toolkit_execute_spec h tool (pi_description step)
                    {| task := task |} w Hin) as (e & w1 & He & _).
        rewrite (bind_Return _ _ _ _ _ He) in H.
        rewrite (bind_Return _ _ _ _ _ He).
        destruct (executePlan_from_spec h task rest (acc1 ++ [e]) w1)
          as (ex & w2 & Hr & _).
        rewrite Hr in H. injection H as H1 H2. subst w'.
        rewrite <- app_assoc in H1. apply app_inv_head in H1. subst execs.
        rewrite (IH (acc1 ++ [e]) (acc2 ++ [e]) ex w1 w2 Hr).
        now rewrite <- app_assoc.
      + rewrite (bind_Return _ _ _ _ _ (randomUUID_run h w)) in H.
        rewrite (bind_Return _ _ _ _ _ (randomUUID_run h w)).
        set (e := unregistered (uuid_at h (List.length w)) step) in *.
        destruct (executePlan_from_spec h task rest (acc1 ++ [e])
                    (w ++ [EvRandomUUID])) as (ex & w2 & Hr & _).
        rewrite Hr in H. injection H as H1 H2. subst w'.
        rewrite <- app_assoc in H1. apply app_inv_head in H1. subst execs.
        rewrite (IH (acc1 ++ [e]) (acc2 ++ [e]) ex _ w2 Hr).
        now rewrite <- app_assoc. }
  intros acc execs w w' H. apply (G [] acc). exact H.
Qed.

(** X13. Executing a plan made of two parts is executing the first part
    and then, from the log it leaves, the second: the records are those
    of the first part followed by those of the second. *)
Theorem executePlan_app
    (h : Host) (plan1 plan2 : list PlanItem) (task : jsstring) (w : World) :
  exists execs1 w1 execs2 w2,
    executePlan h plan1 task w = (Return execs1, w1) /\
    executePlan h plan2 task w1 = (Return execs2, w2) /\
    executePlan h (plan1 ++ plan2) task w = (Return (execs1 ++ execs2), w2).
Proof.
  revert w. unfold executePlan.
  induction plan1 as [|step rest IH]; intros w.
  - destruct (executePlan_from_spec h task plan2 [] w) as (e2 & w2 & H2 & _).
    exists [], w, e2, w2. repeat split; auto.
  - destruct (getToolByName h (pi_tool step)) as [tool|] eqn:Gt.
    + destruct (getToolByName_registered h _ _ Gt) as [Hin _].
      destruct (toolkit_execute_spec h tool (pi_description step)
                  {| task := task |} w Hin) as (e & wa & He & _).
      destruct (IH wa) as (r1 & wb & r2 & wc & Ha & Hb & Hc).
      exists (e :: r1), wb, r2, wc. split; [|split; [exact Hb|]].
      * cbn [executePlan_from]. rewrite Gt, (bind_Return _ _ _ _ _ He).
        exact (executePlan_from_prefix h task rest [e] r1 wa wb Ha).
      * cbn [app executePlan_from]. rewrite Gt, (bind_Return _ _ _ _ _ He).
        exact (executePlan_from_prefix h task (rest ++ plan2) [e]
                 (r1 ++ r2) wa wc Hc).
    + set (e := unregistered (uuid_at h (List.length w)) step).
      destruct (IH (w ++ [EvRandomUUID])) as (r1 & wb & r2 & wc & Ha & Hb & Hc).
      exists (e :: r1), wb, r2, wc. split; [|split; [exact Hb|]].
      * cbn [executePlan_from].
        rewrite Gt, (bind_Return _ _ _ _ _ (randomUUID_run h w)).
        exact (executePlan_from_prefix h task rest [e] r1 _ wb Ha).
      * cbn [app executePlan_from].
        rewrite Gt, (bind_Return _ _ _ _ _ (randomUUID_run h w)).
        exact (executePlan_from_prefix h task (rest ++ plan2) [e]
                 (r1 ++ r2) _ wc Hc).
Qed.

(* ================================================================== *)
(** ** Further properties: the run without a credential, step by step  *)
(* ================================================================== *)

Section OfflineRun.
Variable h : Host.

Lemma executePlan_from_registered acc step rest task w tool e w1 :
  getToolByName h (pi_tool step) = Some tool ->
  execute tool (pi_description step) {| task := task |} w = (Return e, w1) ->
  executePlan_from h acc (step :: rest) task w
  = executePlan_from h (acc ++ [e]) rest task w1.
Proof.
  intros G He. cbn [executePlan_from]. now rewrite G, (bind_Return _ _ _ _ _ He).
Qed.

Lemma calculator_step_run acc id rest task w :
  executePlan_from h acc (calculator_step id :: rest) task w
  = executePlan_from h
      (acc ++ [calculator_refusal (uuid_at h (List.length w))]) rest task
      (w ++ [EvRandomUUID]).
Proof.
  eapply executePlan_from_registered; [reflexivity|].
  cbn [execute pi_description calculator_step]. unfold calculatorTool.
  rewrite (unsafe_unit_rejected _ 85%N); [reflexivity | | reflexivity].
  vm_compute. tauto.
Qed.

Lemma knowledgeBase_step_run acc id rest task w :
  executePlan_from h acc (knowledgeBase_step id :: rest) task w
  = executePlan_from h
      (acc ++ [playbook_record (uuid_at h (List.length w))]) rest task
      (w ++ [EvRandomUUID]).
Proof.
  eapply executePlan_from_registered; [reflexivity|].
  cbn [execute pi_description knowledgeBase_step].
  rewrite knowledgeBaseTool_run. reflexivity.
Qed.

Lemma webSearch_step_run acc id rest task w :
  exists r events,
    executePlan_from h acc (webSearch_step id :: rest) task w
    = executePlan_from h (acc ++ [r]) rest task (w ++ events) /\
    te_tool r = lit "webSearch" /\
    te_input r = live_context_query /\
    (events = [EvRandomUUID] \/
     exists q, encodeURIComponent h live_context_query = Return q /\
               events = [EvFetch (search_url q); EvRandomUUID]).
Proof.
  destruct (searchTool_shape h live_context_query w)
    as (r & events & Hrun & Hin & Htool & Hev & _).
  exists r, events. split; [|auto].
  eapply executePlan_from_registered; [reflexivity|]. exact Hrun.
Qed.

Ltac fetch_done :=
  try match goal with H : _ \/ _ |- _ => decompose [or] H end;
  try discriminate; try contradiction;
  try match goal with
      | E : EvFetch _ = EvFetch _ |- _ => injection E as <-
      end;
  eauto.

(** The records of the heuristic plan, and what getting them asked of
    the host. *)
Lemma executePlan_fallback task w0 w a r :
  exists execs events calc_part web_part idk,
    executePlan h (fallback_steps h w0 a r) task w = (Return execs, w ++ events) /\
    execs = calc_part ++ web_part ++ [playbook_record idk] /\
    (if a then exists idc, calc_part = [calculator_refusal idc]
     else calc_part = []) /\
    (if r then exists rec, web_part = [rec] /\
                           te_tool rec = lit "webSearch" /\
                           te_input rec = live_context_query
     else web_part = []) /\
    count is_function events = 0 /\
    count is_model_request events = 0 /\
    count is_fetch events <= 1 /\
    (forall url, In (EvFetch url) events ->
                 r = true /\
                 exists q, encodeURIComponent h live_context_query = Return q /\
                           url = search_url q).
Proof.
  unfold executePlan, fallback_steps. destruct a, r.
  - rewrite calculator_step_run.
    destruct (webSearch_step_run
                ([] ++ [calculator_refusal (uuid_at h (List.length w))])
                (uuid_at h (1 + List.length w0))
                [knowledgeBase_step (uuid_at h (2 + List.length w0))]
                task (w ++ [EvRandomUUID]))
      as (rec & events & Hrun & Ht & Hi & Hev).
    rewrite Hrun, knowledgeBase_step_run. cbn [executePlan_from ret].
    eexists _, ([EvRandomUUID] ++ events ++ [EvRandomUUID]),
      [calculator_refusal _], [rec], _.
    split; [rewrite <- !app_assoc; reflexivity|].
    split; [reflexivity|]. split; [eauto|]. split; [eauto|].
    destruct Hev as [->|(q & Hq & ->)]; cbn; repeat split; try lia;
      fetch_done.
  - rewrite calculator_step_run, knowledgeBase_step_run.
    cbn [executePlan_from ret].
    eexists _, ([EvRandomUUID] ++ [EvRandomUUID]),
      [calculator_refusal _], [], _.
    split; [rewrite <- !app_assoc; reflexivity|].
    split; [reflexivity|]. split; [eauto|]. split; [reflexivity|].
    cbn. repeat split; try lia; fetch_done.
  - destruct (webSearch_step_run []
                (uuid_at h (List.length w0))
                [knowledgeBase_step (uuid_at h (1 + List.length w0))]
                task w)
      as (rec & events & Hrun & Ht & Hi & Hev).
    rewrite Hrun, knowledgeBase_step_run. cbn [executePlan_from ret].
    eexists _, (events ++ [EvRandomUUID]), [], [rec], _.
    split; [rewrite <- !app_assoc; reflexivity|].
    split; [reflexivity|]. split; [reflexivity|]. split; [eauto|].
    destruct Hev as [->|(q & Hq & ->)]; cbn; repeat split; try lia;
      fetch_done.
  - rewrite knowledgeBase_step_run. cbn [executePlan_from ret].
    eexists _, [EvRandomUUID], [], [], _.
    split; [reflexivity|].
    split; [reflexivity|]. split; [reflexivity|]. split; [reflexivity|].
    cbn. repeat split; try lia; fetch_done.
Qed.

Lemma buildFallbackPlan_log task w :
  buildFallbackPlan h task w =
  (Return {| pp_reasoning := lit "Generated plan via heuristic fallback because the OpenAI API key is not configured.";
             pp_plan := fallback_steps h w
                          (analysis_pattern (lower h task))
                          (research_pattern (lower h task)) |},
   w ++ repeat EvRandomUUID
          (List.length (fallback_steps h w
                          (analysis_pattern (lower h task))
                          (research_pattern (lower h task))))).
Proof.
  unfold buildFallbackPlan, fallback_steps.
  destruct (analysis_pattern (lower h task));
    destruct (research_pattern (lower h task));
    run; repeat rewrite length_app; simpl;
    repeat rewrite Nat.add_1_r; repeat rewrite <- app_assoc; reflexivity.
Qed.

Lemma count_repeat_uuid p n :
  p EvRandomUUID = false -> count p (repeat EvRandomUUID n) = 0.
Proof.
  intros Hp. unfold count. induction n as [|n IH]; simpl; auto.
  now rewrite Hp.
Qed.

Lemma offline_run_detail task w :
  no_credential h = true ->
  exists outcome events calc_part web_part idk,
    runAgentTask h task w = (Return outcome, w ++ events) /\
    ao_steps outcome = calc_part ++ web_part ++ [playbook_record idk] /\
    (if analysis_pattern (lower h task)
     then exists idc, calc_part = [calculator_refusal idc]
     else calc_part = []) /\
    (if research_pattern (lower h task)
     then exists rec, web_part = [rec] /\
                      te_tool rec = lit "webSearch" /\
                      te_input rec = live_context_query
     else web_part = []) /\
    count is_function events = 0 /\
    count is_model_request events = 0 /\
    count is_fetch events <= 1 /\
    (forall url, In (EvFetch url) events ->
                 research_pattern (lower h task) = true /\
                 exists q, encodeURIComponent h live_context_query = Return q /\
                           url = search_url q).
Proof.
  intros Hcred. unfold runAgentTask.
  rewrite (bind_Return _ _ _ _ _ (newDate_run h w)), Hcred.
  rewrite (bind_Return _ _ _ _ _ (buildFallbackPlan_log task (w ++ [EvNewDate]))).
  cbn [pp_plan pp_reasoning].
  set (a := analysis_pattern (lower h task)).
  set (r := research_pattern (lower h task)).
  set (draws := repeat EvRandomUUID _).
  destruct (executePlan_fallback task (w ++ [EvNewDate])
              ((w ++ [EvNewDate]) ++ draws) a r)
    as (execs & events & cp & wp & idk & Hrun & Hex & Hc & Hw & Hf & Hm & Hq & Hu).
  rewrite (bind_Return _ _ _ _ _ Hrun).
  rewrite (bind_Return _ _ _ _ _ (newDate_run h _)).
  exists
    {| ao_success := true;
       ao_plan := fallback_steps h (w ++ [EvNewDate]) a r;
       ao_steps := execs;
       ao_final := offline_final;
       ao_reasoning := lit "Generated plan via heuristic fallback because the OpenAI API key is not configured.";
       ao_meta := {| startedAt := toISOString h (clock_at h (List.length w));
                     completedAt :=
                       toISOString h
                         (clock_at h
                            (List.length (((w ++ [EvNewDate]) ++ draws) ++ events)));
                     durationMs := 0 |};
       ao_error := Some missing_key_error |},
    ([EvNewDate] ++ draws ++ events ++ [EvNewDate]), cp, wp, idk.
  split; [rewrite <- !app_assoc; reflexivity|].
  split; [exact Hex|]. split; [exact Hc|]. split; [exact Hw|].
  rewrite !count_app.
  unfold draws. rewrite !count_repeat_uuid by reflexivity.
  rewrite Hf, Hm.
  split; [cbn; lia|]. split; [cbn; lia|]. split; [cbn; lia|].
  intros url Hin. apply Hu.
  apply in_app_or in Hin. destruct Hin as [[E|[]]|Hin]; [discriminate|].
  apply in_app_or in Hin. destruct Hin as [Hin|Hin].
  - apply repeat_spec in Hin. discriminate.
  - apply in_app_or in Hin. destruct Hin as [Hin|[E|[]]]; [exact Hin|discriminate].
Qed.

End OfflineRun.

(** X14. Without a credential a run never contacts the language model
    and never calls the evaluator; it sends at most one search request,
    only when the research pattern matched, and the query of that
    request is the fixed description of the step, not the task. *)
Theorem offline_run_host_contacts (h : Host) (task : jsstring) (w : World) :
  no_credential h = true ->
  exists outcome events,
    runAgentTask h task w = (Return outcome, w ++ events) /\
    count is_model_request events = 0 /\
    count is_function events = 0 /\
    count is_fetch events <= 1 /\
    (forall url,
        In (EvFetch url) events ->
        research_pattern (lower h task) = true /\
        exists q, encodeURIComponent h live_context_query = Return q /\
                  url = search_url q).
Proof.
  intros Hcred.
  destruct (offline_run_detail h task w Hcred)
    as (outcome & events & _ & _ & _ & Hrun & _ & _ & _ & Hf & Hm & Hq & Hu).
  exists outcome, events.
  split; [exact Hrun|]. split; [exact Hm|]. split; [exact Hf|].
  split; [exact Hq | exact Hu].
Qed.

Lemma offline_run_host_contacts_witness :
  exists outcome,
    runAgentTask searching_host (lit "Find the latest news on Mars") []
    = (Return outcome,
       [EvNewDate; EvRandomUUID; EvRandomUUID;
        EvFetch (search_url live_context_query); EvRandomUUID;
        EvRandomUUID; EvNewDate]).
Proof.
  destruct (offline_run_host_contacts searching_host
              (lit "Find the latest news on Mars") [] eq_refl)
    as (outcome & events & Hrun & _).
  exists outcome. rewrite Hrun. f_equal.
  apply (f_equal snd) in Hrun. cbn [snd] in Hrun. rewrite <- Hrun.
  reflexivity.
Defined.

(** X15. Without a credential the step records are fixed up to the web
    search: the calculator step, planned when the analysis pattern
    matched, is always refused for unsupported characters (its input is
    the step's sentence); the web-search step, planned when the research
    pattern matched, is run on its fixed sentence; and the last record
    is always the knowledge base's success with the "Data storytelling"
    snippet, whatever the task. *)
Theorem offline_run_steps (h : Host) (task : jsstring) (w : World) :
  no_credential h = true ->
  exists outcome w' calc_part web_part idk,
    runAgentTask h task w = (Return outcome, w') /\
    ao_steps outcome = calc_part ++ web_part ++ [playbook_record idk] /\
    (if analysis_pattern (lower h task)
     then exists idc, calc_part = [calculator_refusal idc]
     else calc_part = []) /\
    (if research_pattern (lower h task)
     then exists rec, web_part = [rec] /\
                      te_tool rec = lit "webSearch" /\
                      te_input rec = live_context_query
     else web_part = []).
Proof.
  intros Hcred.
  destruct (offline_run_detail h task w Hcred)
    as (outcome & events & cp & wp & idk & Hrun & Hs & Hc & Hw & _).
  exists outcome, (w ++ events), cp, wp, idk. auto.
Qed.

Lemma offline_run_steps_witness :
  exists outcome w',
    runAgentTask offline_host (lit "Calculate 15 percent of 80") []
    = (Return outcome, w') /\
    ao_steps outcome
    = [calculator_refusal (lit "uuid-3"); playbook_record (lit "uuid-4")].
Proof.
  destruct (offline_run_steps offline_host (lit "Calculate 15 percent of 80")
              [] eq_refl)
    as (outcome & w' & cp & wp & idk & Hrun & _).
  exists outcome, w'. split; [exact Hrun|].
  apply (f_equal fst) in Hrun. cbn [fst] in Hrun.
  assert (E : fst (runAgentTask offline_host
                     (lit "Calculate 15 percent of 80") [])
              = Return outcome) by exact Hrun.
  vm_compute in E. injection E as <-. reflexivity.
Defined.

(* ================================================================== *)
(** ** The executor on a plan of any shape                             *)
(* ================================================================== *)

Lemma JSON_null_dec (value : JSON) : {value = JNull} + {value <> JNull}.
Proof. destruct value; (now left) || (right; discriminate). Qed.

Lemma as_item_value step : as_item (item_value step) = step.
Proof. now destruct step. Qed.

Lemma plan_of_payload_value payload :
  plan_of (payload_value payload) = pp_plan payload.
Proof.
  unfold plan_of.
  change (get (lit "plan") (payload_value payload))
    with (Some (JArray (map item_value (pp_plan payload)))).
  unfold as_plan, iterate. rewrite map_map.
  rewrite (map_ext _ (fun step => step) as_item_value). apply map_id.
Qed.

Lemma reasoning_of_payload_value payload :
  reasoning_of (payload_value payload) = pp_reasoning payload.
Proof. reflexivity. Qed.

Section ValueFacts.
Variable h : Host.

(** On a string, a handler does what its signature says. *)
Lemma execute_value_string tool s context w :
  In tool (TOOLKIT h) ->
  execute_value tool (Some (JString s)) context w = execute tool s context w.
Proof.
  intros [E|[E|[E|[]]]]; subst tool; cbn [execute execute_value];
    unfold or_else_value, or_else, truthy_value;
    try destruct (truthy s); reflexivity.
Qed.

(** On any value, a handler either throws before it does anything, or
    does what it does on that value read as a string. *)
Lemma execute_value_cases tool input context w :
  In tool (TOOLKIT h) ->
  (exists misuse,
      execute_value tool input context w = (Throw (TypeError h misuse), w)) \/
  execute_value tool input context w = execute tool (text input) context w.
Proof.
  intros Hin.
  destruct input as [[| b | nonzero | s | items | properties]|];
    try (right; exact (execute_value_string tool s context w Hin));
    destruct Hin as [E|[E|[E|[]]]]; subst tool;
    cbn [execute execute_value text];
    unfold or_else_value, truthy_value;
    try destruct b; try destruct nonzero;
    first [ right; reflexivity | left; eexists; reflexivity ].
Qed.

Lemma member_run variable key value w :
  value <> JNull ->
  member h variable key value w = (Return (get key value), w).
Proof. destruct value; intros H; try reflexivity. now destruct H. Qed.

(** The loop on values either goes as the loop on these values read as
    plan items, or throws, having asked the host only what tools ask. *)
Lemma executePlan_value_from_cases task steps :
  forall executions w,
    executePlan_value_from h executions steps task w
    = executePlan_from h executions (map as_item steps) task w \/
    exists misuse events,
      executePlan_value_from h executions steps task w
      = (Throw (TypeError h misuse), w ++ events) /\
      Forall (fun ev => is_uuid ev || is_fetch ev || is_function ev = true)
             events.
Proof.
  induction steps as [|step rest IH]; intros executions w.
  - now left.
  - cbn [executePlan_value_from map executePlan_from].
    destruct (JSON_null_dec step) as [->|Hnull].
    { right. exists (Member (lit "step") (Some JNull) (lit "tool")), [].
      rewrite app_nil_r. split; [reflexivity|constructor]. }
    rewrite (bind_Return _ _ _ _ _
               (member_run (lit "step") (lit "tool") step w Hnull)).
    change (pi_tool (as_item step)) with (text (get (lit "tool") step)).
    change (pi_description (as_item step))
      with (text (get (lit "description") step)).
    destruct (get (lit "tool") step) as [[| b | nonzero | s | items | properties]|];
      try (right; eexists _, []; rewrite app_nil_r;
           split; [reflexivity|constructor]).
    cbn [text].
    assert (G : getToolByName_value h (Some (JString s)) w
                = (Return (getToolByName h s), w)) by reflexivity.
    rewrite (bind_Return _ _ _ _ _ G).
    destruct (getToolByName h s) as [tool|] eqn:Etool.
    + destruct (getToolByName_registered h _ _ Etool) as [Hin _].
      destruct (execute_value_cases tool (get (lit "description") step)
                  {| task := task |} w Hin) as [(e & He) | He].
      * right. exists e, []. rewrite app_nil_r. split; [|constructor].
        now rewrite (bind_Throw _ _ _ _ _ He).
      * destruct (toolkit_execute_log h tool
                    (text (get (lit "description") step))
                    {| task := task |} w Hin) as (e & pre & Hrun & _ & Hpre).
        destruct (step_events tool pre Hpre) as (_ & _ & _ & _ & P4).
        rewrite <- He in Hrun.
        rewrite (bind_Return _ _ _ _ _ Hrun).
        rewrite He in Hrun. rewrite (bind_Return _ _ _ _ _ Hrun).
        destruct (IH (executions ++ [e]) (w ++ pre ++ [EvRandomUUID]))
          as [Hsame | (e' & events & Hthrow & Hall)].
        -- now left.
        -- right. exists e', ((pre ++ [EvRandomUUID]) ++ events). split.
           ++ rewrite Hthrow, <- !app_assoc. reflexivity.
           ++ apply Forall_app. split; [apply Forall_app; split|exact Hall].
              ** eapply Forall_impl; [|exact P4]. cbn. intros ev Hev.
                 destruct (is_uuid ev); cbn; auto.
              ** now repeat constructor.
    + rewrite !(bind_Return _ _ _ _ _ (randomUUID_run h w)).
      destruct (IH (executions
                    ++ [unregistered (uuid_at h (List.length w)) (as_item step)])
                  (w ++ [EvRandomUUID]))
        as [Hsame | (e' & events & Hthrow & Hall)].
      * now left.
      * right. exists e', ([EvRandomUUID] ++ events). split.
        -- rewrite Hthrow, <- !app_assoc. reflexivity.
        -- constructor; auto.
Qed.

(** The execution of the plan of an answer: it throws at once when the
    answer is null or its plan is not iterable, and is the loop
    otherwise. *)
Lemma executePlan_of_cases planPayload task w :
  (exists misuse,
      executePlan_of h planPayload task w = (Throw (TypeError h misuse), w)) \/
  (exists steps,
      iterate (get (lit "plan") planPayload) = Some steps /\
      executePlan_of h planPayload task w
      = executePlan_value_from h [] steps task w).
Proof.
  unfold executePlan_of.
  destruct (JSON_null_dec planPayload) as [->|Hnull].
  { left. eexists. reflexivity. }
  rewrite (bind_Return _ _ _ _ _
             (member_run (lit "planPayload") (lit "plan") planPayload w Hnull)).
  unfold executePlan_value.
  destruct (iterate (get (lit "plan") planPayload)) as [steps|] eqn:Eit.
  - right. now exists steps.
  - left. eexists. reflexivity.
Qed.

(** Whatever its result, the execution only extends the log, by what
    tools ask of the host; when it returns, it returns what the loop
    returns on the plan read at its declared type; what it throws is a
    TypeError. *)
Lemma executePlan_of_result planPayload task w :
  exists r events,
    executePlan_of h planPayload task w = (r, w ++ events) /\
    Forall (fun ev => is_uuid ev || is_fetch ev || is_function ev = true)
           events /\
    match r with
    | Return steps =>
        executePlan h (plan_of planPayload) task w
        = (Return steps, w ++ events)
    | Throw e => exists misuse, e = TypeError h misuse
    end.
Proof.
  destruct (executePlan_of_cases planPayload task w)
    as [(misuse & He) | (items & Eit & He)].
  - eexists _, []. rewrite app_nil_r. split; [exact He|].
    split; [constructor|]. now exists misuse.
  - destruct (executePlan_value_from_cases task items [] w)
      as [Hsame | (misuse & events & Hthrow & Hall)].
    + destruct (executePlan_from_log h task (map as_item items) [] w)
        as (execs & events & Erun & _ & _ & _ & _ & Hall).
      exists (Return execs), events. rewrite He, Hsame.
      split; [exact Erun|]. split; [exact Hall|].
      unfold plan_of, as_plan, executePlan. now rewrite Eit.
    + eexists _, events. rewrite He. split; [exact Hthrow|].
      split; [exact Hall|]. now exists misuse.
Qed.

(** An execution that completes is the execution of the plan read at
    its declared type. *)
Lemma executePlan_of_returns planPayload task w steps w' :
  executePlan_of h planPayload task w = (Return steps, w') ->
  executePlan h (plan_of planPayload) task w = (Return steps, w').
Proof.
  intros Hrun.
  destruct (executePlan_of_result planPayload task w)
    as (r & events & E & _ & Hr).
  rewrite E in Hrun. injection Hrun as -> <-. exact Hr.
Qed.

Lemma executePlan_of_log planPayload task w r w' :
  executePlan_of h planPayload task w = (r, w') ->
  exists events,
    w' = w ++ events /\
    Forall (fun ev => is_uuid ev || is_fetch ev || is_function ev = true)
           events.
Proof.
  intros Hrun.
  destruct (executePlan_of_result planPayload task w)
    as (r' & events & E & Hall & _).
  rewrite E in Hrun. injection Hrun as _ <-. now exists events.
Qed.

(** On the value of a plan of the declared type the loop on values is
    the loop on plan items. *)
Lemma executePlan_value_from_typed task plan :
  forall executions w,
    executePlan_value_from h executions (map item_value plan) task w
    = executePlan_from h executions plan task w.
Proof.
  induction plan as [|step rest IH]; intros executions w; [reflexivity|].
  cbn [map executePlan_value_from executePlan_from].
  assert (Hm : member h (lit "step") (lit "tool") (item_value step) w
               = (Return (Some (JString (pi_tool step))), w)) by reflexivity.
  rewrite (bind_Return _ _ _ _ _ Hm).
  assert (G : getToolByName_value h (Some (JString (pi_tool step))) w
              = (Return (getToolByName h (pi_tool step)), w)) by reflexivity.
  rewrite (bind_Return _ _ _ _ _ G).
  destruct (getToolByName h (pi_tool step)) as [tool|] eqn:Etool.
  - destruct (getToolByName_registered h _ _ Etool) as [Hin _].
    change (get (lit "description") (item_value step))
      with (Some (JString (pi_description step))).
    unfold bind.
    rewrite (execute_value_string tool _ {| task := task |} w Hin).
    destruct (execute tool (pi_description step) {| task := task |} w)
      as [[e|e] w1]; [apply IH|reflexivity].
  - rewrite as_item_value. unfold bind.
    destruct (randomUUID h w) as [[id|e] w1]; [apply IH|reflexivity].
Qed.

Lemma executePlan_of_typed payload task w :
  executePlan_of h (payload_value payload) task w
  = executePlan h (pp_plan payload) task w.
Proof.
  unfold executePlan_of.
  assert (Hm : member h (lit "planPayload") (lit "plan")
                 (payload_value payload) w
               = (Return (Some (JArray (map item_value (pp_plan payload)))), w))
    by reflexivity.
  rewrite (bind_Return _ _ _ _ _ Hm).
  apply executePlan_value_from_typed.
Qed.

End ValueFacts.

(** X29. On the value that a payload of the declared type decodes to,
    the execution of the planner's answer is [executePlan] on the plan
    of the payload, and the plan and the reasoning that the outcome
    takes from the answer are those of the payload. *)
Theorem executePlan_of_declared_type
    (h : Host) (payload : PlanPayload) (task : jsstring) (w : World) :
  executePlan_of h (payload_value payload) task w
  = executePlan h (pp_plan payload) task w /\
  plan_of (payload_value payload) = pp_plan payload /\
  reasoning_of (payload_value payload) = pp_reasoning payload.
Proof.
  split; [apply executePlan_of_typed|].
  split; [apply plan_of_payload_value|apply reasoning_of_payload_value].
Qed.

(** X30. Executing the plan of a planner's answer of any shape only
    extends the log, by what tools ask of the host: identifiers, search
    requests and evaluations, no clock reading and no request to the
    language model. When it returns, it returns what [executePlan]
    returns on the plan read at its declared type; when it throws, what
    it throws is a TypeError of the engine. *)
Theorem executePlan_of_any_shape
    (h : Host) (planPayload : JSON) (task : jsstring) (w : World) :
  exists r events,
    executePlan_of h planPayload task w = (r, w ++ events) /\
    Forall (fun ev => is_uuid ev || is_fetch ev || is_function ev = true)
           events /\
    match r with
    | Return steps =>
        executePlan h (plan_of planPayload) task w
        = (Return steps, w ++ events)
    | Throw e => exists misuse, e = TypeError h misuse
    end.
Proof. exact (executePlan_of_result h planPayload task w). Qed.

(** A step whose tool is a number stops the execution after the first
    step was run; the message is the engine's. *)
Example executePlan_of_stops_at_the_ill_shaped_step :
  executePlan_of ill_shaped_host ill_shaped_answer (lit "t") []
  = (Throw (ErrorObject (lit "name.toLowerCase is not a function")),
     [EvRandomUUID]).
Proof. reflexivity. Qed.

(* ================================================================== *)
(** ** Further properties: the run with a credential                   *)
(* ================================================================== *)

Lemma runAgentTask_success_outcome_run
    (h : Host) (task : jsstring) (w : World)
    (payload : PlanPayload) (w1 : World)
    (steps : list ToolExecution) (w2 : World)
    (final : jsstring) (w3 : World) :
  no_credential h = false ->
  callOpenAIForPlan h task (w ++ [EvNewDate])
  = (Return (payload_value payload), w1) ->
  executePlan h (pp_plan payload) task w1 = (Return steps, w2) ->
  callOpenAIForFinal h task (pp_plan payload) steps w2 = (Return final, w3) ->
  runAgentTask h task w =
  (Return {| ao_success := true;
             ao_plan := pp_plan payload;
             ao_steps := steps;
             ao_final := final;
             ao_reasoning := pp_reasoning payload;
             ao_meta :=
               {| startedAt := toISOString h (clock_at h (List.length w));
                  completedAt := toISOString h (clock_at h (List.length w3));
                  durationMs := clock_at h (List.length w3)
                                - clock_at h (List.length w) |};
             ao_error := None |},
   w3 ++ [EvNewDate]).
Proof.
  intros Hcred Hplan Hexec Hfinal.
  rewrite <- executePlan_of_typed in Hexec.
  rewrite <- plan_of_payload_value in Hfinal.
  rewrite (runAgentTask_completed h task w _ w1 steps w2 final w3
             Hcred Hplan Hexec Hfinal).
  now rewrite plan_of_payload_value, reasoning_of_payload_value.
Qed.

(** X16. With a credential, when the planning call returns a payload of
    the declared type and the summarizing call returns a text, the
    outcome has [success] true and no error, carries the payload's plan
    and reasoning, the records of executing that plan, and the
    summarizer's text as [final]. *)
Theorem runAgentTask_success_outcome
    (h : Host) (task : jsstring) (w : World)
    (payload : PlanPayload) (w1 : World)
    (steps : list ToolExecution) (w2 : World)
    (final : jsstring) (w3 : World) :
  no_credential h = false ->
  callOpenAIForPlan h task (w ++ [EvNewDate])
  = (Return (payload_value payload), w1) ->
  executePlan h (pp_plan payload) task w1 = (Return steps, w2) ->
  callOpenAIForFinal h task (pp_plan payload) steps w2 = (Return final, w3) ->
  runAgentTask h task w =
  (Return {| ao_success := true;
             ao_plan := pp_plan payload;
             ao_steps := steps;
             ao_final := final;
             ao_reasoning := pp_reasoning payload;
             ao_meta :=
               {| startedAt := toISOString h (clock_at h (List.length w));
                  completedAt := toISOString h (clock_at h (List.length w3));
                  durationMs := clock_at h (List.length w3)
                                - clock_at h (List.length w) |};
             ao_error := None |},
   w3 ++ [EvNewDate]).
Proof.
  exact (runAgentTask_success_outcome_run h task w payload w1 steps w2 final w3).
Qed.

Lemma runAgentTask_success_outcome_witness :
  exists steps w3,
    runAgentTask online_host (lit "Plan a product launch") [] =
    (Return {| ao_success := true;
               ao_plan := sample_plan;
               ao_steps := steps;
               ao_final := lit "done";
               ao_reasoning := lit "r";
               ao_meta := {| startedAt := lit "1000";
                             completedAt := lit "1049";
                             durationMs := 49 |};
               ao_error := None |},
     w3 ++ [EvNewDate]) /\
    List.length steps = 3.
Proof.
  eexists _, _. split.
  - apply (runAgentTask_success_outcome online_host
             (lit "Plan a product launch") []
             {| pp_reasoning := lit "r"; pp_plan := sample_plan |}
             [EvNewDate; EvPlanRequest (lit "Plan a product launch")]
             (match fst (executePlan online_host sample_plan
                           (lit "Plan a product launch")
                           [EvNewDate; EvPlanRequest (lit "Plan a product launch")])
              with Return s => s | Throw _ => [] end)
             (snd (executePlan online_host sample_plan
                     (lit "Plan a product launch")
                     [EvNewDate; EvPlanRequest (lit "Plan a product launch")]))
             (lit "done")
             (snd (executePlan online_host sample_plan
                     (lit "Plan a product launch")
                     [EvNewDate; EvPlanRequest (lit "Plan a product launch")])
              ++ [EvFinalRequest (lit "Plan a product launch")]));
      reflexivity.
  - reflexivity.
Defined.

(* ================================================================== *)
(** ** Further properties: every outcome                               *)
(* ================================================================== *)

(** Every run returns one of two kinds of outcome: a success that
    carries a plan and its records, or the empty failure of the catch
    branch. *)
Lemma runAgentTask_shape h task w :
  exists outcome w',
    runAgentTask h task w = (Return outcome, w') /\
    (ao_success outcome = true /\
     Forall2 (fun step e => record_of h task step e /\ well_formed e)
             (ao_plan outcome) (ao_steps outcome) /\
     ao_error outcome
     = (if no_credential h then Some missing_key_error else None)
     \/
     no_credential h = false /\
     exists t0 t1 e, outcome = failure_outcome h t0 t1 e).
Proof.
  destruct (no_credential h) eqn:Hcred.
  - unfold runAgentTask.
    rewrite (bind_Return _ _ _ _ _ (newDate_run h w)), Hcred.
    rewrite (bind_Return _ _ _ _ _ (buildFallbackPlan_log h task _)).
    cbn [pp_plan pp_reasoning].
    destruct (executePlan_spec h task
                (fallback_steps h (w ++ [EvNewDate])
                   (analysis_pattern (lower h task))
                   (research_pattern (lower h task)))
                ((w ++ [EvNewDate]) ++
                 repeat EvRandomUUID
                   (List.length
                      (fallback_steps h (w ++ [EvNewDate])
                         (analysis_pattern (lower h task))
                         (research_pattern (lower h task))))))
      as (steps & w2 & Erun & HF).
    rewrite (bind_Return _ _ _ _ _ Erun).
    rewrite (bind_Return _ _ _ _ _ (newDate_run h w2)).
    eexists _, _. split; [reflexivity|]. left. cbn. auto.
  - destruct (attempt_cases h task (w ++ [EvNewDate]))
      as [(e & w' & Hfail)
         | (planPayload & w1 & steps & w2 & final & Ep & Ex & Ef)].
    + eexists _, _. split.
      * exact (runAgentTask_caught h task w e w' Hcred Hfail).
      * right. split; auto. eauto.
    + eexists _, _. split.
      * exact (runAgentTask_completed h task w planPayload w1 steps w2 final _
                 Hcred Ep Ex Ef).
      * left. cbn. split; [reflexivity|]. split; [|reflexivity].
        apply executePlan_of_returns in Ex.
        destruct (executePlan_spec h task (plan_of planPayload) w1)
          as (execs & w2' & Erun & HF).
        rewrite Erun in Ex. now injection Ex as <- _.
Qed.

(** X17. Every run returns an outcome, and every outcome has as many
    step records as plan items, all of them well formed. An outcome
    with [success] false has an empty plan, no steps, empty final and
    reasoning, and an error; and [error] is absent exactly for a
    successful run with a credential. *)
Theorem runAgentTask_outcome_invariant
    (h : Host) (task : jsstring) (w : World) :
  exists outcome w',
    runAgentTask h task w = (Return outcome, w') /\
    List.length (ao_steps outcome) = List.length (ao_plan outcome) /\
    Forall well_formed (ao_steps outcome) /\
    (ao_success outcome = false ->
     ao_plan outcome = [] /\ ao_steps outcome = [] /\
     ao_final outcome = [] /\ ao_reasoning outcome = [] /\
     ao_error outcome <> None) /\
    (ao_error outcome = None <->
     ao_success outcome = true /\ no_credential h = false).
Proof.
  destruct (runAgentTask_shape h task w)
    as (outcome & w' & Hrun & [(Hs & HF & He) | (Hc & t0 & t1 & e & ->)]).
  - exists outcome, w'. split; [exact Hrun|].
    split; [symmetry; exact (Forall2_length HF)|].
    split; [eapply Forall2_right; [|exact HF]; now intros a b [_ H]|].
    split; [intros H; congruence|].
    rewrite He, Hs. destruct (no_credential h); split;
      try discriminate; try tauto. intros [_ H]. discriminate.
  - eexists _, w'. split; [exact Hrun|]. cbn.
    split; [reflexivity|]. split; [constructor|].
    split; [intros _; repeat split; discriminate|].
    split; [discriminate | intros [H _]; discriminate].
Qed.

Lemma no_model_request_in_tools events :
  Forall (fun ev => is_uuid ev || is_fetch ev || is_function ev = true) events ->
  filter is_model_request events = [].
Proof.
  intros H. induction H as [|ev events Hev _ IH]; simpl; auto.
  destruct ev; simpl in *; try discriminate; exact IH.
Qed.

(** X18. With a credential a run sends the planning request once and
    first. It sends the summarizing request, once, exactly when the
    planning call returned and the execution of the plan it returned did
    not throw, whatever the tools then reported; it sends none when the
    planning call threw or the execution of the plan threw. *)
Theorem runAgentTask_model_requests
    (h : Host) (task : jsstring) (w : World) :
  no_credential h = false ->
  exists outcome events,
    runAgentTask h task w
    = (Return outcome, w ++ [EvNewDate; EvPlanRequest task] ++ events) /\
    filter is_model_request events =
      match callOpenAIForPlan h task (w ++ [EvNewDate]) with
      | (Return planPayload, w1) =>
          match fst (executePlan_of h planPayload task w1) with
          | Return _ => [EvFinalRequest task]
          | Throw _ => []
          end
      | (Throw _, _) => []
      end.
Proof.
  intros Hcred.
  destruct (callOpenAIForPlan h task (w ++ [EvNewDate]))
    as [[planPayload|e] w1] eqn:Ep;
    destruct (callOpenAIForPlan_log _ _ _ _ _ Ep) as [_ Hw1].
  - destruct (executePlan_of h planPayload task w1) as [[steps|e] w2] eqn:Ex;
      destruct (executePlan_of_log h _ _ _ _ _ Ex) as (events & Hw2 & Hall);
      cbn [fst].
    + destruct (callOpenAIForFinal h task (plan_of planPayload) steps w2)
        as [[final|e] w3] eqn:Ef;
        pose proof (callOpenAIForFinal_log _ _ _ _ _ _ _ Ef) as Hw3;
        eexists _, (events ++ [EvFinalRequest task; EvNewDate]).
      * split.
        -- rewrite (runAgentTask_completed h task w planPayload w1 steps w2
                      final w3 Hcred Ep Ex Ef).
           subst w3 w2 w1. rewrite <- !app_assoc. reflexivity.
        -- rewrite filter_app, (no_model_request_in_tools events Hall).
           reflexivity.
      * split.
        -- rewrite (runAgentTask_caught h task w e w3 Hcred).
           ++ subst w3 w2 w1. rewrite <- !app_assoc. reflexivity.
           ++ right; right. now exists planPayload, w1, steps, w2.
        -- rewrite filter_app, (no_model_request_in_tools events Hall).
           reflexivity.
    + eexists _, (events ++ [EvNewDate]). split.
      * rewrite (runAgentTask_caught h task w e w2 Hcred).
        -- subst w2 w1. rewrite <- !app_assoc. reflexivity.
        -- right; left. now exists planPayload, w1.
      * rewrite filter_app, (no_model_request_in_tools events Hall).
        reflexivity.
  - eexists _, [EvNewDate]. split; [|reflexivity].
    rewrite (runAgentTask_caught h task w e w1 Hcred).
    + subst w1. rewrite <- !app_assoc. reflexivity.
    + now left.
Qed.

(** The planner answers a plan of the declared type: one summarizing
    request. The planning request is refused: none. The planner answers
    a plan whose second step has a number for its tool: none, and the
    log ends with the identifier drawn for the first step and the last
    reading of the clock. *)
Lemma runAgentTask_model_requests_witness :
  (exists outcome events,
      runAgentTask online_host (lit "Plan a product launch") []
      = (Return outcome,
         [EvNewDate; EvPlanRequest (lit "Plan a product launch")] ++ events) /\
      filter is_model_request events
      = [EvFinalRequest (lit "Plan a product launch")]) /\
  (exists outcome events,
      runAgentTask refused_host (lit "Plan a product launch") []
      = (Return outcome,
         [EvNewDate; EvPlanRequest (lit "Plan a product launch")] ++ events) /\
      filter is_model_request events = []) /\
  (exists outcome events,
      runAgentTask ill_shaped_host (lit "Plan a product launch") []
      = (Return outcome,
         [EvNewDate; EvPlanRequest (lit "Plan a product launch")] ++ events) /\
      filter is_model_request events = [] /\
      events = [EvRandomUUID; EvNewDate]).
Proof.
  split; [|split].
  - exact (runAgentTask_model_requests online_host
             (lit "Plan a product launch") [] eq_refl).
  - exact (runAgentTask_model_requests refused_host
             (lit "Plan a product launch") [] eq_refl).
  - destruct (runAgentTask_model_requests ill_shaped_host
                (lit "Plan a product launch") [] eq_refl)
      as (outcome & events & E & Hf).
    exists outcome, events. split; [exact E|]. split; [exact Hf|].
    apply (f_equal snd) in E. cbn [snd] in E.
    change (snd (runAgentTask ill_shaped_host (lit "Plan a product launch") []))
      with ([EvNewDate; EvPlanRequest (lit "Plan a product launch")]
            ++ [EvRandomUUID; EvNewDate]) in E.
    cbn [app] in E. now injection E as <-.
Defined.

(* ================================================================== *)
(** ** Further properties: the heuristic plan against the schema       *)
(* ================================================================== *)

(** X19. Every step of a heuristic plan names a tool of the schema's
    enumeration, which the registry finds, and the plan never exceeds
    the schema's [maxItems]; but it reaches the schema's [minItems]
    only when one of the two patterns matched: for a task matching
    neither, the heuristic plan is shorter than any plan the schema
    admits. *)
Theorem fallback_plan_against_schema (h : Host) (task : jsstring) (w : World) :
  exists payload w',
    buildFallbackPlan h task w = (Return payload, w') /\
    (forall step, In step (pp_plan payload) ->
                  In (pi_tool step) (tool_enum (buildPlanSchema h)) /\
                  getToolByName h (pi_tool step) <> None) /\
    List.length (pp_plan payload) <= maxItems (buildPlanSchema h) /\
    (conforms (buildPlanSchema h) (pp_plan payload) <->
     analysis_pattern (lower h task) || research_pattern (lower h task) = true).
Proof.
  eexists _, _. split; [apply buildFallbackPlan_log|]. cbn [pp_plan].
  assert (Hsteps : forall a r step,
             In step (fallback_steps h w a r) ->
             In (pi_tool step) (tool_enum (buildPlanSchema h)) /\
             getToolByName h (pi_tool step) <> None).
  { intros a r step Hin. unfold fallback_steps in Hin.
    destruct a, r; cbn in Hin;
      repeat (destruct Hin as [<-|Hin]; [split; [cbn; tauto | discriminate]|]);
      contradiction. }
  split; [apply Hsteps|].
  split; [unfold fallback_steps;
          destruct (analysis_pattern _), (research_pattern _); cbn; lia|].
  unfold conforms. split.
  - intros [[Hmin _] _]. unfold fallback_steps in Hmin.
    destruct (analysis_pattern _), (research_pattern _); cbn in *;
      auto; lia.
  - intros Hm. split.
    + unfold fallback_steps.
      destruct (analysis_pattern _), (research_pattern _); cbn in *;
        try discriminate; lia.
    + intros step Hin. now apply Hsteps in Hin.
Qed.

Example short_plan_outside_schema :
  returns (fun payload =>
             List.length (pp_plan payload) = 1 /\
             minItems (buildPlanSchema offline_host) = 2)
    (fst (buildFallbackPlan offline_host (lit "Plan a product launch") [])).
Proof. split; reflexivity. Qed.

(* ================================================================== *)
(** ** Further properties: identifiers of a run without a credential   *)
(* ================================================================== *)

Lemma fallback_steps_ids h w a r :
  map pi_id (fallback_steps h w a r)
  = map (uuid_at h)
        (seq (List.length w) (List.length (fallback_steps h w a r))).
Proof. destruct a, r; reflexivity. Qed.

Lemma uuid_positions_repeat n k :
  uuid_positions n (repeat EvRandomUUID k) = seq n k.
Proof.
  revert n. induction k as [|k IH]; intros n; simpl; auto. now rewrite IH.
Qed.

(** X20. In the outcome of a run without a credential, the identifiers
    of the plan items and of the step records are the UUIDs drawn during
    the run, in order: the plan's first, then one per record. They are
    pairwise distinct whenever the UUID source does not repeat itself. *)
Theorem offline_run_identifiers (h : Host) (task : jsstring) (w : World) :
  no_credential h = true ->
  exists outcome events,
    runAgentTask h task w = (Return outcome, w ++ events) /\
    map pi_id (ao_plan outcome) ++ map te_id (ao_steps outcome)
    = map (uuid_at h) (uuid_positions (List.length w) events) /\
    (fresh_uuids h ->
     NoDup (map pi_id (ao_plan outcome) ++ map te_id (ao_steps outcome))).
Proof.
  intros Hcred.
  set (plan := fallback_steps h (w ++ [EvNewDate])
                 (analysis_pattern (lower h task))
                 (research_pattern (lower h task))).
  set (draws := repeat EvRandomUUID (List.length plan)).
  destruct (executePlan_from_log h task plan [] ((w ++ [EvNewDate]) ++ draws))
    as (steps & events & Erun & Hids & _).
  assert (Hall :
    map pi_id plan ++ map te_id steps
    = map (uuid_at h)
        (uuid_positions (List.length w)
           ([EvNewDate] ++ draws ++ events ++ [EvNewDate]))).
  { cbn [app uuid_positions].
    rewrite !uuid_positions_app. cbn [uuid_positions]. rewrite app_nil_r.
    unfold draws at 1. rewrite uuid_positions_repeat.
    rewrite map_app, Hids. unfold plan at 1.
    rewrite fallback_steps_ids. fold plan.
    rewrite !length_app. unfold draws. rewrite repeat_length.
    cbn [List.length]. rewrite Nat.add_1_r. reflexivity. }
  exists
    {| ao_success := true;
       ao_plan := plan;
       ao_steps := steps;
       ao_final := offline_final;
       ao_reasoning := lit "Generated plan via heuristic fallback because the OpenAI API key is not configured.";
       ao_meta := {| startedAt := toISOString h (clock_at h (List.length w));
                     completedAt :=
                       toISOString h
                         (clock_at h
                            (List.length (((w ++ [EvNewDate]) ++ draws) ++ events)));
                     durationMs := 0 |};
       ao_error := Some missing_key_error |},
    ([EvNewDate] ++ draws ++ events ++ [EvNewDate]).
  split; [|split].
  - unfold runAgentTask.
    rewrite (bind_Return _ _ _ _ _ (newDate_run h w)), Hcred.
    rewrite (bind_Return _ _ _ _ _ (buildFallbackPlan_log h task _)).
    cbn [pp_plan pp_reasoning]. fold plan. fold draws.
    change (executePlan h plan task ((w ++ [EvNewDate]) ++ draws))
      with (executePlan_from h [] plan task ((w ++ [EvNewDate]) ++ draws)).
    rewrite (bind_Return _ _ _ _ _ Erun).
    rewrite (bind_Return _ _ _ _ _ (newDate_run h _)).
    cbn [app]. rewrite <- !app_assoc. reflexivity.
  - exact Hall.
  - intros Hfresh. cbn [ao_plan ao_steps]. rewrite Hall.
    apply NoDup_map_injective; [exact Hfresh | apply uuid_positions_NoDup].
Qed.

Lemma offline_run_identifiers_witness :
  exists outcome w',
    runAgentTask offline_host (lit "Calculate 15 percent of 80") []
    = (Return outcome, w') /\
    map pi_id (ao_plan outcome) ++ map te_id (ao_steps outcome)
    = [lit "uuid-1"; lit "uuid-2"; lit "uuid-3"; lit "uuid-4"] /\
    NoDup (map pi_id (ao_plan outcome) ++ map te_id (ao_steps outcome)).
Proof.
  destruct (offline_run_identifiers offline_host
              (lit "Calculate 15 percent of 80") [] eq_refl)
    as (outcome & events & Hrun & Hids & Hfresh).
  exists outcome, ([] ++ events). split; [exact Hrun|].
  split; [|exact (Hfresh offline_host_fresh)].
  rewrite Hids.
  assert (E : events = snd (runAgentTask offline_host
                              (lit "Calculate 15 percent of 80") []))
    by now rewrite Hrun.
  rewrite E. reflexivity.
Defined.

(* ================================================================== *)
(** ** Further properties: the request handler                         *)
(* ================================================================== *)

Section RouteFacts.
Variable h : Host.

Lemma refusal_run message w :
  refusal h message w =
  (Return (refusal_body h (clock_at h (List.length w))
             (clock_at h (S (List.length w))) message),
   w ++ [EvNewDate; EvNewDate]).
Proof.
  unfold refusal.
  rewrite (bind_Return _ _ _ _ _ (newDate_run h w)).
  rewrite (bind_Return _ _ _ _ _ (newDate_run h _)).
  rewrite length_app, Nat.add_1_r, <- app_assoc. reflexivity.
Qed.

Lemma POST_refuses request w task_property :
  request_json request = Return (BodyValue task_property) ->
  no_task task_property = true ->
  POST h request w =
  (Return {| http_status := 400;
             http_body :=
               refusal_body h (clock_at h (List.length w))
                 (clock_at h (S (List.length w)))
                 (lit "Task is required.") |},
   w ++ [EvNewDate; EvNewDate]).
Proof.
  intros Hjson Hnone. unfold POST.
  erewrite try_catch_Return; [reflexivity|].
  unfold settle at 1. unfold bind at 1. rewrite Hjson.
  assert (Htask : exists t, task_of (BodyValue task_property) w = (Return t, w)
                            /\ truthy t = false).
  { destruct task_property as [s|]; cbn in *.
    - exists (trim s). split; [reflexivity|]. now apply trim_blank_iff.
    - exists []. split; reflexivity. }
  destruct Htask as (t & Ht & Hblank).
  rewrite (bind_Return _ _ _ _ _ Ht), Hblank. cbn [negb].
  now rewrite (bind_Return _ _ _ _ _ (refusal_run _ w)).
Qed.

Lemma POST_runs request w s outcome w' :
  request_json request = Return (BodyValue (Some s)) ->
  forallb is_space s = false ->
  runAgentTask h (trim s) w = (Return outcome, w') ->
  POST h request w =
  (Return {| http_status := if ao_success outcome then 200%N else 500%N;
             http_body := outcome |}, w').
Proof.
  intros Hjson Hs Hrun. unfold POST.
  erewrite try_catch_Return; [reflexivity|].
  unfold settle at 1. unfold bind at 1. rewrite Hjson.
  cbn [task_of]. unfold bind at 1. unfold ret at 1.
  rewrite (not_blank_truthy s Hs). cbn [negb].
  now rewrite (bind_Return _ _ _ _ _ Hrun).
Qed.

Lemma POST_unreadable request w e :
  unreadable request e ->
  POST h request w =
  (Return {| http_status := 500;
             http_body :=
               refusal_body h (clock_at h (List.length w))
                 (clock_at h (S (List.length w))) (message_of e) |},
   w ++ [EvNewDate; EvNewDate]).
Proof.
  intros [Hjson|Hjson]; unfold POST.
  - erewrite try_catch_Throw.
    + now rewrite (bind_Return _ _ _ _ _ (refusal_run _ w)).
    + unfold settle at 1. unfold bind at 1. now rewrite Hjson.
  - erewrite try_catch_Throw.
    + now rewrite (bind_Return _ _ _ _ _ (refusal_run _ w)).
    + unfold settle at 1. unfold bind at 1. rewrite Hjson.
      cbn [task_of]. unfold bind, throw. reflexivity.
Qed.

End RouteFacts.

(** X21. A request whose [task] is missing, is not a string, or is a
    string of white space only is answered with status 400 and the
    error "Task is required."; the agent is not run: the only
    interactions are the two clock readings of the answer. *)
Theorem POST_task_required
    (h : Host) (request : Request) (w : World)
    (task_property : option jsstring) :
  request_json request = Return (BodyValue task_property) ->
  no_task task_property = true ->
  POST h request w =
  (Return {| http_status := 400;
             http_body :=
               {| ao_success := false;
                  ao_plan := [];
                  ao_steps := [];
                  ao_final := [];
                  ao_reasoning := [];
                  ao_meta :=
                    {| startedAt := toISOString h (clock_at h (List.length w));
                       completedAt :=
                         toISOString h (clock_at h (S (List.length w)));
                       durationMs := 0 |};
                  ao_error := Some (lit "Task is required.") |} |},
   w ++ [EvNewDate; EvNewDate]).
Proof. exact (POST_refuses h request w task_property). Qed.

Lemma POST_task_required_witness :
  fst (POST online_host
         {| request_json := Return (BodyValue (Some (lit "   "))) |} [])
  = Return {| http_status := 400;
              http_body :=
                {| ao_success := false;
                   ao_plan := [];
                   ao_steps := [];
                   ao_final := [];
                   ao_reasoning := [];
                   ao_meta := {| startedAt := lit "1000";
                                 completedAt := lit "1007";
                                 durationMs := 0 |};
                   ao_error := Some (lit "Task is required.") |} |}.
Proof.
  rewrite (POST_task_required online_host
             {| request_json := Return (BodyValue (Some (lit "   "))) |} []
             (Some (lit "   ")) eq_refl eq_refl).
  reflexivity.
Defined.

(** X22. For a request whose [task] is a string that is not blank, the
    handler runs the agent on the trimmed task and answers with the
    outcome of that run as body, with status 200 when the outcome has
    [success] true and 500 otherwise. *)
Theorem POST_runs_trimmed_task
    (h : Host) (request : Request) (w : World) (s : jsstring) :
  request_json request = Return (BodyValue (Some s)) ->
  forallb is_space s = false ->
  exists outcome w',
    runAgentTask h (trim s) w = (Return outcome, w') /\
    POST h request w =
    (Return {| http_status := if ao_success outcome then 200%N else 500%N;
               http_body := outcome |}, w').
Proof.
  intros Hjson Hs.
  destruct (runAgentTask_shape h (trim s) w) as (outcome & w' & Hrun & _).
  exists outcome, w'. split; [exact Hrun|].
  now apply POST_runs with (s := s).
Qed.

Lemma POST_runs_trimmed_task_witness :
  exists outcome w',
    runAgentTask refused_host (lit "Plan a launch") [] = (Return outcome, w') /\
    POST refused_host
      {| request_json := Return (BodyValue (Some (lit "  Plan a launch "))) |} []
    = (Return {| http_status := 500; http_body := outcome |}, w').
Proof.
  destruct (POST_runs_trimmed_task refused_host
              {| request_json := Return (BodyValue (Some (lit "  Plan a launch "))) |}
              [] (lit "  Plan a launch ") eq_refl eq_refl)
    as (outcome & w' & Hrun & Hpost).
  exists outcome, w'. split; [exact Hrun|]. rewrite Hpost.
  assert (E : fst (runAgentTask refused_host (trim (lit "  Plan a launch ")) [])
              = Return outcome) by now rewrite Hrun.
  vm_compute in E. injection E as <-. reflexivity.
Defined.

(** X23. A request whose body does not decode, or decodes to [null], is
    answered with status 500 and the message of what was thrown as
    error; the agent is not run. *)
Theorem POST_unreadable_body
    (h : Host) (request : Request) (w : World) (e : Thrown) :
  unreadable request e ->
  POST h request w =
  (Return {| http_status := 500;
             http_body :=
               {| ao_success := false;
                  ao_plan := [];
                  ao_steps := [];
                  ao_final := [];
                  ao_reasoning := [];
                  ao_meta :=
                    {| startedAt := toISOString h (clock_at h (List.length w));
                       completedAt :=
                         toISOString h (clock_at h (S (List.length w)));
                       durationMs := 0 |};
                  ao_error := Some (message_of e) |} |},
   w ++ [EvNewDate; EvNewDate]).
Proof. exact (POST_unreadable h request w e). Qed.

Lemma POST_unreadable_body_witness :
  returns (fun response =>
             http_status response = 500%N /\
             ao_error (http_body response)
             = Some (lit "Unexpected end of JSON input"))
    (fst (POST offline_host
            {| request_json :=
                 Throw (ErrorObject (lit "Unexpected end of JSON input")) |}
            [])).
Proof.
  rewrite (POST_unreadable_body offline_host
             {| request_json :=
                  Throw (ErrorObject (lit "Unexpected end of JSON input")) |}
             [] (ErrorObject (lit "Unexpected end of JSON input"))).
  - split; reflexivity.
  - left. reflexivity.
Defined.

(** X24. The handler answers every request: with status 200, 400 or
    500, where 200 goes with a body whose [success] is true and the
    other two with a body whose [success] is false and whose error is
    set. Without a credential, every request with a task that is not
    blank gets 200. *)
Theorem POST_always_answers (h : Host) (request : Request) (w : World) :
  exists response w',
    POST h request w = (Return response, w') /\
    (http_status response = 200%N /\ ao_success (http_body response) = true
     \/
     (http_status response = 400%N \/ http_status response = 500%N) /\
     ao_success (http_body response) = false /\
     ao_error (http_body response) <> None) /\
    (no_credential h = true ->
     forall s, request_json request = Return (BodyValue (Some s)) ->
               forallb is_space s = false ->
               http_status response = 200%N).
Proof.
  destruct (request_json request) as [[e|task_property]|e] eqn:Hjson.
  - eexists _, _. split; [apply POST_unreadable; right; exact Hjson|].
    split; [right; cbn; repeat split; auto; discriminate|].
    intros _ s E. discriminate.
  - destruct (no_task task_property) eqn:Hnone.
    + eexists _, _. split; [exact (POST_refuses h request w _ Hjson Hnone)|].
      split; [right; cbn; repeat split; auto; discriminate|].
      intros _ s E Hs. injection E as ->. cbn in Hnone. congruence.
    + destruct task_property as [s|]; [|discriminate]. cbn in Hnone.
      destruct (runAgentTask_shape h (trim s) w)
        as (outcome & w' & Hrun & Hshape).
      eexists _, _. split; [exact (POST_runs h request w s _ _ Hjson Hnone Hrun)|].
      cbn [http_status http_body].
      destruct Hshape as [(Hs & _ & _) | (Hc & t0 & t1 & e & ->)].
      * rewrite Hs. split; [left; auto | auto].
      * cbn. split; [right; repeat split; auto; discriminate|].
        intros Hno. congruence.
  - eexists _, _. split; [apply POST_unreadable; left; exact Hjson|].
    split; [right; cbn; repeat split; auto; discriminate|].
    intros _ s E. discriminate.
Qed.

(* ================================================================== *)
(** ** Further properties: the chat component                          *)
(* ================================================================== *)

Import Chat.

(** X25. A submission is ignored exactly when the input is blank or a
    request is already in flight. Otherwise the trimmed input is the
    task posted, the input is cleared, the flag is raised, and a run in
    progress for that task is put in front of the earlier runs, which
    are kept as they were. *)
Theorem submit_guard (runId startedAt : jsstring) (st : State) :
  (submit runId startedAt st = None <->
   forallb is_space (ui_input st) = true \/ ui_submitting st = true) /\
  (forall task st',
      submit runId startedAt st = Some (task, st') ->
      task = trim (ui_input st) /\ task <> [] /\
      ui_input st' = [] /\
      ui_submitting st' = true /\
      ui_runs st' = started runId task startedAt :: ui_runs st).
Proof.
  unfold submit.
  destruct (truthy (trim (ui_input st))) eqn:Ht; cbn [negb orb].
  - assert (Hs : forallb is_space (ui_input st) = false).
    { destruct (forallb is_space (ui_input st)) eqn:E; auto.
      apply trim_blank_iff in E. congruence. }
    destruct (ui_submitting st) eqn:Hsub.
    + split; [split; auto|]. intros task st' H. discriminate.
    + split.
      * split; [discriminate|]. intros [H|H]; congruence.
      * intros task st' H. injection H as <- <-. cbn.
        repeat split. now apply truthy_nonempty.
  - split.
    + split; auto. intros _. left. now apply trim_blank_iff.
    + intros task st' H. discriminate.
Qed.

Lemma update_run_spec runId f prev :
  List.length (update_run runId f prev) = List.length prev /\
  Forall2 (fun before after =>
             if JS.eqb (run_id before) runId then after = f before
             else after = before)
          prev (update_run runId f prev).
Proof.
  unfold update_run. split; [apply length_map|].
  induction prev as [|run prev IH]; simpl; constructor; auto.
  destruct (JS.eqb (run_id run) runId); reflexivity.
Qed.

(** X26. When a request settles, the list keeps its length and order:
    every run with another identifier is unchanged, and every run with
    the identifier of the request keeps its identifier, task and start
    time and is no longer in progress; it is completed exactly when the
    answer was decoded and has [success] true, and the submitting flag
    is down. *)
Theorem settled_updates_one_run
    (runId : jsstring) (answer : Completion AgentApiResponse) (st : State) :
  ui_submitting (settled runId answer st) = false /\
  ui_input (settled runId answer st) = ui_input st /\
  Forall2
    (fun before after =>
       run_id after = run_id before /\
       run_task after = run_task before /\
       run_startedAt after = run_startedAt before /\
       if JS.eqb (run_id before) runId
       then in_progress after = false /\
            (run_status after = completed <->
             exists data, answer = Return data /\ data_success data = true)
       else after = before)
    (ui_runs st) (ui_runs (settled runId answer st)).
Proof.
  split; [reflexivity|]. split; [reflexivity|].
  unfold settled. cbn [ui_runs].
  destruct answer as [data|error].
  - destruct (update_run_spec runId (resolved data) (ui_runs st)) as [_ HF].
    eapply Forall2_weaken; [|exact HF]. intros before after H. cbn in H.
    destruct (JS.eqb (run_id before) runId); subst after; cbn; auto.
    repeat split; unfold in_progress; cbn;
      destruct (data_success data) eqn:E; auto; try discriminate.
    + intros _. now exists data.
    + intros (d & Hd & Hs). injection Hd as <-. congruence.
  - destruct (update_run_spec runId (rejected (client_message error))
                (ui_runs st)) as [_ HF].
    eapply Forall2_weaken; [|exact HF]. intros before after H. cbn in H.
    destruct (JS.eqb (run_id before) runId); subst after; cbn; auto.
    repeat split; try discriminate.
    intros (d & Hd & _). discriminate.
Qed.

Lemma settled_clears runId answer st :
  forallb (fun run => negb (in_progress run))
          (filter (fun run => negb (JS.eqb (run_id run) runId)) (ui_runs st))
  = true ->
  forallb (fun run => negb (in_progress run))
          (ui_runs (settled runId answer st)) = true.
Proof.
  intros H. unfold settled. cbn [ui_runs].
  assert (G : forall f,
             (forall run, in_progress (f run) = false) ->
             forallb (fun run => negb (in_progress run))
                     (update_run runId f (ui_runs st)) = true).
  { intros f Hf. unfold update_run.
    induction (ui_runs st) as [|run runs IH]; simpl in *; auto.
    destruct (JS.eqb (run_id run) runId); simpl in *.
    - rewrite Hf. simpl. auto.
    - apply andb_prop in H. destruct H as [H1 H2]. rewrite H1. simpl. auto. }
  destruct answer as [data|error]; apply G; intros run; unfold in_progress;
    cbn; [destruct (data_success data)|]; reflexivity.
Qed.

Lemma submit_started runId began st posted st' :
  submit runId began st = Some (posted, st') ->
  ui_submitting st = false /\
  ui_submitting st' = true /\
  ui_runs st' = started runId posted began :: ui_runs st.
Proof.
  unfold submit. intros H.
  destruct (negb (truthy (trim (ui_input st)))); [discriminate|].
  destruct (ui_submitting st); [discriminate|].
  injection H as <- <-. auto.
Qed.

Lemma consistent_step s s' : consistent s -> step s s' -> consistent s'.
Proof.
  intros Hs Hstep.
  destruct Hstep as [st pending text
                    | st pending rid began Hnone
                    | st pending rid began posted st' Hsome
                    | st before rid after answer]; cbn in *.
  - destruct pending as [|a [|b l]]; auto.
  - exact Hs.
  - destruct (submit_started rid began st posted st' Hsome)
      as (Hoff & Hsub & Hruns).
    destruct pending as [|a [|b l]].
    + destruct Hs as [_ Hnone]. split; auto.
      exists (started rid posted began), (ui_runs st). auto.
    + destruct Hs as [Hon _]. congruence.
    + contradiction.
  - destruct before as [|a before]; cbn in *.
    + destruct after as [|b after]; [|contradiction].
      destruct Hs as (_ & run & rest & Hruns & Hid & _ & Hrest).
      split; [reflexivity|]. apply settled_clears. rewrite Hruns. cbn.
      rewrite Hid, eqb_refl. cbn.
      clear - Hrest. induction rest as [|r rest IH]; cbn in *; auto.
      apply andb_prop in Hrest. destruct Hrest as [H1 H2].
      destruct (JS.eqb (run_id r) rid); cbn; auto. now rewrite H1, IH.
    + destruct before; cbn in *; [|contradiction].
      destruct after; contradiction.
Qed.

(** X27. Whatever sequence of edits, submissions and settled requests
    the component goes through, at most one request is in flight; the
    submitting flag is up exactly while one is; and then the newest run,
    and only it, is in progress and carries the identifier of that
    request, while with no request in flight no run is in progress. *)
Theorem chat_stays_consistent (st : State) (pending : list jsstring) :
  reachable (st, pending) ->
  List.length pending <= 1 /\
  (ui_submitting st = true <-> pending <> []) /\
  List.length (filter in_progress (ui_runs st)) = List.length pending /\
  (forall runId,
      In runId pending ->
      exists run rest,
        ui_runs st = run :: rest /\ run_id run = runId /\
        in_progress run = true).
Proof.
  intros Hreach.
  assert (Hc : consistent (st, pending)).
  { remember (st, pending) as s eqn:E. clear E.
    induction Hreach; [cbn; auto | eapply consistent_step; eauto]. }
  assert (Hnone : forall runs,
             forallb (fun run => negb (in_progress run)) runs = true ->
             filter in_progress runs = []).
  { induction runs as [|r runs IH]; cbn; auto. intros H.
    apply andb_prop in H. destruct H as [H1 H2].
    destruct (in_progress r); [discriminate | auto]. }
  cbn in Hc. destruct pending as [|a [|b l]]; [| |contradiction].
  - destruct Hc as [Hoff Hruns]. cbn. split; [lia|].
    split; [split; [congruence | intros H; congruence]|].
    split; [now rewrite (Hnone _ Hruns) | intros runId []].
  - destruct Hc as (Hon & run & rest & Hruns & Hid & Hrun & Hrest).
    cbn. split; [lia|]. split; [split; [discriminate | auto]|].
    split.
    + rewrite Hruns. cbn. rewrite Hrun. cbn. now rewrite (Hnone _ Hrest).
    + intros runId [<-|[]]. now exists run, rest.
Qed.

Lemma chat_stays_consistent_witness :
  let st1 :=
    {| ui_input := [];
       ui_runs := [started (lit "id-1") (lit "Plan a launch") (lit "t0")];
       ui_submitting := true |} in
  List.length [lit "id-1"] <= 1 /\
  (ui_submitting st1 = true <-> [lit "id-1"] <> []) /\
  List.length (filter in_progress (ui_runs st1)) = 1.
Proof.
  intros st1.
  destruct (chat_stays_consistent st1 [lit "id-1"]) as (H1 & H2 & H3 & _).
  - apply reachable_step with (s := (typed (lit " Plan a launch ") initial, [])).
    + apply reachable_step with (s := (initial, [])).
      * apply reachable_initial.
      * apply step_typed.
    + apply step_submitted with (startedAt := lit "t0")
                                (task := lit "Plan a launch").
      reflexivity.
  - auto.
Defined.

(** X28. The notice about the missing key does not reach the run shown.
    For every task, the outcome of a run without a credential, once
    decoded by the component, gives a run that is completed, carries
    the plan and the step records, has no error, and a duration of 0. *)
Theorem offline_notice_not_shown
    (h : Host) (task : jsstring) (w : World) (run : AgentRun) :
  no_credential h = true ->
  exists outcome w',
    runAgentTask h task w = (Return outcome, w') /\
    ao_error outcome <> None /\
    run_status (resolved (wire outcome) run) = completed /\
    run_error (resolved (wire outcome) run) = None /\
    run_plan (resolved (wire outcome) run) = ao_plan outcome /\
    run_steps (resolved (wire outcome) run) = ao_steps outcome /\
    run_durationMs (resolved (wire outcome) run) = Some 0%Z.
Proof.
  intros Hcred.
  destruct (runAgentTask_offline h task w Hcred) as (steps & w' & Hrun & _).
  eexists _, _. split; [exact Hrun|]. cbn. repeat split. discriminate.
Qed.

Lemma offline_notice_not_shown_witness :
  exists outcome w',
    runAgentTask offline_host (lit "Plan a product launch") []
    = (Return outcome, w') /\
    ao_error outcome <> None /\
    run_status (resolved (wire outcome)
                  (started (lit "id-1") (lit "Plan a product launch") (lit "t0")))
    = completed /\
    run_error (resolved (wire outcome)
                 (started (lit "id-1") (lit "Plan a product launch") (lit "t0")))
    = None.
Proof.
  destruct (offline_notice_not_shown offline_host (lit "Plan a product launch")
              [] (started (lit "id-1") (lit "Plan a product launch") (lit "t0"))
              eq_refl)
    as (outcome & w' & Hrun & He & Hs & Hn & _).
  exists outcome, w'. auto.
Defined.
